(** * LLM transparency layer: the panel state machine and its collaborators

    A shallow embedding of the browser extension's state store
    ([state-manager.js]), API client ([assumptions-api-client.js]), adapter
    registry ([llm-frontend-adapters.js]), assumptions page
    ([assumptions-page.js]), input page ([input-page.js]) and panel
    controller ([panel-manager.js]), with the properties of the
    specification proved over it.

    JavaScript objects are finite maps from property names to values,
    arrays live in a heap and are handled by reference, strings are
    sequences of UTF-16 code units. *)

From Stdlib Require Import NArith Ascii String DecimalString.
From stdpp Require Import gmap strings list fin_maps.

Local Open Scope string_scope.
Local Open Scope list_scope.

(** * Part I: the embedding *)

(** ** JavaScript strings *)

Module JsString.

(** A JavaScript string is a sequence of UTF-16 code units. *)
Definition t := list N.

(** The literal [s] of the source, written as a Rocq string. *)
Definition js (s : string) : t :=
  map N_of_ascii (list_ascii_of_string s).

Definition eqb (a b : t) : bool := bool_decide (a = b).

(** WhiteSpace and LineTerminator code units of ECMAScript, the ones
    [String.prototype.trim] removes. *)
Definition isWhiteSpace (c : N) : bool :=
  match c with
  | 9 | 10 | 11 | 12 | 13 | 32 | 160 | 5760
  | 8192 | 8193 | 8194 | 8195 | 8196 | 8197 | 8198 | 8199 | 8200
  | 8201 | 8202 | 8232 | 8233 | 8239 | 8287 | 12288 | 65279 => true
  | _ => false
  end%N.

(** [dropEndWhile p s] removes the longest suffix of [s] whose code units
    all satisfy [p]. *)
Fixpoint dropEndWhile (p : N -> bool) (s : t) : t :=
  match s with
  | [] => []
  | c :: s' =>
      match dropEndWhile p s' with
      | [] => if p c then [] else [c]
      | r => c :: r
      end
  end.

Fixpoint dropStartWhile (p : N -> bool) (s : t) : t :=
  match s with
  | [] => []
  | c :: s' => if p c then dropStartWhile p s' else s
  end.

(** [s.trim()] *)
Definition trim (s : t) : t :=
  dropEndWhile isWhiteSpace (dropStartWhile isWhiteSpace s).

(** The character class [[.?!]]. *)
Definition isSentenceEnd (c : N) : bool :=
  match c with
  | 46 | 63 | 33 => true
  | _ => false
  end%N.

(** [s.replace(/[.?!]*$/, '')]: the first match of the pattern, scanning
    from the left, is the maximal run of [.], [?] and [!] that reaches the
    end of the string; it is replaced by the empty string. *)
Definition stripSentenceEnd (s : t) : t := dropEndWhile isSentenceEnd s.

(** [parts.join(sep)] *)
Fixpoint join (sep : t) (parts : list t) : t :=
  match parts with
  | [] => []
  | [p] => p
  | p :: rest => p ++ sep ++ join sep rest
  end.

(** [String(n)] for a non-negative integer. *)
Definition ofN (n : N) : t :=
  js (DecimalString.NilEmpty.string_of_uint (N.to_uint n)).

Definition endsWith (s suffix : t) : Prop := exists pre, s = pre ++ suffix.

(** The characters of a string as [s[i]] gives them: strings of one code
    unit. *)
Definition units (s : t) : list t := (fun c => [c]) <$> s.

End JsString.

(** ** Form controls  (HTML standard) *)

Module FormControl.

(** The value of a text [input] holds no line break: what is assigned to
    [input.value], and what the user enters, goes through the value
    sanitization algorithm of the Text state, "strip newlines": every
    LF and CR is removed. *)
Fixpoint stripNewlines (s : JsString.t) : JsString.t :=
  match s with
  | [] => []
  | c :: s' =>
      if ((c =? 10) || (c =? 13))%N then stripNewlines s'
      else c :: stripNewlines s'
  end.

(** What [textarea.value] reads, the API value, is the raw value with
    its newlines normalized: every CR LF pair, and every other CR,
    becomes one LF. *)
Fixpoint normalizeNewlines (s : JsString.t) : JsString.t :=
  match s with
  | [] => []
  | c :: s' =>
      if (c =? 13)%N then
        10%N :: match s' with
                | d :: s'' =>
                    if (d =? 10)%N then normalizeNewlines s''
                    else normalizeNewlines s'
                | [] => []
                end
      else c :: normalizeNewlines s'
  end.

End FormControl.

Abbreviation jsstring := JsString.t.
Abbreviation js := JsString.js.

(** ** JavaScript values and the array heap *)

(** Arrays are objects with identity: a value holds a reference into the
    heap, and two references to one array see each other's writes. *)
Abbreviation loc := nat.

Inductive JsVal : Type :=
| VUndefined
| VNull
| VBool (b : bool)
| VStr (s : jsstring)
| VArr (l : loc).

#[global] Instance JsVal_eq_dec : EqDecision JsVal.
Proof. solve_decision. Defined.

(** [ToBoolean]: what [!v], [v && ...] and [v || ...] test. *)
Definition truthy (v : JsVal) : bool :=
  match v with
  | VUndefined | VNull => false
  | VBool b => b
  | VStr s => negb (JsString.eqb s [])
  | VArr _ => true
  end.

(** [a !== b] on the values above: primitives by content, arrays by
    identity. *)
Definition strict_neq (a b : JsVal) : bool := negb (bool_decide (a = b)).

(** A plain object: own properties by name.  Reading a property that is not
    there gives [undefined]. *)
Abbreviation JsObject := (gmap string JsVal).

Definition prop (o : JsObject) (k : string) : JsVal :=
  default VUndefined (o !! k).

(** The heap of arrays of strings; [alloc] is what an array literal,
    [slice()] or the JSON parser do when they create an array. *)
Module Heap.

Abbreviation t := (list (list jsstring)).

Definition alloc (a : list jsstring) (h : t) : loc * t :=
  (length h, h ++ [a]).

(** The contents of the array at [l]; a dangling reference reads as the
    empty array (no reference of a well-formed world dangles). *)
Definition read (h : t) (l : loc) : list jsstring :=
  default [] (h !! l).

Definition write (l : loc) (a : list jsstring) (h : t) : t :=
  <[l := a]> h.

End Heap.

(** ** State store  (state-manager.js) *)

Module StateManager.
Section Store.

(** [V]: property values.  [W]: whatever the subscribers act on (the
    DOM, a log).  A subscriber is named by an identifier (the store
    keeps them in a [Set], which needs their identity) and [handler]
    gives its behaviour: it is called with the store as it stands
    during the notification and with the two snapshots.  Subscribers
    observe; they do not call back into the store. *)
Context {V W : Type}.

Record t : Type := mk {
  state : gmap string V;
  listeners : list nat;
}.

Variable handler : nat -> t -> gmap string V -> gmap string V -> W -> W.

(** [getState() { return { ...this.state }; }] *)
Definition getState (sm : t) : gmap string V := state sm.

(** [{ ...a, ...b }]: the properties of [b], then those of [a] that
    [b] does not have. *)
Definition spread (a b : gmap string V) : gmap string V := b ∪ a.

(** [this.listeners.forEach(listener => listener(newState, oldState))],
    in insertion order. *)
Definition notifyListeners (sm : t) (newState oldState : gmap string V)
    (w : W) : W :=
  foldl (fun w l => handler l sm newState oldState w) w (listeners sm).

(** [setState(updates)] *)
Definition setState (updates : gmap string V) (sm : t) (w : W) : t * W :=
  let oldState := getState sm in
  let sm' := mk (spread (state sm) updates) (listeners sm) in
  (sm', notifyListeners sm' (state sm') oldState w).

(** [subscribe(listener)]: [Set.prototype.add] keeps the first
    insertion of a member. *)
Definition subscribe (l : nat) (sm : t) : t :=
  if bool_decide (l ∈ listeners sm) then sm
  else mk (state sm) (listeners sm ++ [l]).

(** The function [subscribe] returns: [this.listeners.delete(listener)]. *)
Definition unsubscribe (l : nat) (sm : t) : t :=
  mk (state sm) (filter (fun l' => l' ≠ l) (listeners sm)).

(** A sequence of [setState] calls, one after the other. *)
Definition setStates (ps : list (gmap string V)) (sm : t) (w : W) : t * W :=
  foldl (fun '(sm, w) p => setState p sm w) (sm, w) ps.

(** Specification side.  [lastWrite k ps]: the value the latest of the
    partial updates [ps] that has a property [k] gives it. *)
Fixpoint lastWrite (k : string) (ps : list (gmap string V)) : option V :=
  match ps with
  | [] => None
  | p :: ps' =>
      match lastWrite k ps' with
      | Some v => Some v
      | None => p !! k
      end
  end.

(** Property [k] of the shallow merge of [init] with the partial
    updates [ps] applied in order: the last write, else what [init]
    has. *)
Definition shallowMerge (init : gmap string V) (ps : list (gmap string V))
    (k : string) : option V :=
  match lastWrite k ps with
  | Some v => Some v
  | None => init !! k
  end.

End Store.

Arguments t : clear implicits.

(** A subscriber that records its notifications: who was called, with
    which [newState] and [oldState]. *)
Definition recorder {V : Type} (l : nat) (sm : t V)
    (newState oldState : gmap string V)
    (log : list (nat * gmap string V * gmap string V))
    : list (nat * gmap string V * gmap string V) :=
  log ++ [(l, newState, oldState)].

End StateManager.

(** ** Exceptions and promises *)

(** What a [throw] carries: an [Error] object, of which the program reads
    the [message]. *)
Record JsError : Type := Error { message : jsstring }.

(** How a call, or the promise of an [async] function, ends: normally with
    a value (the promise is fulfilled) or with an exception (it is
    rejected). *)
Inductive Completion (A : Type) : Type :=
| Normal (a : A)
| Throw (e : JsError).
Arguments Normal {A} a.
Arguments Throw {A} e.

(** The [TypeError] the engine throws when a property of [undefined] or
    [null] is read, or when what is called is not a function.  Its message
    depends on the engine; the program logs the error and reads nothing of
    it. *)
Definition TypeError : JsError := Error (js "TypeError").

(** ** API client  (assumptions-api-client.js) *)

Module AssumptionsAPIClient.

(** [{ success, data, error }]; an absent property is [None]. *)
Record ReasoningResult (Data : Type) : Type := mkResult {
  success : bool;
  data : option Data;
  error : option jsstring;
}.
Arguments mkResult {Data}.
Arguments success {Data}.
Arguments data {Data}.
Arguments error {Data}.

(** [{ prompt, response, provider: this.provider }], the object that is
    serialised into the request body. *)
Record Payload : Type := mkPayload {
  prompt : jsstring;
  response : jsstring;
  payloadProvider : JsVal;
}.

Record Request : Type := mkRequest {
  url : jsstring;
  method : jsstring;
  headers : list (jsstring * jsstring);
  body : Payload;
}.

Section Client.

(** [Data]: a parsed JSON body. *)
Context {Data : Type}.

(** The [Response] of the Fetch standard, as far as the client reads
    it; [json] is how [res.json()] ends. *)
Record Response : Type := mkResponse {
  status : N;
  statusText : jsstring;
  json : Completion Data;
}.

(** [res.ok]: the status is in the range 200-299. *)
Definition ok (res : Response) : bool :=
  ((200 <=? status res) && (status res <=? 299))%N.

Record t : Type := mk {
  apiEndpoint : jsstring;
  provider : JsVal;
}.

(** Specification side.  The request of a call: a POST of the payload, as
    JSON, to the endpoint. *)
Definition requestOf (c : t) (prompt response : jsstring) : Request :=
  mkRequest (apiEndpoint c) (js "POST")
            [(js "Content-Type", js "application/json")]
            (mkPayload prompt response (provider c)).

(** The network: how [fetch] ends for a request. *)
Variable fetch : Request -> Completion Response.

(** [error.message || "Unknown error"] *)
Definition messageOrUnknown (e : JsError) : jsstring :=
  if truthy (VStr (message e)) then message e else js "Unknown error".

(** The body of the [try] block, after the request has been built. *)
Definition attempt (req : Request) : Completion (ReasoningResult Data) :=
  match fetch req with
  | Throw e => Throw e
  | Normal res =>
      if negb (ok res) then
        Throw (Error (js "HTTP " ++ JsString.ofN (status res) ++ js ": "
                      ++ statusText res))
      else
        match json res with
        | Throw e => Throw e
        | Normal d => Normal (mkResult true (Some d) None)
        end
  end.

(** [async extractReasoning(prompt, response)]: how the returned promise
    settles, and the requests issued on the way. *)
Definition extractReasoning (c : t) (prompt response : jsstring)
    : Completion (ReasoningResult Data) * list Request :=
  if negb (truthy (provider c)) then
    (Throw (Error (js "Provider is required for extracting reasoning.")), [])
  else
    let payload := mkPayload prompt response (provider c) in
    let req :=
      mkRequest (apiEndpoint c) (js "POST")
                [(js "Content-Type", js "application/json")] payload in
    (match attempt req with
     | Normal r => Normal r
     | Throw e => Normal (mkResult false None (Some (messageOrUnknown e)))
     end,
     [req]).

End Client.

Arguments Response : clear implicits.

End AssumptionsAPIClient.

(** ** Host page and adapters  (openAI-frontend-adapter.js,
       llm-frontend-adapters.js) *)

(** The part of the host page's DOM the adapters touch: for a CSS selector,
    the first element [document.querySelector] finds, if any. *)
Module HostPage.

Record Element : Type := mkElement {
  innerHTML : jsstring;
  inputEvents : nat;     (* [input] events dispatched on the element *)
  focused : bool;
}.

Record t : Type := mk {
  elements : gmap string Element;
  alerts : list jsstring;
}.

Definition querySelector (sel : string) (d : t) : option Element :=
  elements d !! sel.

End HostPage.

Module LLMFrontendAdapter.

(** The capability set of [LLMFrontendAdapterInterface]. *)
Record t : Type := mk {
  name : jsstring;
  detectPage : HostPage.t -> bool;
  getFooterContainer : HostPage.t -> option HostPage.Element;
  insertPrompt : jsstring -> HostPage.t -> Completion HostPage.t;
}.

End LLMFrontendAdapter.

Module OpenAIFrontendAdapter.

(** The selectors, as keys of the page (the quotes around the attribute
    values are left out). *)
Definition EDITOR : string := ".ProseMirror[contenteditable=true]".
Definition FOOTER : string := "[data-testid=composer-footer-actions]".

(** [promptText.replace(/\n/g, '<br>')] *)
Fixpoint newlinesToBr (s : jsstring) : jsstring :=
  match s with
  | [] => []
  | c :: s' =>
      if (c =? 10)%N then js "<br>" ++ newlinesToBr s' else c :: newlinesToBr s'
  end.

Definition detectPage (d : HostPage.t) : bool :=
  bool_decide (is_Some (HostPage.querySelector EDITOR d)).

Definition getFooterContainer (d : HostPage.t) : option HostPage.Element :=
  HostPage.querySelector FOOTER d.

Definition insertPrompt (promptText : jsstring) (d : HostPage.t)
    : Completion HostPage.t :=
  match HostPage.querySelector EDITOR d with
  | None =>
      Normal (HostPage.mk (HostPage.elements d)
                (HostPage.alerts d ++ [js "Unable to find ChatGPT input area."]))
  | Some editor =>
      let editor' :=
        HostPage.mkElement (js "<p>" ++ newlinesToBr promptText ++ js "</p>")
          (S (HostPage.inputEvents editor)) true in
      Normal (HostPage.mk (<[EDITOR := editor']> (HostPage.elements d))
                (HostPage.alerts d))
  end.

Definition adapter : LLMFrontendAdapter.t :=
  LLMFrontendAdapter.mk (js "chatgpt") detectPage getFooterContainer insertPrompt.

End OpenAIFrontendAdapter.

Module LLMFrontendAdapters.

(** [const LLM_FRONTEND_ADAPTERS = [ new OpenAIFrontendAdapter() ]] *)
Definition LLM_FRONTEND_ADAPTERS : list LLMFrontendAdapter.t :=
  [OpenAIFrontendAdapter.adapter].

(** [getActiveLLMFrontendAdapter()], over the registered list and the
    page: the [for ... of] loop returns at the first adapter that detects
    its frontend, and [null] ([None]) falls out of the loop. *)
Fixpoint getActive (adapters : list LLMFrontendAdapter.t) (d : HostPage.t)
    : option LLMFrontendAdapter.t :=
  match adapters with
  | [] => None
  | adapter :: rest =>
      if LLMFrontendAdapter.detectPage adapter d then Some adapter
      else getActive rest d
  end.

Definition getActiveLLMFrontendAdapter (d : HostPage.t)
    : option LLMFrontendAdapter.t :=
  getActive LLM_FRONTEND_ADAPTERS d.

End LLMFrontendAdapters.

(** ** Constants  (constants.js) *)

Module PANEL_MODES.
Definition EDIT : jsstring := js "edit".
Definition ASSUMPTIONS : jsstring := js "assumptions".
Definition ANALYZING : jsstring := js "analyzing".
End PANEL_MODES.

(** ** Arrays of strings *)

Module JsArray.

(** The elements of the array a value refers to.  Every value this is
    applied to is an array in every reachable world (see [wf] below); a
    falsy value reads as the empty array of [state.assumptions || []]. *)
Definition elements (h : Heap.t) (v : JsVal) : list jsstring :=
  match v with
  | VArr l => Heap.read h l
  | _ => []
  end.

(** [a.splice(index, 1)]: removes the element at [index], nothing when
    [index] is past the end. *)
Definition splice1 (index : nat) (a : list jsstring) : list jsstring :=
  take index a ++ drop (S index) a.

(** [a[index] = x].  Past the end the source would grow the array with
    holes, which an array of strings cannot hold: [None]. *)
Definition set (index : nat) (x : jsstring) (a : list jsstring)
    : option (list jsstring) :=
  if bool_decide (index < length a) then Some (<[index := x]> a) else None.

(** [v || []] and [v ?? []]: the array literal is a new array. *)
Definition orEmpty (v : JsVal) (h : Heap.t) : JsVal * Heap.t :=
  if truthy v then (v, h)
  else let '(l, h') := Heap.alloc [] h in (VArr l, h').

Definition nullish (v : JsVal) : bool :=
  match v with
  | VUndefined | VNull => true
  | _ => false
  end.

Definition coalesceEmpty (v : JsVal) (h : Heap.t) : JsVal * Heap.t :=
  if nullish v then let '(l, h') := Heap.alloc [] h in (VArr l, h')
  else (v, h).

End JsArray.

(** ** View components *)

(** [element.style.display] *)
Inductive Display : Type :=
| DisplayUnset
| DisplayNone
| DisplayFlex
| DisplayInlineBlock.

#[global] Instance Display_eq_dec : EqDecision Display.
Proof. solve_decision. Defined.

(** *** Input page  (input-page.js) *)

Module InputPage.

Record t : Type := mk {
  userPrompt : jsstring;              (* [this.userPrompt.value] *)
  aiResponse : jsstring;              (* [this.aiResponse.value] *)
  analyzeDisabled : bool;             (* [this.analyzeBtn.disabled] *)
  forwardDisplay : Display;           (* [this.forwardBtn.style.display] *)
  forwardDisabled : bool;             (* [this.forwardBtn.disabled] *)
  inputsChangedSinceAnalyze : bool;
  display : Display;                  (* [this.container.style.display] *)
  debouncePending : bool;             (* a debounced input change is due *)
}.

(** The constructor: both buttons start disabled, Forward with
    [display:none]. *)
Definition create : t :=
  mk [] [] true DisplayNone true true DisplayUnset false.

Definition updateAnalyzeButton (p : t) : t :=
  let bothInputsFilled :=
    truthy (VStr (JsString.trim (userPrompt p)))
    && truthy (VStr (JsString.trim (aiResponse p))) in
  mk (userPrompt p) (aiResponse p)
     (negb (bothInputsFilled && inputsChangedSinceAnalyze p))
     (forwardDisplay p) (forwardDisabled p) (inputsChangedSinceAnalyze p)
     (display p) (debouncePending p).

Definition showForwardButton (p : t) : t :=
  mk (userPrompt p) (aiResponse p) (analyzeDisabled p)
     DisplayInlineBlock false (inputsChangedSinceAnalyze p)
     (display p) (debouncePending p).

Definition hideForwardButton (p : t) : t :=
  mk (userPrompt p) (aiResponse p) (analyzeDisabled p)
     DisplayNone true (inputsChangedSinceAnalyze p)
     (display p) (debouncePending p).

Definition setInputsChanged (b : bool) (p : t) : t :=
  mk (userPrompt p) (aiResponse p) (analyzeDisabled p)
     (forwardDisplay p) (forwardDisabled p) b (display p) (debouncePending p).

Definition setDisplay (d : Display) (p : t) : t :=
  mk (userPrompt p) (aiResponse p) (analyzeDisabled p)
     (forwardDisplay p) (forwardDisabled p) (inputsChangedSinceAnalyze p)
     d (debouncePending p).

Definition setDebouncePending (b : bool) (p : t) : t :=
  mk (userPrompt p) (aiResponse p) (analyzeDisabled p)
     (forwardDisplay p) (forwardDisabled p) (inputsChangedSinceAnalyze p)
     (display p) b.

(** [this.userPrompt.value = text], or the user's edit: [userPrompt] is
    what [this.userPrompt.value] reads afterwards. *)
Definition setUserPromptValue (text : jsstring) (p : t) : t :=
  mk (FormControl.normalizeNewlines text) (aiResponse p) (analyzeDisabled p)
     (forwardDisplay p) (forwardDisabled p) (inputsChangedSinceAnalyze p)
     (display p) (debouncePending p).

Definition setAIResponseValue (text : jsstring) (p : t) : t :=
  mk (userPrompt p) (FormControl.normalizeNewlines text) (analyzeDisabled p)
     (forwardDisplay p) (forwardDisabled p) (inputsChangedSinceAnalyze p)
     (display p) (debouncePending p).

Definition show : t -> t := setDisplay DisplayFlex.
Definition hide : t -> t := setDisplay DisplayNone.

Definition handleInputChange (p : t) : t :=
  updateAnalyzeButton (hideForwardButton (setInputsChanged true p)).

Definition setUserPrompt (text : jsstring) (p : t) : t :=
  handleInputChange (setUserPromptValue text p).

Definition setAIResponse (text : jsstring) (p : t) : t :=
  handleInputChange (setAIResponseValue text p).

Definition getUserPrompt (p : t) : jsstring := JsString.trim (userPrompt p).
Definition getAIResponse (p : t) : jsstring := JsString.trim (aiResponse p).

(** The Analyze click listener: its guard, and what it does once
    [onAnalyze] has returned. *)
Definition analyzeClickPasses (p : t) : bool :=
  negb (analyzeDisabled p) && inputsChangedSinceAnalyze p.

Definition afterAnalyze (p : t) : t :=
  updateAnalyzeButton (hideForwardButton (setInputsChanged false p)).

(** The Forward click listener's guard. *)
Definition forwardClickPasses (p : t) : bool := negb (forwardDisabled p).

(** The Forward affordance is visible when its [display] is not [none]. *)
Definition forwardVisible (p : t) : bool :=
  bool_decide (forwardDisplay p ≠ DisplayNone).

End InputPage.

(** *** Analyzing page  (analyzing-page.js) *)

Module AnalyzingPage.

Record t : Type := mk { display : Display }.

Definition create : t := mk DisplayUnset.
Definition show (p : t) : t := mk DisplayFlex.
Definition hide (p : t) : t := mk DisplayNone.

End AnalyzingPage.

(** *** Assumptions page  (assumptions-page.js) *)

Module AssumptionsPage.

(** One rendered bubble: the text span and the edit input, a text
    [input] ([inputValue] is what [input.value] reads).  The [index] its
    listeners close over is its position in [bubbles], since the page
    renders all bubbles anew each time. *)
Record Bubble : Type := mkBubble {
  spanText : jsstring;
  spanDisplay : Display;
  inputValue : jsstring;
  inputDisplay : Display;
}.

Record t : Type := mk {
  assumptions : loc;                  (* [this.assumptions] *)
  bubbles : list Bubble;              (* children of the container *)
  emptyNotice : bool;                 (* the "No assumptions found" notice *)
  display : Display;
}.

(** The constructor: [this.assumptions = []], nothing rendered yet. *)
Definition create (h : Heap.t) : t * Heap.t :=
  let '(l, h') := Heap.alloc [] h in (mk l [] false DisplayUnset, h').

(** [span.textContent = text; input.value = text] *)
Definition createAssumptionBubble (text : jsstring) (index : nat) : Bubble :=
  mkBubble text DisplayUnset (FormControl.stripNewlines text) DisplayNone.

Definition renderAssumptions (h : Heap.t) (p : t) : t :=
  let a := Heap.read h (assumptions p) in
  if bool_decide (length a = 0) then mk (assumptions p) [] true (display p)
  else mk (assumptions p)
          (imap (fun i text => createAssumptionBubble text i) a)
          false (display p).

(** [setAssumptions(assumptions)]: the page and the heap afterwards, and
    the exception thrown, if any.  On an array [slice()] copies into a new
    array, which is rendered.  [undefined], [null] and a boolean have no
    [slice]: a [TypeError], before anything is assigned.  A string has
    [slice] (the string itself) and [length], but no [forEach]: it is
    assigned, the container is emptied, and unless the string is empty
    [_renderAssumptions] throws; the page reads it by code unit (nothing
    reads [this.assumptions] before it is assigned again, since the page
    then has no bubble). *)
Definition setAssumptions (arg : JsVal) (h : Heap.t) (p : t)
    : t * Heap.t * option JsError :=
  match arg with
  | VArr _ =>
      let '(l, h') := Heap.alloc (JsArray.elements h arg) h in
      (renderAssumptions h' (mk l (bubbles p) (emptyNotice p) (display p)), h', None)
  | VStr s =>
      let '(l, h') := Heap.alloc (JsString.units s) h in
      if bool_decide (s = []) then (mk l [] true (display p), h', None)
      else (mk l [] false (display p), h', Some TypeError)
  | VUndefined | VNull | VBool _ => (p, h, Some TypeError)
  end.

Definition setDisplay (d : Display) (p : t) : t :=
  mk (assumptions p) (bubbles p) (emptyNotice p) d.

Definition show : t -> t := setDisplay DisplayFlex.
Definition hide : t -> t := setDisplay DisplayNone.

Definition setBubbles (bs : list Bubble) (p : t) : t :=
  mk (assumptions p) bs (emptyNotice p) (display p).

(** [editBtn.onclick] of bubble [index] *)
Definition editClick (index : nat) (p : t) : t :=
  setBubbles
    (alter (fun b => mkBubble (spanText b) DisplayNone (inputValue b)
                              DisplayInlineBlock) index (bubbles p)) p.

(** The user enters [text] in the edit input of bubble [index]. *)
Definition typeInto (index : nat) (text : jsstring) (p : t) : t :=
  setBubbles
    (alter (fun b => mkBubble (spanText b) (spanDisplay b)
                              (FormControl.stripNewlines text)
                              (inputDisplay b)) index (bubbles p)) p.

(** The [blur] listener of bubble [index] *)
Definition blur (index : nat) (p : t) : t :=
  setBubbles
    (alter (fun b => mkBubble (spanText b) DisplayInlineBlock (inputValue b)
                              DisplayNone) index (bubbles p)) p.

(** [_updateAssumptionsState()] renders, then calls
    [onUpdateAssumptions(this.assumptions)]: the result carries the
    argument of that call for the controller to act on. *)
Definition updateAssumptionsState (h : Heap.t) (p : t) : t * Heap.t * option loc :=
  (renderAssumptions h p, h, Some (assumptions p)).

(** [delBtn.onclick] of bubble [index] *)
Definition deleteClick (index : nat) (h : Heap.t) (p : t)
    : t * Heap.t * option loc :=
  let l := assumptions p in
  let h' := Heap.write l (JsArray.splice1 index (Heap.read h l)) h in
  updateAssumptionsState h' p.

(** The [keydown] listener of bubble [index]'s edit input.  [None]: there
    is no such bubble, or [index] falls outside the array. *)
Definition keydown (index : nat) (key : jsstring) (h : Heap.t) (p : t)
    : option (t * Heap.t * option loc) :=
  match bubbles p !! index with
  | None => None
  | Some b =>
      let l := assumptions p in
      if JsString.eqb key (js "Enter") then
        match JsArray.set index (JsString.trim (inputValue b)) (Heap.read h l) with
        | None => None
        | Some a' => Some (updateAssumptionsState (Heap.write l a' h) p)
        end
      else if JsString.eqb key (js "Escape") then
        match Heap.read h l !! index with
        | None => None
        | Some text =>
            Some (setBubbles
                    (<[index := mkBubble (spanText b) DisplayInlineBlock
                                         (FormControl.stripNewlines text)
                                         DisplayNone]> (bubbles p)) p,
                  h, None)
        end
      else Some (p, h, None)
  end.

End AssumptionsPage.

(** ** Panel controller  (panel-manager.js) *)

Module PanelManager.

Import AssumptionsAPIClient.

Record t : Type := mk {
  title : jsstring;                       (* [this.titleElement.textContent] *)
  currentMode : JsVal;                    (* [this.currentMode] *)
  visible : bool;                         (* the panel has class [visible] *)
  llmFrontend : LLMFrontendAdapter.t;
}.

(** Everything the controller and its pages act on, the store apart. *)
Record UI : Type := mkUI {
  heap : Heap.t;
  panel : t;
  inputPage : InputPage.t;
  analyzingPage : AnalyzingPage.t;
  assumptionsPage : AssumptionsPage.t;
  host : HostPage.t;
  console : list jsstring;
  apiCalls : list (jsstring * jsstring);  (* [extractReasoning] calls made *)
  inFlight : nat;                         (* those not settled yet *)
}.

Definition World : Type := StateManager.t JsVal * UI.

Definition setHeap (h : Heap.t) (u : UI) : UI :=
  mkUI h (panel u) (inputPage u) (analyzingPage u) (assumptionsPage u)
       (host u) (console u) (apiCalls u) (inFlight u).

Definition setPanel (p : t) (u : UI) : UI :=
  mkUI (heap u) p (inputPage u) (analyzingPage u) (assumptionsPage u)
       (host u) (console u) (apiCalls u) (inFlight u).

Definition setInputPage (p : InputPage.t) (u : UI) : UI :=
  mkUI (heap u) (panel u) p (analyzingPage u) (assumptionsPage u)
       (host u) (console u) (apiCalls u) (inFlight u).

Definition setAnalyzingPage (p : AnalyzingPage.t) (u : UI) : UI :=
  mkUI (heap u) (panel u) (inputPage u) p (assumptionsPage u)
       (host u) (console u) (apiCalls u) (inFlight u).

Definition setAssumptionsPage (p : AssumptionsPage.t) (u : UI) : UI :=
  mkUI (heap u) (panel u) (inputPage u) (analyzingPage u) p
       (host u) (console u) (apiCalls u) (inFlight u).

Definition setHost (d : HostPage.t) (u : UI) : UI :=
  mkUI (heap u) (panel u) (inputPage u) (analyzingPage u) (assumptionsPage u)
       d (console u) (apiCalls u) (inFlight u).

Definition consoleLog (line : jsstring) (u : UI) : UI :=
  mkUI (heap u) (panel u) (inputPage u) (analyzingPage u) (assumptionsPage u)
       (host u) (console u ++ [line]) (apiCalls u) (inFlight u).

Definition setTitle (s : jsstring) (u : UI) : UI :=
  setPanel (mk s (currentMode (panel u)) (visible (panel u))
               (llmFrontend (panel u))) u.

Definition setCurrentMode (m : JsVal) (u : UI) : UI :=
  setPanel (mk (title (panel u)) m (visible (panel u))
               (llmFrontend (panel u))) u.

Definition setVisible (b : bool) (u : UI) : UI :=
  setPanel (mk (title (panel u)) (currentMode (panel u)) b
               (llmFrontend (panel u))) u.

(** [state.assumptions && state.assumptions.length > 0] *)
Definition hasAssumptions (h : Heap.t) (state : JsObject) : bool :=
  truthy (prop state "assumptions")
  && bool_decide (0 < length (JsArray.elements h (prop state "assumptions"))).

(** [_updateModeUI(mode)]; [sm] is [this.stateManager]. *)
Definition updateModeUI (mode : JsVal) (sm : StateManager.t JsVal) (u : UI) : UI :=
  let state := StateManager.getState sm in
  if bool_decide (mode = VStr PANEL_MODES.EDIT) then
    let u := setTitle (js "Analyze Prompt") u in
    let u := setInputPage (InputPage.show (inputPage u)) u in
    let u := setAnalyzingPage (AnalyzingPage.hide (analyzingPage u)) u in
    let u := setAssumptionsPage (AssumptionsPage.hide (assumptionsPage u)) u in
    if hasAssumptions (heap u) state then
      setInputPage (InputPage.showForwardButton (inputPage u)) u
    else
      setInputPage (InputPage.hideForwardButton (inputPage u)) u
  else if bool_decide (mode = VStr PANEL_MODES.ANALYZING) then
    let u := setTitle (js "Analyzing...") u in
    let u := setInputPage (InputPage.hide (inputPage u)) u in
    let u := setAnalyzingPage (AnalyzingPage.show (analyzingPage u)) u in
    let u := setAssumptionsPage (AssumptionsPage.hide (assumptionsPage u)) u in
    setInputPage (InputPage.hideForwardButton (inputPage u)) u
  else if bool_decide (mode = VStr PANEL_MODES.ASSUMPTIONS) then
    let u := setTitle (js "Assumptions") u in
    let u := setInputPage (InputPage.hide (inputPage u)) u in
    let u := setAnalyzingPage (AnalyzingPage.hide (analyzingPage u)) u in
    let u := setAssumptionsPage (AssumptionsPage.show (assumptionsPage u)) u in
    setInputPage (InputPage.hideForwardButton (inputPage u)) u
  else
    let u := setInputPage (InputPage.show (inputPage u)) u in
    let u := setAnalyzingPage (AnalyzingPage.hide (analyzingPage u)) u in
    let u := setAssumptionsPage (AssumptionsPage.hide (assumptionsPage u)) u in
    setInputPage (InputPage.hideForwardButton (inputPage u)) u.

(** What [arr.length] and [arr[i]] give [_arraysEqual] for a parameter:
    [undefined] has been replaced by the default [[]]; [null] has no
    properties, a [TypeError]; a boolean has no [length] ([None]: it is
    [undefined]); a string is read by code unit. *)
Definition arrayView (h : Heap.t) (v : JsVal)
    : Completion (option (list jsstring)) :=
  match v with
  | VUndefined => Normal (Some [])
  | VNull => Throw TypeError
  | VBool _ => Normal None
  | VStr s => Normal (Some (JsString.units s))
  | VArr l => Normal (Some (Heap.read h l))
  end.

(** [_arraysEqual(arr1 = [], arr2 = [])]: same [length] and [===]
    elements. *)
Definition arraysEqual (h : Heap.t) (arr1 arr2 : JsVal) : Completion bool :=
  match arrayView h arr1 with
  | Throw e => Throw e
  | Normal a1 =>
      match arrayView h arr2 with
      | Throw e => Throw e
      | Normal a2 => Normal (bool_decide (a1 = a2))
      end
  end.

(** [this.assumptionsPage.setAssumptions(arg)]: the user interface
    afterwards and the exception thrown, if any. *)
Definition pageSetAssumptions (arg : JsVal) (u : UI) : UI * option JsError :=
  let '(p, h, thrown) :=
    AssumptionsPage.setAssumptions arg (heap u) (assumptionsPage u) in
  (setAssumptionsPage p (setHeap h u), thrown).

(** [_handleStateChange(newState, oldState)]: the user interface
    afterwards and the exception thrown, if any. *)
Definition handleStateChange (sm : StateManager.t JsVal)
    (newState oldState : JsObject) (u : UI) : UI * option JsError :=
  let u :=
    if strict_neq (prop newState "currentMode") (prop oldState "currentMode")
    then
      let u := setCurrentMode (prop newState "currentMode") u in
      updateModeUI (currentMode (panel u)) sm u
    else u in
  match arraysEqual (heap u) (prop newState "assumptions")
                    (prop oldState "assumptions") with
  | Throw e => (u, Some e)
  | Normal equal =>
      let assumptionsChanged := negb equal in
      if assumptionsChanged then
        let '(arg, h) := JsArray.orEmpty (prop newState "assumptions") (heap u) in
        pageSetAssumptions arg (setHeap h u)
      else (u, None)
  end.

(** The controller is the store's only subscriber. *)
Definition PANEL_LISTENER : nat := 0.

(** What the subscribers act on: the user interface, with the exception
    a subscriber has thrown: [forEach] stops there, and the exception
    leaves [setState]. *)
Definition handler (l : nat) (sm : StateManager.t JsVal)
    (newState oldState : JsObject) (o : UI * option JsError)
    : UI * option JsError :=
  match o.2 with
  | Some e => o
  | None =>
      if bool_decide (l = PANEL_LISTENER)
      then handleStateChange sm newState oldState o.1
      else o
  end.

(** [this.stateManager.setState(updates)]: the store and the user
    interface afterwards ... *)
Definition setState (updates : JsObject) (w : World) : World :=
  let r := StateManager.setState handler updates w.1 (w.2, None) in
  (r.1, r.2.1).

(** ... and the exception the call throws, if any. *)
Definition setStateThrows (updates : JsObject) (w : World) : option JsError :=
  (StateManager.setState handler updates w.1 (w.2, None)).2.2.

(** [new StateManager()]: the field initialisers. *)
Definition newStateManager (h : Heap.t) : StateManager.t JsVal * Heap.t :=
  let '(l, h') := Heap.alloc [] h in
  (StateManager.mk
     (<["userPrompt" := VStr []]>
      (<["aiResponse" := VStr []]>
       (<["assumptions" := VArr l]>
        (<["savedPrompt" := VStr []]>
         (<["savedResponse" := VStr []]>
          (<["currentMode" := VStr PANEL_MODES.EDIT]>
           (<["isAnalyzing" := VBool false]> ∅)))))))
     [],
   h').

(** [new PanelManager({ stateManager, apiClient, llmFrontend })] on a
    host page [d], as [GlassOSApp] constructs it. *)
Definition create (adapter : LLMFrontendAdapter.t) (d : HostPage.t) : World :=
  let '(sm, h) := newStateManager [] in
  let '(ap, h) := AssumptionsPage.create h in
  let u :=
    mkUI h (mk (js "Analyze Prompt") (VStr PANEL_MODES.EDIT) false adapter)
         InputPage.create AnalyzingPage.create ap d [] [] 0 in
  let u := updateModeUI (currentMode (panel u)) sm u in
  (StateManager.subscribe PANEL_LISTENER sm, u).

(** [_handleAnalyze(userPrompt, aiResponse)] up to its [await]: the
    synchronous [setState] and the call of [extractReasoning]. *)
Definition handleAnalyze_begin (userPrompt aiResponse : jsstring) (w : World)
    : World :=
  let updates :=
    <["isAnalyzing" := VBool true]>
      (<["savedPrompt" := VStr userPrompt]>
       (<["savedResponse" := VStr aiResponse]>
        (<["currentMode" := VStr PANEL_MODES.ANALYZING]> ∅))) in
  let '(sm, u) := setState updates w in
  match setStateThrows updates w with
  | Some e => (sm, u)     (* the promise is rejected before any call *)
  | None =>
      (sm, mkUI (heap u) (panel u) (inputPage u) (analyzingPage u)
                (assumptionsPage u) (host u) (console u)
                (apiCalls u ++ [(userPrompt, aiResponse)]) (S (inFlight u)))
  end.

(** The [catch] block of [_handleAnalyze].  (An exception of its
    [setState] rejects the promise of [_handleAnalyze], which nothing
    awaits.) *)
Definition handleAnalyze_catch (w : World) : World :=
  setState (<["isAnalyzing" := VBool false]>
            (<["currentMode" := VStr PANEL_MODES.EDIT]> ∅))
           (w.1, consoleLog (js "API call failed:") w.2).

(** [_handleAnalyze] from its [await] on, once the promise of
    [extractReasoning] has settled with [c].  The [data] of a result is
    the parsed body, an object whose arrays are in the heap; [None]: the
    result has no [data], or [null].  Whatever is thrown inside the [try]
    block goes to the [catch] block. *)
Definition handleAnalyze_resume (c : Completion (ReasoningResult JsObject))
    (w : World) : World :=
  match c with
  | Throw e => handleAnalyze_catch w
  | Normal result =>
      if success result then
        match data result with
        | None => handleAnalyze_catch w   (* [result.data.assumptions] throws *)
        | Some d =>
            let '(a1, h) := JsArray.coalesceEmpty (prop d "assumptions") (heap w.2) in
            let updates :=
              <["assumptions" := a1]>
                (<["isAnalyzing" := VBool false]>
                 (<["currentMode" := VStr PANEL_MODES.ASSUMPTIONS]> ∅)) in
            let '(sm, u) := setState updates (w.1, setHeap h w.2) in
            match setStateThrows updates (w.1, setHeap h w.2) with
            | Some e => handleAnalyze_catch (sm, u)
            | None =>
                let '(a2, h) :=
                  JsArray.coalesceEmpty (prop d "assumptions") (heap u) in
                let '(u', thrown) := pageSetAssumptions a2 (setHeap h u) in
                match thrown with
                | Some e => handleAnalyze_catch (sm, u')
                | None => (sm, u')
                end
            end
        end
      else
        let updates :=
          <["isAnalyzing" := VBool false]>
            (<["currentMode" := VStr PANEL_MODES.EDIT]> ∅) in
        let w' := (w.1, consoleLog (js "Analysis error:") w.2) in
        match setStateThrows updates w' with
        | Some e => handleAnalyze_catch (setState updates w')
        | None => setState updates w'
        end
  end.

(** [_handleForward()] *)
Definition handleForward (w : World) : World :=
  let state := StateManager.getState w.1 in
  if hasAssumptions (heap w.2) state then
    setState (<["currentMode" := VStr PANEL_MODES.ASSUMPTIONS]> ∅) w
  else w.

(** The string a value is, where the source calls a string method on it. *)
Definition asString (v : JsVal) : jsstring :=
  match v with
  | VStr s => s
  | _ => []
  end.

Definition REPROMPT_PREAMBLE : jsstring := js "Please answer the following: ".

Definition REPROMPT_INSTRUCTION : jsstring :=
  js ". When answering, make ONLY the following assumptions about the user's request:"
  ++ [10%N].

(** The template literal of [_handleReprompt]. *)
Definition repromptText (h : Heap.t) (state : JsObject) : jsstring :=
  let savedPrompt :=
    if truthy (prop state "savedPrompt") then prop state "savedPrompt"
    else VStr [] in
  let cleanedPrompt := JsString.stripSentenceEnd (JsString.trim (asString savedPrompt)) in
  REPROMPT_PREAMBLE ++ cleanedPrompt ++ REPROMPT_INSTRUCTION
  ++ JsString.join [10%N]
       (map (fun a => js "- " ++ a)
            (JsArray.elements h (prop state "assumptions"))).

(** [_handleReprompt()] *)
Definition handleReprompt (w : World) : World :=
  let state := StateManager.getState w.1 in
  let text := repromptText (heap w.2) state in
  match LLMFrontendAdapter.insertPrompt (llmFrontend (panel w.2)) text (host w.2) with
  | Normal d => (w.1, setHost d w.2)
  | Throw e => (w.1, consoleLog (js "Failed to insert prompt into LLM input:") w.2)
  end.

(** [_handleUpdateAssumptions(updatedAssumptions)] *)
Definition handleUpdateAssumptions (updatedAssumptions : loc) (w : World) : World :=
  setState (<["assumptions" := VArr updatedAssumptions]> ∅) w.

Definition setUserPrompt (text : jsstring) (w : World) : World :=
  (w.1, setInputPage (InputPage.setUserPrompt text (inputPage w.2)) w.2).

Definition setAIResponse (text : jsstring) (w : World) : World :=
  (w.1, setInputPage (InputPage.setAIResponse text (inputPage w.2)) w.2).

Definition isVisible (w : World) : bool := visible (panel w.2).

Definition show (w : World) : World :=
  (w.1, consoleLog (js "[PanelManager] show() called") (setVisible true w.2)).

Definition hide (w : World) : World := (w.1, setVisible false w.2).

(** [enterEditMode()] *)
Definition enterEditMode (w : World) : World :=
  setState (<["currentMode" := VStr PANEL_MODES.EDIT]> ∅) w.

End PanelManager.

(** ** The running extension: user and network events *)

Module EventLoop.

Import AssumptionsAPIClient.
Import PanelManager.

(** The [assumptions] property of a response body, as the backend may
    send it. *)
Inductive JsonField : Type :=
| FieldAbsent
| FieldNull
| FieldStrings (items : list jsstring).

(** Modelled from the spec: the [ReasoningResult] typedef
    ([IReasoningAPIClient]) and the backend's response schema are not among
    the sources.  Section 3 gives the data of a result as an object
    [{assumptions: sequence of text}], and section 7 lets the field be
    missing. *)
Record ResponseBody : Type := mkBody { assumptionsField : JsonField }.

(** The object [res.json()] builds from a body: a parsed array is a new
    array of the heap. *)
Definition parseBody (b : ResponseBody) (h : Heap.t) : JsObject * Heap.t :=
  match assumptionsField b with
  | FieldAbsent => (∅, h)
  | FieldNull => (<["assumptions" := VNull]> ∅, h)
  | FieldStrings items =>
      let '(l, h') := Heap.alloc items h in
      (<["assumptions" := VArr l]> ∅, h')
  end.

Definition parseCompletion (c : Completion (ReasoningResult ResponseBody))
    (h : Heap.t) : Completion (ReasoningResult JsObject) * Heap.t :=
  match c with
  | Throw e => (Throw e, h)
  | Normal r =>
      match data r with
      | None => (Normal (mkResult (success r) None (error r)), h)
      | Some b =>
          let '(d, h') := parseBody b h in
          (Normal (mkResult (success r) (Some d) (error r)), h')
      end
  end.

Inductive Target : Type := TargetUser | TargetAI.

Inductive Event : Type :=
| TypePrompt (text : jsstring)          (* the user edits a textarea *)
| TypeResponse (text : jsstring)
| DebounceElapsed                       (* the debounced input handler runs *)
| ClickAnalyze
| ClickForward
| ApiSettled (c : Completion (ReasoningResult ResponseBody))
| ClickBack
| ClickReprompt
| ClickEdit (index : nat)
| TypeBubble (index : nat) (text : jsstring)
| Keydown (index : nat) (key : jsstring)
| Blur (index : nat)
| ClickDelete (index : nat)
| ToolbarInsert (target : Target) (selectedText : jsstring)
| ClickToggle                           (* the injected button: [show()] *)
| ClickClose.

(** A page's controls take user input only while the page is displayed. *)
Definition shown (d : Display) : bool := bool_decide (d ≠ DisplayNone).

(** A listener of the assumptions page ran and may have called
    [onUpdateAssumptions]. *)
Definition afterPage (r : AssumptionsPage.t * Heap.t * option loc) (w : World)
    : World :=
  let '(p, h, callback) := r in
  let w' := (w.1, setAssumptionsPage p (setHeap h w.2)) in
  match callback with
  | Some l => handleUpdateAssumptions l w'
  | None => w'
  end.

(** The Analyze click listener of the input page. *)
Definition clickAnalyze (w : World) : World :=
  let ip := inputPage w.2 in
  let '(sm, u) :=
    handleAnalyze_begin (InputPage.getUserPrompt ip) (InputPage.getAIResponse ip) w in
  (sm, setInputPage (InputPage.afterAnalyze (inputPage u)) u).

(** The promise of [extractReasoning] settles and [_handleAnalyze]
    resumes. *)
Definition apiSettled (c : Completion (ReasoningResult ResponseBody)) (w : World)
    : World :=
  let '(c', h) := parseCompletion c (heap w.2) in
  let u := w.2 in
  handleAnalyze_resume c'
    (w.1, mkUI h (panel u) (inputPage u) (analyzingPage u) (assumptionsPage u)
               (host u) (console u) (apiCalls u) (pred (inFlight u))).

(** [SelectionToolbar._insertSelection(type)] with the selected text. *)
Definition toolbarInsert (target : Target) (selectedText : jsstring) (w : World)
    : World :=
  let w := show w in
  let w :=
    match target with
    | TargetUser => setUserPrompt selectedText w
    | TargetAI => setAIResponse selectedText w
    end in
  enterEditMode w.

(** One event; [None] when the event cannot happen in [w]. *)
Definition step (ev : Event) (w : World) : option World :=
  let u := w.2 in
  match ev with
  | TypePrompt text =>
      if shown (InputPage.display (inputPage u)) then
        Some (w.1, setInputPage
                     (InputPage.setDebouncePending true
                        (InputPage.setUserPromptValue text (inputPage u))) u)
      else None
  | TypeResponse text =>
      if shown (InputPage.display (inputPage u)) then
        Some (w.1, setInputPage
                     (InputPage.setDebouncePending true
                        (InputPage.setAIResponseValue text (inputPage u))) u)
      else None
  | DebounceElapsed =>
      if InputPage.debouncePending (inputPage u) then
        Some (w.1, setInputPage
                     (InputPage.handleInputChange
                        (InputPage.setDebouncePending false (inputPage u))) u)
      else None
  | ClickAnalyze =>
      if shown (InputPage.display (inputPage u))
         && InputPage.analyzeClickPasses (inputPage u)
      then Some (clickAnalyze w) else None
  | ClickForward =>
      if shown (InputPage.display (inputPage u))
         && InputPage.forwardClickPasses (inputPage u)
      then Some (handleForward w) else None
  | ApiSettled c =>
      if bool_decide (0 < inFlight u) then Some (apiSettled c w) else None
  | ClickBack =>
      if shown (AssumptionsPage.display (assumptionsPage u))
      then Some (enterEditMode w) else None
  | ClickReprompt =>
      if shown (AssumptionsPage.display (assumptionsPage u))
      then Some (handleReprompt w) else None
  | ClickEdit index =>
      if shown (AssumptionsPage.display (assumptionsPage u))
      then Some (w.1, setAssumptionsPage
                        (AssumptionsPage.editClick index (assumptionsPage u)) u)
      else None
  | TypeBubble index text =>
      if shown (AssumptionsPage.display (assumptionsPage u))
      then Some (w.1, setAssumptionsPage
                        (AssumptionsPage.typeInto index text (assumptionsPage u)) u)
      else None
  | Keydown index key =>
      if shown (AssumptionsPage.display (assumptionsPage u)) then
        match AssumptionsPage.keydown index key (heap u) (assumptionsPage u) with
        | Some r => Some (afterPage r w)
        | None => None
        end
      else None
  | Blur index =>
      Some (w.1, setAssumptionsPage
                   (AssumptionsPage.blur index (assumptionsPage u)) u)
  | ClickDelete index =>
      if shown (AssumptionsPage.display (assumptionsPage u))
         && bool_decide (is_Some (AssumptionsPage.bubbles (assumptionsPage u) !! index))
      then Some (afterPage
                   (AssumptionsPage.deleteClick index (heap u) (assumptionsPage u)) w)
      else None
  | ToolbarInsert target selectedText =>
      if truthy (VStr selectedText)
      then Some (toolbarInsert target selectedText w) else None
  | ClickToggle => Some (show w)
  | ClickClose => Some (hide w)
  end.

(** A run: the events one after the other. *)
Fixpoint run (evs : list Event) (w : World) : option World :=
  match evs with
  | [] => Some w
  | ev :: evs' =>
      match step ev w with
      | Some w' => run evs' w'
      | None => None
      end
  end.

(** The worlds the extension can be in: those a run from a freshly
    constructed panel ends in. *)
Definition reachable (w : World) : Prop :=
  exists adapter d evs, run evs (PanelManager.create adapter d) = Some w.

(** Observations of a world. *)
Definition stateOf (w : World) : JsObject := StateManager.getState w.1.

Definition assumptionsOf (w : World) : list jsstring :=
  JsArray.elements (heap w.2) (prop (stateOf w) "assumptions").

Definition forwardVisible (w : World) : bool :=
  InputPage.forwardVisible (inputPage w.2).

(** The API call failed: the promise was rejected, or it was fulfilled
    with a result whose [success] is false. *)
Definition failed {Data : Type} (c : Completion (ReasoningResult Data)) : bool :=
  match c with
  | Throw _ => true
  | Normal r => negb (success r)
  end.

(** Specification side: what the properties below are stated with. *)

(** The three panel modes. *)
Definition validMode (m : jsstring) : Prop :=
  m = PANEL_MODES.EDIT \/ m = PANEL_MODES.ANALYZING \/ m = PANEL_MODES.ASSUMPTIONS.

(** [newState.currentMode !== oldState.currentMode] *)
Definition modeChanged (newState oldState : JsObject) : bool :=
  strict_neq (prop newState "currentMode") (prop oldState "currentMode").

(** The body of a response, parsed: its [assumptions] is absent, [null]
    or an array of the heap. *)
Definition validData (h : Heap.t) (d : JsObject) : Prop :=
  match prop d "assumptions" with
  | VUndefined | VNull => True
  | VArr l => l < length h
  | _ => False
  end.

Definition validCompletion (h : Heap.t) (c : Completion (ReasoningResult JsObject))
    : Prop :=
  match c with
  | Normal r => match data r with Some d => validData h d | None => True end
  | Throw _ => True
  end.

(** The update of both failure branches of [_handleAnalyze]. *)
Definition revertToEdit : JsObject :=
  <["isAnalyzing" := VBool false]> (<["currentMode" := VStr PANEL_MODES.EDIT]> ∅).

(** The assumptions as [_handleReprompt] lists them: each after ["- "],
    joined by newlines. *)
Definition bulletList (assumptions : list jsstring) : jsstring :=
  JsString.join [10%N] (map (fun a => js "- " ++ a) assumptions).

(** The page's own list, [this.assumptions] of the assumptions page. *)
Definition pageAssumptions (w : World) : list jsstring :=
  Heap.read (heap w.2) (AssumptionsPage.assumptions (assumptionsPage w.2)).

(** The page lists what the state holds (in one array or in two). *)
Definition synced (w : World) : Prop := pageAssumptions w = assumptionsOf w.

(** Well-formed worlds: what every run keeps true (see [reachable_wf]). *)
Record wf (w : World) : Prop := mkWf {
  (* the controller is the one subscriber *)
  wf_listeners : StateManager.listeners w.1 = [PANEL_LISTENER];
  (* the [assumptions] of the state is an array of the heap *)
  wf_assumptions :
    exists l, stateOf w !! "assumptions" = Some (VArr l) /\ l < length (heap w.2);
  (* the mode is one of the three panel modes *)
  wf_mode :
    exists m, stateOf w !! "currentMode" = Some (VStr m) /\ validMode m;
  (* the saved prompt is a trimmed string *)
  wf_saved :
    exists p, stateOf w !! "savedPrompt" = Some (VStr p) /\ JsString.trim p = p;
  (* the page's own array is in the heap, one bubble per element *)
  wf_page_loc :
    AssumptionsPage.assumptions (assumptionsPage w.2) < length (heap w.2);
  wf_bubbles :
    length (AssumptionsPage.bubbles (assumptionsPage w.2))
    = length (Heap.read (heap w.2) (AssumptionsPage.assumptions (assumptionsPage w.2)));
  (* the assumptions page is displayed in [assumptions] mode only *)
  wf_page_display :
    shown (AssumptionsPage.display (assumptionsPage w.2)) = true ->
    prop (stateOf w) "currentMode" = VStr PANEL_MODES.ASSUMPTIONS;
  (* Forward is visible in [edit] mode with assumptions only *)
  wf_forward :
    forwardVisible w = true ->
    prop (stateOf w) "currentMode" = VStr PANEL_MODES.EDIT /\ assumptionsOf w <> [];
}.

End EventLoop.

(** ** A session on a ChatGPT page *)

Module Session.

Import AssumptionsAPIClient PanelManager EventLoop.

(** A backend that answers every request with status 200 and the body 7. *)
Definition fetchOk (req : Request) : Completion (Response nat) :=
  Normal (mkResponse 200%N (js "OK") (Normal 7)).

(** A backend that answers every request with status 500. *)
Definition fetch500 (req : Request) : Completion (Response nat) :=
  Normal (mkResponse 500%N (js "Internal Server Error") (Normal 7)).

(** The client [GlassOSApp] constructs on a ChatGPT page, and one without
    a provider. *)
Definition client : AssumptionsAPIClient.t :=
  AssumptionsAPIClient.mk (js "http://localhost:8000/assumptions/extract-assumptions")
                          (VStr (js "openai")).

Definition clientWithoutProvider : AssumptionsAPIClient.t :=
  AssumptionsAPIClient.mk (js "http://localhost:8000/assumptions/extract-assumptions")
                          (VStr []).

(** A host page with the ChatGPT editor, empty. *)
Definition chatgptPage : HostPage.t :=
  HostPage.mk (<[OpenAIFrontendAdapter.EDITOR := HostPage.mkElement [] 0 false]> ∅) [].

(** The panel [GlassOSApp] constructs on it. *)
Definition freshPanel : World :=
  PanelManager.create OpenAIFrontendAdapter.adapter chatgptPage.

(** A successful answer of the backend with the assumptions [items]. *)
Definition answer (items : list jsstring)
    : Completion (ReasoningResult ResponseBody) :=
  Normal (mkResult true (Some (mkBody (FieldStrings items))) None).

(** The user fills both fields, analyzes, and the backend answers with
    the assumptions X and Y. *)
Definition analyzed : list Event :=
  [ TypePrompt (js "Translate this."); TypeResponse (js "Bonjour");
    DebounceElapsed; ClickAnalyze; ApiSettled (answer [js "X"; js "Y"]) ].

(** ... then goes back to the input page ... *)
Definition backToEdit : list Event := analyzed ++ [ClickBack].


(** The user analyzes and the request fails. *)
Definition analysisFailed : list Event :=
  [ TypePrompt (js "Translate this."); TypeResponse (js "Bonjour");
    DebounceElapsed; ClickAnalyze ].

(** ... and the backend answers with a result that has [success] but no
    data. *)
Definition successWithoutData : list Event :=
  analysisFailed ++ [ApiSettled (Normal (mkResult true None None))].

(** The mode and [isAnalyzing]. *)
Definition modeView (w : World) : JsVal * JsVal :=
  (prop (stateOf w) "currentMode", prop (stateOf w) "isAnalyzing").

(** The user edits the first assumption to [" Z "] and commits. *)
Definition editCommitted : list Event :=
  analyzed ++ [ClickEdit 0; TypeBubble 0 (js " Z "); Keydown 0 (js "Enter")].

(** The user commits an edit of the first assumption that changes
    nothing, then deletes that assumption. *)
Definition sameTextCommitted : list Event :=
  analyzed ++ [ClickEdit 0; Keydown 0 (js "Enter")].

Definition sameTextThenDelete : list Event := sameTextCommitted ++ [ClickDelete 0].

(** The array of the state, the array of the page, what the state lists. *)
Definition arraysView (w : World) : JsVal * loc * list jsstring :=
  (prop (stateOf w) "assumptions",
   AssumptionsPage.assumptions (assumptionsPage w.2),
   assumptionsOf w).

(** The user starts editing the first assumption. *)
Definition editing : list Event :=
  analyzed ++ [ClickEdit 0; TypeBubble 0 (js " Z ")].

(** The text in the edit input of bubble [i]. *)
Definition enteredText (i : nat) (w : World) : option jsstring :=
  AssumptionsPage.inputValue <$> AssumptionsPage.bubbles (assumptionsPage w.2) !! i.


End Session.

(** ** Provider detection  (utilities.js) *)

Module Utilities.

(** [detectProvider(adapter)].  Of its argument the function reads whether
    it is there ([None]: [null] or [undefined]) and the value of
    [adapter.constructor?.name]. *)
Definition detectProvider (adapter : option JsVal) : jsstring :=
  match adapter with
  | None => js "unknown"
  | Some (VStr name) =>
      if JsString.eqb name (js "OpenAIFrontendAdapter") then js "openai"
      else js "unknown"
  | Some _ => js "unknown"
  end.

End Utilities.

(** ** The application root  (glass-OS-app.js, constants.js) *)

Module GlassOSApp.

(** [CONFIG.API_ENDPOINT] *)
Definition API_ENDPOINT : jsstring :=
  js "http://localhost:8000/assumptions/extract-assumptions".

(** The client the constructor builds for the detected adapter:
    [new AssumptionsAPIClient(detectProvider(this.frontendAdapter))], with
    the default endpoint. *)
Definition apiClient (adapter : option JsVal) : AssumptionsAPIClient.t :=
  AssumptionsAPIClient.mk API_ENDPOINT (VStr (Utilities.detectProvider adapter)).

End GlassOSApp.

(** ** Start-up  (main.js) *)

Module Main.

(** [waitForFrontendReady(timeout, interval)], started at time [start]
    ([Date.now()], in milliseconds).  Each run of [check] sees the page as
    it is then and, when no adapter is found, reads the clock: [polls]
    lists what the successive runs see.  [Some b]: the promise is resolved
    with [b]; [None]: the next run of [check] is still to come. *)
Fixpoint waitForFrontendReady (timeout start : Z) (polls : list (HostPage.t * Z))
    : option bool :=
  match polls with
  | [] => None
  | (d, now) :: rest =>
      match LLMFrontendAdapters.getActiveLLMFrontendAdapter d with
      | Some frontendAdapter => Some true
      | None =>
          if (now - start >? timeout)%Z then Some false
          else waitForFrontendReady timeout start rest
      end
  end.

(** Specification side.  A run of [check] finds an adapter. *)
Definition detects (d : HostPage.t) : Prop :=
  is_Some (LLMFrontendAdapters.getActiveLLMFrontendAdapter d).

(** A run of [check] finds no adapter, no later than the deadline. *)
Definition waits (timeout start : Z) (poll : HostPage.t * Z) : Prop :=
  ~ detects poll.1 /\ (poll.2 - start <= timeout)%Z.

End Main.

(** ** Resetting the store  (state-manager.js) *)

Module Reset.

Import PanelManager.

(** The object literal of the field initialisers and of [reset()], with
    [l] the array its [[]] creates. *)
Definition defaults (l : loc) : JsObject :=
  <["userPrompt" := VStr []]>
  (<["aiResponse" := VStr []]>
   (<["assumptions" := VArr l]>
    (<["savedPrompt" := VStr []]>
     (<["savedResponse" := VStr []]>
      (<["currentMode" := VStr PANEL_MODES.EDIT]>
       (<["isAnalyzing" := VBool false]> ∅)))))).

(** [reset()]: [this.setState({ ...defaults })], with the controller
    subscribed. *)
Definition reset (w : World) : World :=
  let '(l, h) := Heap.alloc [] (heap w.2) in
  setState (defaults l) (w.1, setHeap h w.2).

End Reset.

(** ** What the panel shows: further invariants of a run *)

Module Views.

Import PanelManager EventLoop.

Definition modeOf (w : World) : JsVal := prop (stateOf w) "currentMode".

(** The title [_updateModeUI] gives each mode. *)
Definition titleOf (m : jsstring) : jsstring :=
  if bool_decide (m = PANEL_MODES.EDIT) then js "Analyze Prompt"
  else if bool_decide (m = PANEL_MODES.ANALYZING) then js "Analyzing..."
  else js "Assumptions".

Definition displayIf (b : bool) : Display :=
  if b then DisplayFlex else DisplayNone.

(** Each page is displayed in its mode and hidden in the others, the title
    is the mode's, the controller's [currentMode] is the state's, and the
    Forward button is disabled exactly when it is hidden. *)
Record viewsMatchMode (w : World) : Prop := mkViews {
  vm_input :
    InputPage.display (inputPage w.2)
    = displayIf (bool_decide (modeOf w = VStr PANEL_MODES.EDIT));
  vm_analyzing :
    AnalyzingPage.display (analyzingPage w.2)
    = displayIf (bool_decide (modeOf w = VStr PANEL_MODES.ANALYZING));
  vm_assumptions :
    AssumptionsPage.display (assumptionsPage w.2)
    = displayIf (bool_decide (modeOf w = VStr PANEL_MODES.ASSUMPTIONS));
  vm_title : forall m, modeOf w = VStr m -> title (panel w.2) = titleOf m;
  vm_panel : currentMode (panel w.2) = modeOf w;
  vm_forward :
    InputPage.forwardDisabled (inputPage w.2) = negb (forwardVisible w);
}.

(** In [analyzing] mode [isAnalyzing] is true; while [isAnalyzing] is
    true a call is in flight; an enabled Analyze button has changed
    inputs. *)
Record analysisInv (w : World) : Prop := mkAnalysis {
  ai_typed : exists b, prop (stateOf w) "isAnalyzing" = VBool b;
  ai_mode :
    modeOf w = VStr PANEL_MODES.ANALYZING ->
    prop (stateOf w) "isAnalyzing" = VBool true;
  ai_flight : prop (stateOf w) "isAnalyzing" = VBool true -> 0 < inFlight w.2;
  ai_analyze :
    InputPage.analyzeDisabled (inputPage w.2) = false ->
    InputPage.inputsChangedSinceAnalyze (inputPage w.2) = true;
}.

(** The bubbles show the page's list, in order; the "No assumptions
    found" notice is there only when the list is empty. *)
Record bubblesInv (w : World) : Prop := mkBubbles {
  bi_texts :
    AssumptionsPage.spanText <$> AssumptionsPage.bubbles (assumptionsPage w.2)
    = pageAssumptions w;
  bi_notice :
    AssumptionsPage.emptyNotice (assumptionsPage w.2) = true ->
    pageAssumptions w = [];
}.

(** The first half of [_handleStateChange]: the mode check. *)
Definition afterModeCheck (sm : StateManager.t JsVal) (newState oldState : JsObject)
    (u : UI) : UI :=
  if modeChanged newState oldState then
    updateModeUI (prop newState "currentMode") sm
                 (setCurrentMode (prop newState "currentMode") u)
  else u.

(** The controller is the store's subscriber and the mode is one of the
    three. *)
Definition storeOk (sm : StateManager.t JsVal) : Prop :=
  StateManager.listeners sm = [PANEL_LISTENER]
  /\ exists m, prop (StateManager.state sm) "currentMode" = VStr m /\ validMode m.

(** An update that sets the mode sets it to one of the three. *)
Definition validModeUpdate (updates : JsObject) : Prop :=
  forall v, updates !! "currentMode" = Some v -> exists m, v = VStr m /\ validMode m.

(** [bothInputsFilled] of [_updateAnalyzeButton], as a boolean. *)
Definition bothInputsFilled (p : InputPage.t) : bool :=
  truthy (VStr (JsString.trim (InputPage.userPrompt p)))
  && truthy (VStr (JsString.trim (InputPage.aiResponse p))).

(** Once the debounced handler has run, the Analyze button is enabled
    exactly when both fields are filled and have changed since the last
    analysis. *)
Definition buttonInv (p : InputPage.t) : Prop :=
  InputPage.debouncePending p = false ->
  InputPage.analyzeDisabled p
  = negb (bothInputsFilled p && InputPage.inputsChangedSinceAnalyze p).

(** Two user interfaces with the same input fields and Analyze button, the
    same API calls made and in flight, the same host page and the same
    panel visibility. *)
Record keeps (u u' : UI) : Prop := mkKeeps {
  k_disabled :
    InputPage.analyzeDisabled (inputPage u') = InputPage.analyzeDisabled (inputPage u);
  k_changed :
    InputPage.inputsChangedSinceAnalyze (inputPage u')
    = InputPage.inputsChangedSinceAnalyze (inputPage u);
  k_prompt : InputPage.userPrompt (inputPage u') = InputPage.userPrompt (inputPage u);
  k_response : InputPage.aiResponse (inputPage u') = InputPage.aiResponse (inputPage u);
  k_pending :
    InputPage.debouncePending (inputPage u') = InputPage.debouncePending (inputPage u);
  k_inFlight : inFlight u' = inFlight u;
  k_apiCalls : apiCalls u' = apiCalls u;
  k_host : host u' = host u;
  k_visible : visible (panel u') = visible (panel u);
}.

End Views.

(** * Part II: properties *)

(** ** JavaScript strings *)

Module JsStringFacts.

Import JsString.

(** [dropEndWhile] removes a suffix, all of whose code units satisfy [p],
    and what is left does not end in such a code unit. *)
Lemma dropEndWhile_spec (p : N -> bool) (s : t) :
  exists suffix,
    s = dropEndWhile p s ++ suffix
    /\ forallb p suffix = true
    /\ (forall c, last (dropEndWhile p s) = Some c -> p c = false).
Proof.
  induction s as [|c s (suffix & Heq & Hall & Hlast)].
  - exists []. repeat split. intros c Hc. discriminate.
  - cbn [dropEndWhile].
    destruct (dropEndWhile p s) as [|y ys] eqn:Hd.
    + destruct (p c) eqn:Hc.
      * exists (c :: suffix). cbn. rewrite Hc, Hall. simpl in Heq.
        rewrite <- Heq. repeat split. intros ? ?. discriminate.
      * exists suffix. simpl in Heq. subst suffix. repeat split; [done|].
        intros c' Hc'. cbn in Hc'. congruence.
    + exists suffix. rewrite Heq at 1. repeat split; [done|].
      intros c' Hc'. apply Hlast. rewrite last_cons in Hc'.
      destruct (last (y :: ys)) eqn:Hl; [done|].
      apply last_None in Hl. discriminate.
Qed.

Lemma dropEndWhile_idemp (p : N -> bool) (s : t) :
  dropEndWhile p (dropEndWhile p s) = dropEndWhile p s.
Proof.
  induction s as [|c s IH]; [reflexivity|].
  cbn [dropEndWhile].
  destruct (dropEndWhile p s) as [|y ys] eqn:Hd.
  - destruct (p c) eqn:Hc; [reflexivity|]. cbn. rewrite Hc. reflexivity.
  - cbn [dropEndWhile] in *. rewrite IH. reflexivity.
Qed.

Lemma dropStartWhile_head (p : N -> bool) (s : t) :
  match dropStartWhile p s with
  | [] => True
  | c :: _ => p c = false
  end.
Proof.
  induction s as [|c s IH]; [done|].
  cbn. destruct (p c) eqn:Hc; [exact IH|exact Hc].
Qed.

Lemma dropEndWhile_head (p : N -> bool) (s : t) :
  match s with
  | [] => True
  | c :: _ => p c = false
  end ->
  match dropEndWhile p s with
  | [] => True
  | c :: _ => p c = false
  end.
Proof.
  destruct s as [|c s]; [done|]. intros Hc. cbn.
  destruct (dropEndWhile p s); [rewrite Hc|]; exact Hc.
Qed.

Lemma dropStartWhile_id (p : N -> bool) (s : t) :
  match s with
  | [] => True
  | c :: _ => p c = false
  end ->
  dropStartWhile p s = s.
Proof. destruct s as [|c s]; [done|]. cbn. intros ->. reflexivity. Qed.

(** Trimming a trimmed string changes nothing. *)
Lemma trim_idemp (s : t) : trim (trim s) = trim s.
Proof.
  unfold trim.
  rewrite (dropStartWhile_id isWhiteSpace (dropEndWhile _ _)).
  - apply dropEndWhile_idemp.
  - apply dropEndWhile_head, dropStartWhile_head.
Qed.

End JsStringFacts.

(** ** State store *)

Module StateManagerFacts.

Import StateManager.

Section Facts.

Context {V W : Type}.
Variable handler : nat -> StateManager.t V -> gmap string V -> gmap string V -> W -> W.

Lemma spread_lookup (a b : gmap string V) (k : string) :
  spread a b !! k = match b !! k with Some v => Some v | None => a !! k end.
Proof.
  unfold spread. rewrite lookup_union.
  destruct (b !! k), (a !! k); reflexivity.
Qed.

Lemma setStates_cons (p : gmap string V) (ps : list (gmap string V))
    (sm : StateManager.t V) (w : W) :
  setStates handler (p :: ps) sm w
  = setStates handler ps (setState handler p sm w).1 (setState handler p sm w).2.
Proof. unfold setStates. cbn [foldl]. reflexivity. Qed.

Lemma setStates_snoc (ps : list (gmap string V)) (p : gmap string V)
    (sm : StateManager.t V) (w : W) :
  setStates handler (ps ++ [p]) sm w
  = setState handler p (setStates handler ps sm w).1 (setStates handler ps sm w).2.
Proof.
  unfold setStates. rewrite foldl_app. cbn [foldl].
  destruct (foldl _ (sm, w) ps). reflexivity.
Qed.

Lemma setStates_listeners (ps : list (gmap string V)) (sm : StateManager.t V) (w : W) :
  listeners (setStates handler ps sm w).1 = listeners sm.
Proof.
  revert sm w. induction ps as [|p ps IH]; intros sm w; [reflexivity|].
  rewrite setStates_cons, IH. reflexivity.
Qed.

Lemma shallowMerge_cons (init p : gmap string V) (ps : list (gmap string V))
    (k : string) :
  shallowMerge (spread init p) ps k = shallowMerge init (p :: ps) k.
Proof.
  unfold shallowMerge. cbn [lastWrite].
  destruct (lastWrite k ps); [reflexivity|]. apply spread_lookup.
Qed.

(** After any sequence of calls the state is, property by property,
    the shallow merge of the initial state with the partial updates. *)
Lemma setStates_lookup (ps : list (gmap string V)) (sm : StateManager.t V) (w : W)
    (k : string) :
  getState (setStates handler ps sm w).1 !! k = shallowMerge (state sm) ps k.
Proof.
  revert sm w. induction ps as [|p ps IH]; intros sm w.
  - reflexivity.
  - rewrite setStates_cons, IH. cbn [setState fst state].
    apply shallowMerge_cons.
Qed.

(** C1. For every sequence of [setState] calls ([ps] followed by the
    Nth call [p]): [getState()] before and after the Nth call is,
    property by property, the shallow merge of the initial state with
    the partial updates applied so far; the set of subscribers is
    untouched; and the Nth notification calls every subscriber, in
    order, with the merged state as [newState] and the state just
    before the Nth merge as [oldState]. *)
Theorem setState_sequence (sm : StateManager.t V) (w : W)
    (ps : list (gmap string V)) (p : gmap string V) :
  let before := setStates handler ps sm w in
  let after := setStates handler (ps ++ [p]) sm w in
  (forall k, getState before.1 !! k = shallowMerge (state sm) ps k)
  /\ (forall k, getState after.1 !! k = shallowMerge (state sm) (ps ++ [p]) k)
  /\ listeners after.1 = listeners sm
  /\ after.2
     = foldl (fun w l => handler l after.1 (getState after.1) (getState before.1) w)
             before.2 (listeners sm).
Proof.
  cbn zeta. split; [|split; [|split]].
  - intros k. apply setStates_lookup.
  - intros k. apply setStates_lookup.
  - apply setStates_listeners.
  - rewrite setStates_snoc. cbn [setState snd fst notifyListeners listeners].
    rewrite setStates_listeners. reflexivity.
Qed.

End Facts.

Example setState_twice_recorded :
  let sm := StateManager.mk (<["a" := 1]> (<["b" := 2]> ∅)) [7; 9] in
  let r := setStates recorder [<["a" := 10]> ∅; <["c" := 3]> (<["b" := 20]> ∅)] sm [] in
  getState r.1 = <["a" := 10]> (<["b" := 20]> (<["c" := 3]> ∅))
  /\ r.2 = [ (7, <["a" := 10]> (<["b" := 2]> ∅), <["a" := 1]> (<["b" := 2]> ∅));
             (9, <["a" := 10]> (<["b" := 2]> ∅), <["a" := 1]> (<["b" := 2]> ∅));
             (7, <["a" := 10]> (<["b" := 20]> (<["c" := 3]> ∅)),
                 <["a" := 10]> (<["b" := 2]> ∅));
             (9, <["a" := 10]> (<["b" := 20]> (<["c" := 3]> ∅)),
                 <["a" := 10]> (<["b" := 2]> ∅)) ].
Proof. vm_compute. split; reflexivity. Qed.

End StateManagerFacts.

(** ** API client *)

Module AssumptionsAPIClientFacts.

Import AssumptionsAPIClient.

Section Facts.

Context {Data : Type}.
Variable fetch : Request -> Completion (Response Data).

Lemma messageOrUnknown_nonempty (e : JsError) : messageOrUnknown e <> [].
Proof.
  unfold messageOrUnknown, truthy, JsString.eqb.
  case_bool_decide as Hm; cbn [negb]; [discriminate|exact Hm].
Qed.

(** C6. With a provider configured, [extractReasoning] issues one
    request and its promise is always fulfilled: with
    [{success: true, data}] when the response has a 2xx status and its
    body parses to [data]; with [{success: false, error}], [error] a
    non-empty string, when the status is not 2xx, when [fetch] throws
    and when parsing the body throws. *)
Theorem extractReasoning_normalizes (c : t) (prompt response : jsstring) :
  truthy (provider c) = true ->
  let req := requestOf c prompt response in
  exists result,
    extractReasoning fetch c prompt response = (Normal result, [req])
    /\ match fetch req with
       | Normal res =>
           if ((200 <=? status res) && (status res <=? 299))%N then
             match json res with
             | Normal d => result = mkResult true (Some d) None
             | Throw e =>
                 exists msg, result = mkResult false None (Some msg) /\ msg <> []
             end
           else exists msg, result = mkResult false None (Some msg) /\ msg <> []
       | Throw e =>
           exists msg, result = mkResult false None (Some msg) /\ msg <> []
       end.
Proof.
  intros Hp req. unfold extractReasoning. rewrite Hp. cbn [negb].
  fold (requestOf c prompt response). fold req.
  unfold attempt, ok.
  destruct (fetch req) as [res|e].
  - destruct ((200 <=? status res) && (status res <=? 299))%N; cbn [negb].
    + destruct (json res) as [d|e].
      * eexists. split; reflexivity.
      * eexists. split; [reflexivity|].
        eexists. split; [reflexivity|]. apply messageOrUnknown_nonempty.
    + eexists. split; [reflexivity|].
      eexists. split; [reflexivity|]. apply messageOrUnknown_nonempty.
  - eexists. split; [reflexivity|].
    eexists. split; [reflexivity|]. apply messageOrUnknown_nonempty.
Qed.

(** With a provider configured the promise is never rejected. *)
Lemma extractReasoning_fulfilled (c : t) (prompt response : jsstring) :
  truthy (provider c) = true ->
  exists result,
    extractReasoning fetch c prompt response
    = (Normal result, [requestOf c prompt response]).
Proof.
  intros Hp. unfold extractReasoning. rewrite Hp. cbn [negb].
  fold (requestOf c prompt response).
  destruct (attempt fetch (requestOf c prompt response)); eauto.
Qed.

(** C10. On a client whose provider is falsy (empty, [undefined],
    [null], [false]) [extractReasoning] throws, so that its promise is
    rejected, before any request is issued; a client with a provider
    never rejects: whatever goes wrong after the check is mapped to a
    result. *)
Theorem extractReasoning_requires_provider (c : t) (prompt response : jsstring) :
  truthy (provider c) = false ->
  extractReasoning fetch c prompt response
  = (Throw (Error (js "Provider is required for extracting reasoning.")), [])
  /\ forall c' : t,
       truthy (provider c') = true ->
       exists result req,
         extractReasoning fetch c' prompt response = (Normal result, [req]).
Proof.
  intros Hp. split.
  - unfold extractReasoning. rewrite Hp. reflexivity.
  - intros c' Hp'.
    destruct (extractReasoning_fulfilled c' prompt response Hp') as (r & Hr).
    eauto.
Qed.

End Facts.

Example extractReasoning_500 :
  (extractReasoning Session.fetch500 Session.client (js "p") (js "r")).1
  = Normal (mkResult false None (Some (js "HTTP 500: Internal Server Error"))).
Proof. vm_compute. reflexivity. Qed.

Lemma extractReasoning_normalizes_witness :
  exists result,
    extractReasoning Session.fetchOk Session.client (js "p") (js "r")
    = (Normal result, [requestOf Session.client (js "p") (js "r")])
    /\ result = mkResult true (Some 7) None.
Proof.
  destruct (extractReasoning_normalizes Session.fetchOk Session.client (js "p") (js "r")
              eq_refl)
    as (result & Hr & Hres).
  exists result. split; [exact Hr|exact Hres].
Defined.

Lemma extractReasoning_requires_provider_witness :
  extractReasoning Session.fetchOk Session.clientWithoutProvider (js "p") (js "r")
  = (Throw (Error (js "Provider is required for extracting reasoning.")), []).
Proof.
  exact (proj1 (extractReasoning_requires_provider Session.fetchOk
                  Session.clientWithoutProvider (js "p") (js "r") eq_refl)).
Defined.

End AssumptionsAPIClientFacts.

(** ** Adapter registry *)

Module LLMFrontendAdaptersFacts.

Import LLMFrontendAdapters.

Lemma getActive_Some (adapters : list LLMFrontendAdapter.t) (d : HostPage.t)
    (a : LLMFrontendAdapter.t) :
  getActive adapters d = Some a ->
  exists pre post,
    adapters = pre ++ a :: post
    /\ LLMFrontendAdapter.detectPage a d = true
    /\ Forall (fun b => LLMFrontendAdapter.detectPage b d = false) pre.
Proof.
  induction adapters as [|b rest IH]; [discriminate|].
  cbn [getActive]. destruct (LLMFrontendAdapter.detectPage b d) eqn:Hb.
  - intros [= <-]. exists [], rest. auto.
  - intros (pre & post & -> & Ha & Hpre)%IH.
    exists (b :: pre), post. auto.
Qed.

Lemma getActive_None (adapters : list LLMFrontendAdapter.t) (d : HostPage.t) :
  getActive adapters d = None
  <-> Forall (fun b => LLMFrontendAdapter.detectPage b d = false) adapters.
Proof.
  induction adapters as [|b rest IH]; [split; auto|].
  cbn [getActive]. destruct (LLMFrontendAdapter.detectPage b d) eqn:Hb.
  - split; [discriminate|]. intros H. inversion H; congruence.
  - rewrite IH. split; [auto|]. intros H. inversion H; assumption.
Qed.

(** C9. For every list of registered adapters and every page, the lookup
    returns the first adapter, in registration order, whose
    [detectPage()] is true, and returns [null] exactly when no registered
    adapter's [detectPage()] is true. *)
Theorem getActive_first_match (adapters : list LLMFrontendAdapter.t) (d : HostPage.t) :
  match getActive adapters d with
  | Some a =>
      exists pre post,
        adapters = pre ++ a :: post
        /\ LLMFrontendAdapter.detectPage a d = true
        /\ Forall (fun b => LLMFrontendAdapter.detectPage b d = false) pre
  | None => Forall (fun b => LLMFrontendAdapter.detectPage b d = false) adapters
  end
  /\ (getActive adapters d = None
      <-> Forall (fun b => LLMFrontendAdapter.detectPage b d = false) adapters).
Proof.
  split; [|apply getActive_None].
  destruct (getActive adapters d) as [a|] eqn:Ha.
  - apply getActive_Some, Ha.
  - apply getActive_None, Ha.
Qed.

(** The registry of the extension on a page without the ChatGPT editor,
    and on one with it. *)
Example registry_inactive :
  getActiveLLMFrontendAdapter (HostPage.mk ∅ []) = None.
Proof. reflexivity. Qed.

Example registry_chatgpt :
  LLMFrontendAdapter.name
    <$> getActiveLLMFrontendAdapter
          (HostPage.mk (<[OpenAIFrontendAdapter.EDITOR := HostPage.mkElement [] 0 false]> ∅) [])
  = Some (js "chatgpt").
Proof. vm_compute. reflexivity. Qed.

End LLMFrontendAdaptersFacts.

(** ** Panel controller *)

Module PanelManagerFacts.

Import AssumptionsAPIClient PanelManager EventLoop.

(** *** The heap *)

Lemma read_app_old (h ext : Heap.t) (l : loc) :
  l < length h -> Heap.read (h ++ ext) l = Heap.read h l.
Proof.
  intros Hl. unfold Heap.read. rewrite lookup_app_l by exact Hl. reflexivity.
Qed.

Lemma read_write_same (h : Heap.t) (l : loc) (a : list jsstring) :
  l < length h -> Heap.read (Heap.write l a h) l = a.
Proof.
  intros Hl. unfold Heap.read, Heap.write.
  rewrite list_lookup_insert_eq by exact Hl. reflexivity.
Qed.

Lemma length_write (h : Heap.t) (l : loc) (a : list jsstring) :
  length (Heap.write l a h) = length h.
Proof. apply length_insert. Qed.

Lemma elements_app_old (h ext : Heap.t) (v : JsVal) :
  (forall l, v = VArr l -> l < length h) ->
  JsArray.elements (h ++ ext) v = JsArray.elements h v.
Proof.
  intros Hv. destruct v; try reflexivity.
  cbn. apply read_app_old. auto.
Qed.

(** *** Property lookups in the objects the controller builds *)

Lemma prop_spread (a b : JsObject) (k : string) :
  prop (StateManager.spread a b) k
  = match b !! k with Some v => v | None => prop a k end.
Proof.
  unfold prop. rewrite StateManagerFacts.spread_lookup.
  destruct (b !! k); reflexivity.
Qed.

Lemma lookup_prop (o : JsObject) (k : string) (v : JsVal) :
  o !! k = Some v -> prop o k = v.
Proof. unfold prop. intros ->. reflexivity. Qed.

(** *** [setState] with the controller subscribed *)

Lemma setState_fst (updates : JsObject) (w : World) :
  (setState updates w).1
  = StateManager.mk (StateManager.spread (StateManager.state w.1) updates)
                    (StateManager.listeners w.1).
Proof. reflexivity. Qed.

Lemma setState_snd (updates : JsObject) (w : World) :
  StateManager.listeners w.1 = [PANEL_LISTENER] ->
  (setState updates w).2
  = (handleStateChange (setState updates w).1
       (StateManager.spread (StateManager.state w.1) updates)
       (StateManager.state w.1) w.2).1.
Proof.
  intros Hl. unfold setState, StateManager.setState, StateManager.notifyListeners.
  cbn [fst snd StateManager.listeners StateManager.state]. rewrite Hl.
  reflexivity.
Qed.

Lemma setStateThrows_eq (updates : JsObject) (w : World) :
  StateManager.listeners w.1 = [PANEL_LISTENER] ->
  setStateThrows updates w
  = (handleStateChange (setState updates w).1
       (StateManager.spread (StateManager.state w.1) updates)
       (StateManager.state w.1) w.2).2.
Proof.
  intros Hl.
  unfold setStateThrows, setState, StateManager.setState, StateManager.notifyListeners.
  cbn [fst snd StateManager.listeners StateManager.state]. rewrite Hl.
  reflexivity.
Qed.

Lemma stateOf_setState (updates : JsObject) (w : World) (k : string) :
  prop (stateOf (setState updates w)) k
  = match updates !! k with Some v => v | None => prop (stateOf w) k end.
Proof. unfold stateOf. rewrite setState_fst. apply prop_spread. Qed.

Lemma lookup_setState (updates : JsObject) (w : World) (k : string) :
  stateOf (setState updates w) !! k
  = match updates !! k with Some v => Some v | None => stateOf w !! k end.
Proof.
  unfold stateOf. rewrite setState_fst. apply StateManagerFacts.spread_lookup.
Qed.

(** *** What a notification does to the user interface *)

Lemma updateModeUI_heap (mode : JsVal) (sm : StateManager.t JsVal) (u : UI) :
  heap (updateModeUI mode sm u) = heap u.
Proof.
  unfold updateModeUI. repeat case_bool_decide; try reflexivity.
  destruct (hasAssumptions _ _); reflexivity.
Qed.

Lemma updateModeUI_page (mode : JsVal) (sm : StateManager.t JsVal) (u : UI) :
  AssumptionsPage.assumptions (assumptionsPage (updateModeUI mode sm u))
  = AssumptionsPage.assumptions (assumptionsPage u)
  /\ AssumptionsPage.bubbles (assumptionsPage (updateModeUI mode sm u))
     = AssumptionsPage.bubbles (assumptionsPage u).
Proof.
  unfold updateModeUI. repeat case_bool_decide; try (split; reflexivity).
  destruct (hasAssumptions _ _); split; reflexivity.
Qed.

Lemma updateModeUI_display (mode : JsVal) (sm : StateManager.t JsVal) (u : UI) :
  AssumptionsPage.display (assumptionsPage (updateModeUI mode sm u))
  = if bool_decide (mode = VStr PANEL_MODES.ASSUMPTIONS) then DisplayFlex
    else DisplayNone.
Proof.
  unfold updateModeUI. repeat case_bool_decide; subst; try discriminate;
    try reflexivity.
  destruct (hasAssumptions _ _); reflexivity.
Qed.

Lemma updateModeUI_forward (mode : JsVal) (sm : StateManager.t JsVal) (u : UI) :
  InputPage.forwardVisible (inputPage (updateModeUI mode sm u))
  = bool_decide (mode = VStr PANEL_MODES.EDIT)
    && hasAssumptions (heap u) (StateManager.getState sm).
Proof.
  unfold updateModeUI. repeat case_bool_decide; subst; try discriminate;
    try reflexivity.
  cbn [andb heap setTitle setInputPage setAnalyzingPage setAssumptionsPage setPanel].
  destruct (hasAssumptions _ _); reflexivity.
Qed.

Lemma length_renderAssumptions (h : Heap.t) (p : AssumptionsPage.t) :
  length (AssumptionsPage.bubbles (AssumptionsPage.renderAssumptions h p))
  = length (Heap.read h (AssumptionsPage.assumptions p))
  /\ AssumptionsPage.assumptions (AssumptionsPage.renderAssumptions h p)
     = AssumptionsPage.assumptions p
  /\ AssumptionsPage.display (AssumptionsPage.renderAssumptions h p)
     = AssumptionsPage.display p.
Proof.
  unfold AssumptionsPage.renderAssumptions. case_bool_decide as Hlen.
  - cbn. rewrite Hlen. auto.
  - cbn. rewrite length_imap. auto.
Qed.

(** [setAssumptions] on an array. *)
Lemma pageSetAssumptions_spec (arg : JsVal) (u : UI) :
  let u' := (pageSetAssumptions arg u).1 in
  match arg with
  | VArr _ =>
      heap u' = heap u ++ [JsArray.elements (heap u) arg]
      /\ AssumptionsPage.assumptions (assumptionsPage u') = length (heap u)
      /\ length (AssumptionsPage.bubbles (assumptionsPage u'))
         = length (JsArray.elements (heap u) arg)
      /\ AssumptionsPage.display (assumptionsPage u')
         = AssumptionsPage.display (assumptionsPage u)
      /\ inputPage u' = inputPage u
  | _ => True
  end.
Proof.
  cbn zeta. destruct arg as [| | | |l]; try exact I.
  unfold pageSetAssumptions, AssumptionsPage.setAssumptions.
  cbn [Heap.alloc heap setHeap setAssumptionsPage assumptionsPage inputPage fst].
  pose proof (length_renderAssumptions
                (heap u ++ [JsArray.elements (heap u) (VArr l)])
                (AssumptionsPage.mk (length (heap u))
                   (AssumptionsPage.bubbles (assumptionsPage u))
                   (AssumptionsPage.emptyNotice (assumptionsPage u))
                   (AssumptionsPage.display (assumptionsPage u))))
    as (Hb & Ha & Hd).
  cbn [AssumptionsPage.assumptions AssumptionsPage.display] in Hb, Ha, Hd.
  rewrite Hb, Ha, Hd.
  unfold Heap.read. rewrite list_lookup_middle by reflexivity.
  repeat split; reflexivity.
Qed.

(** On an array it does not throw. *)
Lemma pageSetAssumptions_quiet (l : loc) (u : UI) :
  (pageSetAssumptions (VArr l) u).2 = None.
Proof. reflexivity. Qed.

(** Whatever it is given, it only appends to the heap, and it leaves the
    display of the page and the input page alone. *)
Lemma pageSetAssumptions_frame (arg : JsVal) (u : UI) :
  let u' := (pageSetAssumptions arg u).1 in
  (exists ext, heap u' = heap u ++ ext)
  /\ AssumptionsPage.display (assumptionsPage u')
     = AssumptionsPage.display (assumptionsPage u)
  /\ inputPage u' = inputPage u.
Proof.
  cbn zeta. destruct arg as [| |b|s|l].
  - split; [exists []; apply eq_sym, app_nil_r|split; reflexivity].
  - split; [exists []; apply eq_sym, app_nil_r|split; reflexivity].
  - split; [exists []; apply eq_sym, app_nil_r|split; reflexivity].
  - unfold pageSetAssumptions, AssumptionsPage.setAssumptions. cbn [Heap.alloc].
    case_bool_decide; (split; [eexists; reflexivity|split; reflexivity]).
  - destruct (pageSetAssumptions_spec (VArr l) u) as (Hh & _ & _ & Hd & Hi).
    split; [eauto|split; assumption].
Qed.

(** The pieces of [_handleStateChange]: the mode check ... *)
Lemma handleStateChange_unfold (sm : StateManager.t JsVal)
    (newState oldState : JsObject) (u : UI) :
  let u1 :=
    if strict_neq (prop newState "currentMode") (prop oldState "currentMode")
    then updateModeUI (prop newState "currentMode") sm
           (setCurrentMode (prop newState "currentMode") u)
    else u in
  handleStateChange sm newState oldState u
  = match arraysEqual (heap u1) (prop newState "assumptions")
                      (prop oldState "assumptions") with
    | Throw e => (u1, Some e)
    | Normal equal =>
        if negb equal then
          pageSetAssumptions
            (JsArray.orEmpty (prop newState "assumptions") (heap u1)).1
            (setHeap (JsArray.orEmpty (prop newState "assumptions") (heap u1)).2 u1)
        else (u1, None)
    end.
Proof.
  cbn zeta. unfold handleStateChange.
  destruct (arraysEqual _ _ _) as [equal|e]; [|reflexivity].
  destruct (negb equal); [|reflexivity].
  destruct (JsArray.orEmpty _ _) as [arg h]. reflexivity.
Qed.

(** ... and what comes after it, which only appends to the heap and
    leaves the display of the assumptions page and the input page
    alone. *)
Lemma handleStateChange_frame (sm : StateManager.t JsVal)
    (newState oldState : JsObject) (u : UI) :
  let u1 :=
    if strict_neq (prop newState "currentMode") (prop oldState "currentMode")
    then updateModeUI (prop newState "currentMode") sm
           (setCurrentMode (prop newState "currentMode") u)
    else u in
  let u' := (handleStateChange sm newState oldState u).1 in
  (exists ext, heap u' = heap u1 ++ ext)
  /\ AssumptionsPage.display (assumptionsPage u')
     = AssumptionsPage.display (assumptionsPage u1)
  /\ inputPage u' = inputPage u1.
Proof.
  cbn zeta. rewrite handleStateChange_unfold. cbn zeta.
  set (u1 := if strict_neq _ _ then _ else u).
  assert (Hrefl : (exists ext, heap u1 = heap u1 ++ ext)
                  /\ AssumptionsPage.display (assumptionsPage u1)
                     = AssumptionsPage.display (assumptionsPage u1)
                  /\ inputPage u1 = inputPage u1).
  { split; [exists []; apply eq_sym, app_nil_r|split; reflexivity]. }
  destruct (arraysEqual _ _ _) as [equal|e]; [|exact Hrefl].
  destruct (negb equal); [|exact Hrefl].
  match goal with
  | |- context [pageSetAssumptions ?arg ?u0] =>
      destruct (pageSetAssumptions_frame arg u0) as ((ext & Hh) & Hd & Hi)
  end.
  rewrite Hh, Hd, Hi. split; [|split; reflexivity].
  unfold JsArray.orEmpty. destruct (truthy _); cbn [snd heap setHeap Heap.alloc].
  - eauto.
  - rewrite <- app_assoc. eauto.
Qed.

(** A notification only appends to the heap. *)
Lemma handleStateChange_heap (sm : StateManager.t JsVal)
    (newState oldState : JsObject) (u : UI) :
  exists ext, heap (handleStateChange sm newState oldState u).1 = heap u ++ ext.
Proof.
  destruct (handleStateChange_frame sm newState oldState u) as ((ext & Hh) & _).
  exists ext. rewrite Hh. f_equal.
  destruct (strict_neq _ _); [|reflexivity]. rewrite updateModeUI_heap. reflexivity.
Qed.

(** With an array for the new assumptions, it keeps the page's array in
    the heap and one bubble per element. *)
Lemma handleStateChange_page (sm : StateManager.t JsVal)
    (newState oldState : JsObject) (u : UI) :
  let u' := (handleStateChange sm newState oldState u).1 in
  (exists l, prop newState "assumptions" = VArr l) ->
  AssumptionsPage.assumptions (assumptionsPage u) < length (heap u) ->
  length (AssumptionsPage.bubbles (assumptionsPage u))
  = length (Heap.read (heap u) (AssumptionsPage.assumptions (assumptionsPage u))) ->
  AssumptionsPage.assumptions (assumptionsPage u') < length (heap u')
  /\ length (AssumptionsPage.bubbles (assumptionsPage u'))
     = length (Heap.read (heap u') (AssumptionsPage.assumptions (assumptionsPage u'))).
Proof.
  cbn zeta. intros (l & Hnew) Hloc Hbub. rewrite handleStateChange_unfold. cbn zeta.
  set (u1 := if strict_neq _ _ then _ else u).
  assert (H1 : heap u1 = heap u
               /\ AssumptionsPage.assumptions (assumptionsPage u1)
                  = AssumptionsPage.assumptions (assumptionsPage u)
               /\ AssumptionsPage.bubbles (assumptionsPage u1)
                  = AssumptionsPage.bubbles (assumptionsPage u)).
  { subst u1. destruct (strict_neq _ _); [|auto].
    rewrite updateModeUI_heap.
    destruct (updateModeUI_page (prop newState "currentMode") sm
                (setCurrentMode (prop newState "currentMode") u)) as (-> & ->).
    auto. }
  destruct H1 as (Hh & Ha & Hb).
  assert (Hkeep :
    AssumptionsPage.assumptions (assumptionsPage u1) < length (heap u1)
    /\ length (AssumptionsPage.bubbles (assumptionsPage u1))
       = length (Heap.read (heap u1) (AssumptionsPage.assumptions (assumptionsPage u1)))).
  { rewrite Hh, Ha, Hb. auto. }
  destruct (arraysEqual _ _ _) as [equal|e]; [|exact Hkeep].
  destruct (negb equal); [|exact Hkeep].
  rewrite Hnew. cbn [JsArray.orEmpty truthy fst snd].
  destruct (pageSetAssumptions_spec (VArr l) (setHeap (heap u1) u1))
    as (Hh' & Ha' & Hb' & _).
  rewrite Hh', Ha', Hb'. cbn [heap setHeap].
  split; [rewrite length_app; cbn [length]; lia|].
  unfold Heap.read. rewrite list_lookup_middle by reflexivity.
  reflexivity.
Qed.

(** With arrays for the new and the old assumptions, it does not
    throw. *)
Lemma handleStateChange_quiet (sm : StateManager.t JsVal)
    (newState oldState : JsObject) (u : UI) :
  (exists l, prop newState "assumptions" = VArr l) ->
  (exists l, prop oldState "assumptions" = VArr l) ->
  (handleStateChange sm newState oldState u).2 = None.
Proof.
  intros (l & Hnew) (l' & Hold). rewrite handleStateChange_unfold. cbn zeta.
  rewrite Hnew, Hold. cbn [arraysEqual arrayView].
  destruct (negb _); [|reflexivity]. reflexivity.
Qed.

(** The mode is shown by [_updateModeUI] when, and only when, it changes. *)
Lemma handleStateChange_display (sm : StateManager.t JsVal)
    (newState oldState : JsObject) (u : UI) :
  AssumptionsPage.display (assumptionsPage (handleStateChange sm newState oldState u).1)
  = if modeChanged newState oldState then
      if bool_decide (prop newState "currentMode" = VStr PANEL_MODES.ASSUMPTIONS)
      then DisplayFlex else DisplayNone
    else AssumptionsPage.display (assumptionsPage u).
Proof.
  destruct (handleStateChange_frame sm newState oldState u) as (_ & -> & _).
  unfold modeChanged. destruct (strict_neq _ _); [|reflexivity].
  rewrite updateModeUI_display. reflexivity.
Qed.

Lemma handleStateChange_forward (sm : StateManager.t JsVal)
    (newState oldState : JsObject) (u : UI) :
  InputPage.forwardVisible (inputPage (handleStateChange sm newState oldState u).1)
  = if modeChanged newState oldState then
      bool_decide (prop newState "currentMode" = VStr PANEL_MODES.EDIT)
      && hasAssumptions (heap u) (StateManager.getState sm)
    else InputPage.forwardVisible (inputPage u).
Proof.
  destruct (handleStateChange_frame sm newState oldState u) as (_ & _ & ->).
  unfold modeChanged. destruct (strict_neq _ _); [|reflexivity].
  rewrite updateModeUI_forward. reflexivity.
Qed.

(** *** Well-formedness is kept *)

Lemma strict_neq_false (a b : JsVal) : strict_neq a b = false -> a = b.
Proof.
  unfold strict_neq. case_bool_decide; [done|discriminate].
Qed.

Lemma hasAssumptions_elements (h : Heap.t) (state : JsObject) :
  hasAssumptions h state = true ->
  JsArray.elements h (prop state "assumptions") <> [].
Proof.
  unfold hasAssumptions. intros [_ Hlen]%andb_prop.
  apply bool_decide_eq_true in Hlen.
  destruct (JsArray.elements _ _); [cbn in Hlen; lia|discriminate].
Qed.

Lemma shown_flex_assumptions (v : JsVal) :
  shown (if bool_decide (v = VStr PANEL_MODES.ASSUMPTIONS) then DisplayFlex
         else DisplayNone) = true ->
  v = VStr PANEL_MODES.ASSUMPTIONS.
Proof. case_bool_decide; [done|discriminate]. Qed.

Lemma setState_wf (updates : JsObject) (w : World) :
  wf w ->
  (forall v, updates !! "assumptions" = Some v ->
             exists l, v = VArr l /\ l < length (heap w.2)) ->
  (forall v, updates !! "currentMode" = Some v ->
             exists m, v = VStr m /\ validMode m) ->
  (forall v, updates !! "savedPrompt" = Some v ->
             exists p, v = VStr p /\ JsString.trim p = p) ->
  (forwardVisible w = true ->
   modeChanged (stateOf (setState updates w)) (stateOf w) = false ->
   updates !! "assumptions" = None) ->
  wf (setState updates w).
Proof.
  intros [Hl (la & Hla & Hlav) (m & Hm & Hmv) (sp & Hsp & Hspt) Hpl Hb Hd Hf]
         Ua Um Us Uf.
  cbn [fst snd] in *.
  pose proof (handleStateChange_heap (setState updates w).1
                (StateManager.spread (StateManager.state w.1) updates)
                (StateManager.state w.1) w.2) as (ext & Hext).
  rewrite <- (setState_snd updates w Hl) in Hext.
  assert (Hlen : length (heap w.2) <= length (heap (setState updates w).2)).
  { rewrite Hext, length_app. lia. }
  assert (HA : exists l, stateOf (setState updates w) !! "assumptions" = Some (VArr l)
                         /\ l < length (heap w.2)).
  { rewrite lookup_setState.
    destruct (updates !! "assumptions") as [v|] eqn:Hu.
    - destruct (Ua v eq_refl) as (l & -> & Hlt). eauto.
    - eauto. }
  destruct HA as (la' & Hla' & Hlav').
  assert (HE : assumptionsOf (setState updates w)
               = JsArray.elements (heap w.2) (VArr la')).
  { unfold assumptionsOf. rewrite (lookup_prop _ _ _ Hla'), Hext.
    apply elements_app_old. intros l [= <-]. exact Hlav'. }
  split.
  - exact Hl.
  - exists la'. split; [exact Hla'|lia].
  - rewrite lookup_setState.
    destruct (updates !! "currentMode") as [v|] eqn:Hu.
    + destruct (Um v eq_refl) as (m' & -> & Hv). eauto.
    + eauto.
  - rewrite lookup_setState.
    destruct (updates !! "savedPrompt") as [v|] eqn:Hu.
    + destruct (Us v eq_refl) as (p' & -> & Hv). eauto.
    + eauto.
  - rewrite (setState_snd updates w Hl).
    apply handleStateChange_page; [|assumption..].
    exists la'. apply lookup_prop, Hla'.
  - rewrite (setState_snd updates w Hl).
    apply handleStateChange_page; [|assumption..].
    exists la'. apply lookup_prop, Hla'.
  - rewrite (setState_snd updates w Hl), handleStateChange_display.
    fold (stateOf w). change (StateManager.spread (StateManager.state w.1) updates)
      with (stateOf (setState updates w)).
    destruct (modeChanged _ _) eqn:Hc.
    + apply shown_flex_assumptions.
    + intros Hs. apply strict_neq_false in Hc. rewrite Hc. apply Hd, Hs.
  - unfold forwardVisible. rewrite (setState_snd updates w Hl), handleStateChange_forward.
    fold (stateOf w). change (StateManager.spread (StateManager.state w.1) updates)
      with (stateOf (setState updates w)).
    destruct (modeChanged _ _) eqn:Hc.
    + intros [Hedit Hhas]%andb_prop. apply bool_decide_eq_true in Hedit.
      split; [exact Hedit|].
      rewrite HE. apply hasAssumptions_elements in Hhas.
      change (StateManager.getState (setState updates w).1)
        with (stateOf (setState updates w)) in Hhas.
      rewrite (lookup_prop _ _ _ Hla') in Hhas. exact Hhas.
    + intros Hv. destruct (Hf Hv) as (Hedit & Hne).
      pose proof (Uf Hv eq_refl) as Hnone.
      apply strict_neq_false in Hc. rewrite Hc. split; [exact Hedit|].
      rewrite HE. rewrite lookup_setState, Hnone, Hla in Hla'.
      injection Hla' as <-.
      unfold assumptionsOf in Hne. rewrite (lookup_prop _ _ _ Hla) in Hne.
      exact Hne.
Qed.

(** In a well-formed world [setState] with an array, or nothing, for the
    assumptions does not throw. *)
Lemma setState_quiet (updates : JsObject) (w : World) :
  wf w ->
  (forall v, updates !! "assumptions" = Some v -> exists l, v = VArr l) ->
  setStateThrows updates w = None.
Proof.
  intros [Hl (la & Hla & _) _ _ _ _ _ _] Ua.
  rewrite (setStateThrows_eq updates w Hl). apply handleStateChange_quiet.
  - rewrite prop_spread. destruct (updates !! "assumptions") as [v|] eqn:Hu.
    + destruct (Ua v eq_refl) as (l & ->). eauto.
    + exists la. apply lookup_prop, Hla.
  - exists la. apply lookup_prop, Hla.
Qed.

(** A change of the user interface that leaves the store alone, only
    appends to the heap, and neither displays the assumptions page nor
    shows Forward. *)
Lemma wf_frame (sm : StateManager.t JsVal) (u u' : UI) :
  wf (sm, u) ->
  (exists ext, heap u' = heap u ++ ext) ->
  AssumptionsPage.assumptions (assumptionsPage u') < length (heap u') ->
  length (AssumptionsPage.bubbles (assumptionsPage u'))
  = length (Heap.read (heap u') (AssumptionsPage.assumptions (assumptionsPage u'))) ->
  (shown (AssumptionsPage.display (assumptionsPage u')) = true ->
   shown (AssumptionsPage.display (assumptionsPage u)) = true) ->
  (InputPage.forwardVisible (inputPage u') = true ->
   InputPage.forwardVisible (inputPage u) = true) ->
  wf (sm, u').
Proof.
  intros [Hl (la & Hla & Hlav) Hm Hs Hpl Hb Hd Hf] (ext & Hext) Hpl' Hb' Hd' Hf'.
  cbn [fst snd] in *.
  split; cbn [fst snd]; try assumption.
  - exists la. split; [exact Hla|]. rewrite Hext, length_app. lia.
  - auto.
  - intros Hv. destruct (Hf (Hf' Hv)) as (Hedit & Hne). split; [exact Hedit|].
    unfold assumptionsOf in *. cbn [fst snd] in *.
    unfold stateOf in *. cbn [fst] in *.
    rewrite (lookup_prop _ _ _ Hla) in *. rewrite Hext.
    rewrite elements_app_old; [exact Hne|]. intros l [= <-]. exact Hlav.
Qed.

(** The same, for a change that touches neither heap nor assumptions
    page. *)
Lemma wf_frame_input (sm : StateManager.t JsVal) (u u' : UI) :
  wf (sm, u) ->
  heap u' = heap u ->
  assumptionsPage u' = assumptionsPage u ->
  (InputPage.forwardVisible (inputPage u') = true ->
   InputPage.forwardVisible (inputPage u) = true) ->
  wf (sm, u').
Proof.
  intros Hw Hh Hp Hf. pose proof Hw as [_ _ _ _ Hpl Hb _ _]. cbn [snd] in *.
  apply (wf_frame sm u u' Hw).
  - exists []. rewrite app_nil_r. exact Hh.
  - rewrite Hh, Hp. exact Hpl.
  - rewrite Hh, Hp. exact Hb.
  - rewrite Hp. auto.
  - exact Hf.
Qed.

(** A listener of the displayed assumptions page rewrites the page's
    array and renders it. *)
Lemma wf_write (sm : StateManager.t JsVal) (u : UI) (a : list jsstring) :
  wf (sm, u) ->
  shown (AssumptionsPage.display (assumptionsPage u)) = true ->
  let l := AssumptionsPage.assumptions (assumptionsPage u) in
  let h' := Heap.write l a (heap u) in
  wf (sm, setAssumptionsPage
            (AssumptionsPage.renderAssumptions h' (assumptionsPage u))
            (setHeap h' u)).
Proof.
  intros [Hl (la & Hla & Hlav) Hm Hs Hpl Hb Hd Hf] Hshown l h'.
  cbn [fst snd] in *.
  pose proof (length_renderAssumptions h' (assumptionsPage u)) as (Rb & Ra & Rd).
  split; cbn [fst snd heap setHeap setAssumptionsPage assumptionsPage inputPage];
    try assumption.
  - exists la. split; [exact Hla|]. subst h'. rewrite length_write. exact Hlav.
  - rewrite Ra. subst h'. rewrite length_write. exact Hpl.
  - rewrite Rb, Ra. reflexivity.
  - rewrite Rd. exact Hd.
  - intros Hv. destruct (Hf Hv) as (Hedit & _).
    rewrite (Hd Hshown) in Hedit. discriminate.
Qed.

Ltac solve_update :=
  let v := fresh "v" in
  let Hv := fresh "Hv" in
  intros v Hv; simplify_map_eq;
  first [ reflexivity
        | eexists; split; [reflexivity|];
          first [reflexivity | unfold validMode; tauto] ].

Lemma enterEditMode_wf (w : World) : wf w -> wf (enterEditMode w).
Proof. intros Hw. apply setState_wf; [exact Hw|solve_update..]. Qed.

Lemma handleForward_wf (w : World) : wf w -> wf (handleForward w).
Proof.
  intros Hw. unfold handleForward. destruct (hasAssumptions _ _); [|exact Hw].
  apply setState_wf; [exact Hw|solve_update..].
Qed.

Lemma handleUpdateAssumptions_wf (w : World) :
  wf w ->
  shown (AssumptionsPage.display (assumptionsPage w.2)) = true ->
  wf (handleUpdateAssumptions (AssumptionsPage.assumptions (assumptionsPage w.2)) w).
Proof.
  intros Hw Hshown. pose proof Hw as [_ _ _ _ Hpl _ Hd Hf].
  apply setState_wf; [exact Hw| |solve_update..|].
  - intros v Hv. simplify_map_eq. eexists. split; [reflexivity|exact Hpl].
  - intros Hv. destruct (Hf Hv) as (Hedit & _).
    rewrite (Hd Hshown) in Hedit. discriminate.
Qed.

(** In a well-formed world the [setState] of [_handleAnalyze] does not
    throw, and the call is made. *)
Lemma clickAnalyze_eq (w : World) :
  wf w ->
  clickAnalyze w
  = let '(sm, u) :=
      setState (<["isAnalyzing" := VBool true]>
                (<["savedPrompt" := VStr (InputPage.getUserPrompt (inputPage w.2))]>
                 (<["savedResponse" := VStr (InputPage.getAIResponse (inputPage w.2))]>
                  (<["currentMode" := VStr PANEL_MODES.ANALYZING]> ∅)))) w in
    (sm, setInputPage (InputPage.afterAnalyze (inputPage u))
           (mkUI (heap u) (panel u) (inputPage u) (analyzingPage u)
                 (assumptionsPage u) (host u) (console u)
                 (apiCalls u ++ [(InputPage.getUserPrompt (inputPage w.2),
                                  InputPage.getAIResponse (inputPage w.2))])
                 (S (inFlight u)))).
Proof.
  intros Hw. unfold clickAnalyze, handleAnalyze_begin. cbn zeta.
  rewrite (setState_quiet _ w Hw) by solve_update.
  destruct (setState _ w) as [sm u]. reflexivity.
Qed.

Lemma clickAnalyze_wf (w : World) : wf w -> wf (clickAnalyze w).
Proof.
  intros Hw. rewrite (clickAnalyze_eq w Hw).
  match goal with
  | |- context [setState ?upd w] =>
      assert (Hw1 : wf (setState upd w));
      [|destruct (setState upd w) as [sm u]]
  end.
  - apply setState_wf; [exact Hw|solve_update| solve_update | |solve_update].
    intros v Hv. simplify_map_eq. eexists. split; [reflexivity|].
    apply JsStringFacts.trim_idemp.
  - apply (wf_frame_input sm u); [exact Hw1|reflexivity|reflexivity|].
    intros Hv. discriminate Hv.
Qed.

Lemma parseBody_spec (b : ResponseBody) (h : Heap.t) :
  (exists ext, (parseBody b h).2 = h ++ ext)
  /\ validData (parseBody b h).2 (parseBody b h).1.
Proof.
  unfold parseBody, validData. destruct (assumptionsField b) as [| |items].
  - split; [exists []; apply eq_sym, app_nil_r|exact I].
  - split; [exists []; apply eq_sym, app_nil_r|exact I].
  - cbn [Heap.alloc fst snd]. split; [eauto|].
    unfold prop. rewrite lookup_insert_eq. cbn. rewrite length_app. cbn. lia.
Qed.

Lemma parseCompletion_spec (c : Completion (ReasoningResult ResponseBody)) (h : Heap.t) :
  (exists ext, (parseCompletion c h).2 = h ++ ext)
  /\ validCompletion (parseCompletion c h).2 (parseCompletion c h).1.
Proof.
  unfold parseCompletion, validCompletion.
  destruct c as [r|e]; [|split; [exists []; apply eq_sym, app_nil_r|exact I]].
  destruct (data r) as [b|]; [|split; [exists []; apply eq_sym, app_nil_r|exact I]].
  pose proof (parseBody_spec b h) as Hb.
  destruct (parseBody b h) as [d h']. exact Hb.
Qed.

Lemma coalesceEmpty_spec (v : JsVal) (h : Heap.t) :
  match v with
  | VUndefined | VNull => True
  | VArr l => l < length h
  | _ => False
  end ->
  exists l ext,
    JsArray.coalesceEmpty v h = (VArr l, h ++ ext)
    /\ l < length (h ++ ext)
    /\ Heap.read (h ++ ext) l = JsArray.elements h v.
Proof.
  intros Hv. unfold JsArray.coalesceEmpty.
  destruct v as [| | | |l]; try contradiction; cbn [JsArray.nullish Heap.alloc].
  - exists (length h), [[]]. rewrite length_app. cbn [length].
    split; [reflexivity|]. split; [lia|].
    unfold Heap.read. rewrite list_lookup_middle by reflexivity. reflexivity.
  - exists (length h), [[]]. rewrite length_app. cbn [length].
    split; [reflexivity|]. split; [lia|].
    unfold Heap.read. rewrite list_lookup_middle by reflexivity. reflexivity.
  - exists l, []. rewrite app_nil_r. auto.
Qed.

Lemma handleAnalyze_catch_wf (w : World) : wf w -> wf (handleAnalyze_catch w).
Proof.
  intros Hw. unfold handleAnalyze_catch.
  apply setState_wf; [|solve_update..].
  destruct w as [sm u]. apply (wf_frame_input sm u); auto.
Qed.

Lemma setState_modeChanged (updates : JsObject) (w : World) (m m' : jsstring) :
  updates !! "currentMode" = Some (VStr m') ->
  prop (stateOf w) "currentMode" = VStr m ->
  m' <> m ->
  modeChanged (stateOf (setState updates w)) (stateOf w) = true.
Proof.
  intros Hu Hm Hne. unfold modeChanged. rewrite stateOf_setState, Hu, Hm.
  unfold strict_neq. case_bool_decide as H; [|reflexivity].
  injection H as H. contradiction.
Qed.

Lemma setState_heap (updates : JsObject) (w : World) :
  StateManager.listeners w.1 = [PANEL_LISTENER] ->
  exists ext, heap (setState updates w).2 = heap w.2 ++ ext.
Proof.
  intros Hl. rewrite (setState_snd updates w Hl). apply handleStateChange_heap.
Qed.

Lemma validData_app (h ext : Heap.t) (d : JsObject) :
  validData h d -> validData (h ++ ext) d.
Proof.
  unfold validData. destruct (prop d "assumptions"); try done.
  rewrite length_app. lia.
Qed.

(** Rendering a copy of an array: the second half of the success branch
    of [_handleAnalyze], and of a notification. *)
Lemma pageSetAssumptions_wf (sm : StateManager.t JsVal) (u : UI) (l : loc)
    (ext : Heap.t) :
  wf (sm, u) ->
  wf (sm, (pageSetAssumptions (VArr l) (setHeap (heap u ++ ext) u)).1).
Proof.
  intros Hw.
  destruct (pageSetAssumptions_spec (VArr l) (setHeap (heap u ++ ext) u))
    as (Hh & Ha & Hb & Hd & Hi).
  cbn [heap setHeap assumptionsPage inputPage] in Hh, Ha, Hb, Hd, Hi.
  apply (wf_frame sm u); [exact Hw|..].
  - rewrite Hh, <- app_assoc. eauto.
  - rewrite Hh, Ha, (length_app (heap u ++ ext)). cbn [length]. lia.
  - rewrite Hh, Ha, Hb. unfold Heap.read.
    rewrite list_lookup_middle by reflexivity. reflexivity.
  - rewrite Hd. auto.
  - rewrite Hi. auto.
Qed.

Lemma wf_heap_app (w : World) (ext : Heap.t) :
  wf w -> wf (w.1, setHeap (heap w.2 ++ ext) w.2).
Proof.
  intros Hw. pose proof Hw as [_ _ _ _ Hpl Hb _ _].
  destruct w as [sm u]. cbn [fst snd] in *.
  apply (wf_frame sm u); cbn [heap setHeap assumptionsPage inputPage]; eauto.
  - rewrite length_app. lia.
  - rewrite read_app_old by exact Hpl. exact Hb.
Qed.

(** In a well-formed world, with the data of a response as the JSON
    parser gives them, nothing is thrown inside the [try] block once the
    assumptions have been read. *)
Lemma handleAnalyze_resume_eq (c : Completion (ReasoningResult JsObject)) (w : World) :
  wf w -> validCompletion (heap w.2) c ->
  handleAnalyze_resume c w
  = match c with
    | Throw e => handleAnalyze_catch w
    | Normal result =>
        if success result then
          match data result with
          | None => handleAnalyze_catch w
          | Some d =>
              let '(a1, h) := JsArray.coalesceEmpty (prop d "assumptions") (heap w.2) in
              let '(sm, u) :=
                setState (<["assumptions" := a1]>
                          (<["isAnalyzing" := VBool false]>
                           (<["currentMode" := VStr PANEL_MODES.ASSUMPTIONS]> ∅)))
                         (w.1, setHeap h w.2) in
              let '(a2, h) := JsArray.coalesceEmpty (prop d "assumptions") (heap u) in
              (sm, (pageSetAssumptions a2 (setHeap h u)).1)
          end
        else
          setState (<["isAnalyzing" := VBool false]>
                    (<["currentMode" := VStr PANEL_MODES.EDIT]> ∅))
                   (w.1, consoleLog (js "Analysis error:") w.2)
    end.
Proof.
  intros Hw Hc. unfold handleAnalyze_resume.
  destruct c as [result|e]; [|reflexivity].
  destruct (success result).
  - cbn [validCompletion] in Hc.
    destruct (data result) as [d|]; [|reflexivity].
    destruct (coalesceEmpty_spec (prop d "assumptions") (heap w.2) Hc)
      as (l1 & ext1 & -> & Hl1 & _).
    cbn zeta.
    pose proof (wf_heap_app w ext1 Hw) as Hw0.
    rewrite (setState_quiet _ _ Hw0) by (intros v Hv; simplify_map_eq; eauto).
    pose proof Hw as [Hl _ _ _ _ _ _ _].
    match goal with
    | |- context [setState ?upd ?w1] =>
        destruct (setState_heap upd w1 Hl) as (ext & Hext);
        destruct (setState upd w1) as [sm u]
    end.
    cbn [snd heap setHeap] in Hext.
    assert (Hd : validData (heap u) d).
    { rewrite Hext, <- app_assoc. apply validData_app, Hc. }
    destruct (coalesceEmpty_spec (prop d "assumptions") (heap u) Hd)
      as (l2 & ext2 & -> & _).
    destruct (pageSetAssumptions (VArr l2) (setHeap (heap u ++ ext2) u))
      as [u' thrown] eqn:Hp.
    pose proof (pageSetAssumptions_quiet l2 (setHeap (heap u ++ ext2) u)) as Hq.
    rewrite Hp in Hq. cbn [snd] in Hq. subst thrown. reflexivity.
  - cbn zeta.
    rewrite setState_quiet; [reflexivity| |solve_update].
    destruct w as [sm u]. apply (wf_frame_input sm u); auto.
Qed.

Lemma handleAnalyze_resume_wf (c : Completion (ReasoningResult JsObject)) (w : World) :
  wf w -> validCompletion (heap w.2) c -> wf (handleAnalyze_resume c w).
Proof.
  intros Hw Hc. rewrite (handleAnalyze_resume_eq c w Hw Hc).
  destruct c as [result|e]; [|apply handleAnalyze_catch_wf, Hw].
  destruct (success result).
  - cbn [validCompletion] in Hc.
    destruct (data result) as [d|]; [|apply handleAnalyze_catch_wf, Hw].
    destruct (coalesceEmpty_spec (prop d "assumptions") (heap w.2) Hc)
      as (l1 & ext1 & -> & Hl1 & _).
    match goal with
    | |- context [setState ?upd ?w1] =>
        assert (Hw1 : wf (setState upd w1));
        [|assert (Hd : validData (heap (setState upd w1).2) d);
          [|destruct (setState upd w1) as [sm u]]]
    end.
    + assert (Hw0 : wf (w.1, setHeap (heap w.2 ++ ext1) w.2)).
      { pose proof Hw as [_ _ _ _ Hpl Hb _ _].
        destruct w as [sm u]. cbn [fst snd] in *.
        apply (wf_frame sm u); cbn [heap setHeap assumptionsPage inputPage]; eauto.
        - rewrite length_app. lia.
        - rewrite read_app_old by exact Hpl. exact Hb. }
      apply setState_wf; [exact Hw0| |solve_update..|].
      * intros v Hv. simplify_map_eq. eauto.
      * intros Hv Hch. exfalso.
        destruct Hw0 as [_ _ _ _ _ _ _ Hf]. destruct (Hf Hv) as (Hedit & _).
        erewrite setState_modeChanged in Hch; [discriminate|reflexivity|exact Hedit|].
        discriminate.
    + pose proof Hw as [Hl _ _ _ _ _ _ _].
      match goal with
      | |- context [setState ?upd ?w1] =>
          destruct (setState_heap upd w1 Hl) as (ext & ->)
      end.
      cbn [snd heap setHeap]. rewrite <- app_assoc. apply validData_app, Hc.
    + destruct (coalesceEmpty_spec (prop d "assumptions") (heap u) Hd)
        as (l2 & ext2 & -> & _).
      apply pageSetAssumptions_wf, Hw1.
  - apply setState_wf; [|solve_update..].
    destruct w as [sm u]. apply (wf_frame_input sm u); auto.
Qed.

(** The world in which [_handleAnalyze] resumes: the parser has
    allocated, and one call fewer is in flight. *)
Lemma wf_settle (w : World) (ext : Heap.t) :
  wf w ->
  wf (w.1, mkUI (heap w.2 ++ ext) (panel w.2) (inputPage w.2) (analyzingPage w.2)
                (assumptionsPage w.2) (host w.2) (console w.2) (apiCalls w.2)
                (pred (inFlight w.2))).
Proof.
  intros Hw. pose proof Hw as [_ _ _ _ Hpl Hb _ _].
  destruct w as [sm u]. cbn [fst snd] in *.
  apply (wf_frame sm u); cbn [heap assumptionsPage inputPage]; eauto.
  - rewrite length_app. lia.
  - rewrite read_app_old by exact Hpl. exact Hb.
Qed.

Lemma apiSettled_wf (c : Completion (ReasoningResult ResponseBody)) (w : World) :
  wf w -> wf (apiSettled c w).
Proof.
  intros Hw. unfold apiSettled.
  pose proof (parseCompletion_spec c (heap w.2)) as ((ext & Hext) & Hvalid).
  destruct (parseCompletion c (heap w.2)) as [c' h]. cbn [fst snd] in Hext, Hvalid.
  subst h. apply handleAnalyze_resume_wf; [|exact Hvalid].
  pose proof Hw as [_ _ _ _ Hpl Hb _ _].
  destruct w as [sm u]. cbn [fst snd] in *.
  apply (wf_frame sm u); cbn [heap assumptionsPage inputPage]; eauto.
  - rewrite length_app. lia.
  - rewrite read_app_old by exact Hpl. exact Hb.
Qed.

Lemma handleReprompt_wf (w : World) : wf w -> wf (handleReprompt w).
Proof.
  intros Hw. unfold handleReprompt. destruct w as [sm u]. cbn [fst snd].
  destruct (LLMFrontendAdapter.insertPrompt _ _ _);
    apply (wf_frame_input sm u); auto.
Qed.

Lemma toolbarInsert_wf (target : Target) (text : jsstring) (w : World) :
  wf w -> wf (toolbarInsert target text w).
Proof.
  intros Hw. unfold toolbarInsert. apply enterEditMode_wf.
  destruct w as [sm u].
  destruct target; cbn [show setUserPrompt setAIResponse fst snd];
    apply (wf_frame_input sm u); try reflexivity; try exact Hw;
    intros Hv; discriminate Hv.
Qed.

(** A change of the bubbles that keeps their number. *)
Lemma setBubbles_wf (sm : StateManager.t JsVal) (u : UI)
    (bs : list AssumptionsPage.Bubble) :
  wf (sm, u) ->
  length bs = length (AssumptionsPage.bubbles (assumptionsPage u)) ->
  wf (sm, setAssumptionsPage (AssumptionsPage.setBubbles bs (assumptionsPage u)) u).
Proof.
  intros Hw Hbs. pose proof Hw as [_ _ _ _ Hpl Hb _ _]. cbn [snd] in *.
  apply (wf_frame sm u); cbn [heap setAssumptionsPage assumptionsPage inputPage
                              AssumptionsPage.setBubbles AssumptionsPage.assumptions
                              AssumptionsPage.bubbles AssumptionsPage.display];
    auto.
  - exists []. apply eq_sym, app_nil_r.
  - rewrite Hbs. exact Hb.
Qed.

Lemma updateAssumptionsState_wf (w : World) (a : list jsstring) :
  wf w ->
  shown (AssumptionsPage.display (assumptionsPage w.2)) = true ->
  wf (afterPage
        (AssumptionsPage.updateAssumptionsState
           (Heap.write (AssumptionsPage.assumptions (assumptionsPage w.2)) a (heap w.2))
           (assumptionsPage w.2)) w).
Proof.
  intros Hw Hshown. destruct w as [sm u]. cbn [fst snd] in *.
  pose proof (wf_write sm u a Hw Hshown) as Hw'. cbn zeta in Hw'.
  unfold AssumptionsPage.updateAssumptionsState, afterPage. cbn [fst snd].
  pose proof (length_renderAssumptions
                (Heap.write (AssumptionsPage.assumptions (assumptionsPage u)) a (heap u))
                (assumptionsPage u)) as (_ & Ra & Rd).
  match goal with
  | |- wf (handleUpdateAssumptions _ ?w') =>
      pose proof (handleUpdateAssumptions_wf w' Hw') as H
  end.
  cbn [fst snd assumptionsPage setAssumptionsPage] in H.
  rewrite Ra, Rd in H. apply H, Hshown.
Qed.

Lemma keydown_wf (index : nat) (key : jsstring) (w : World)
    (r : AssumptionsPage.t * Heap.t * option loc) :
  wf w ->
  shown (AssumptionsPage.display (assumptionsPage w.2)) = true ->
  AssumptionsPage.keydown index key (heap w.2) (assumptionsPage w.2) = Some r ->
  wf (afterPage r w).
Proof.
  intros Hw Hshown. unfold AssumptionsPage.keydown.
  destruct (AssumptionsPage.bubbles (assumptionsPage w.2) !! index) as [b|]; [|done].
  destruct (JsString.eqb key (js "Enter")).
  - destruct (JsArray.set _ _ _) as [a'|]; [|done].
    intros [= <-]. apply updateAssumptionsState_wf; assumption.
  - destruct (JsString.eqb key (js "Escape")).
    + destruct (Heap.read _ _ !! index) as [text|]; [|done].
      intros [= <-]. pose proof Hw as [_ _ _ _ Hpl Hb _ _].
      destruct w as [sm u]. unfold afterPage. cbn [fst snd] in *.
      apply (wf_frame sm u);
        cbn [heap setHeap setAssumptionsPage assumptionsPage inputPage
             AssumptionsPage.setBubbles AssumptionsPage.assumptions
             AssumptionsPage.bubbles AssumptionsPage.display];
        auto.
      * exists []. apply eq_sym, app_nil_r.
      * rewrite length_insert. exact Hb.
    + intros [= <-]. destruct w as [sm u]. unfold afterPage. cbn [fst snd] in *.
      apply (wf_frame_input sm u); auto.
Qed.

(** *** The page and the state list the same assumptions *)

Lemma handleStateChange_synced (sm : StateManager.t JsVal)
    (newState oldState : JsObject) (u : UI) (l : loc) :
  prop newState "assumptions" = VArr l ->
  (exists l', prop oldState "assumptions" = VArr l') ->
  l < length (heap u) ->
  (Heap.read (heap u) (AssumptionsPage.assumptions (assumptionsPage u))
   = JsArray.elements (heap u) (prop oldState "assumptions")
   \/ Heap.read (heap u) (AssumptionsPage.assumptions (assumptionsPage u))
      = Heap.read (heap u) l) ->
  let u' := (handleStateChange sm newState oldState u).1 in
  Heap.read (heap u') (AssumptionsPage.assumptions (assumptionsPage u'))
  = Heap.read (heap u') l.
Proof.
  intros Hnew (l' & Hold) Hl Hpage. cbn zeta. rewrite handleStateChange_unfold.
  cbn zeta. set (u1 := if strict_neq _ _ then _ else u).
  assert (H1 : heap u1 = heap u
               /\ AssumptionsPage.assumptions (assumptionsPage u1)
                  = AssumptionsPage.assumptions (assumptionsPage u)).
  { subst u1. destruct (strict_neq _ _); [|auto].
    rewrite updateModeUI_heap.
    destruct (updateModeUI_page (prop newState "currentMode")
                sm (setCurrentMode (prop newState "currentMode") u)) as (-> & _).
    auto. }
  destruct H1 as (Hh & Ha). rewrite Hnew, Hold in *. cbn [arraysEqual arrayView].
  case_bool_decide as Heq; cbn [negb fst snd].
  - rewrite Hh, Ha. rewrite Hh in Heq. cbn [JsArray.elements] in Hpage.
    injection Heq as Heq. destruct Hpage as [Hp|Hp]; congruence.
  - cbn [JsArray.orEmpty truthy fst snd].
    destruct (pageSetAssumptions_spec (VArr l) (setHeap (heap u1) u1))
      as (Hh' & Ha' & _).
    rewrite Hh', Ha'. cbn [heap setHeap JsArray.elements]. rewrite Hh.
    rewrite (read_app_old (heap u) _ l Hl).
    unfold Heap.read at 1. rewrite list_lookup_middle by reflexivity. reflexivity.
Qed.

Lemma setState_synced (updates : JsObject) (w : World) (l : loc) :
  wf w ->
  prop (stateOf (setState updates w)) "assumptions" = VArr l ->
  l < length (heap w.2) ->
  (synced w \/ pageAssumptions w = Heap.read (heap w.2) l) ->
  synced (setState updates w).
Proof.
  intros [Hl (la & Hla & _) _ _ _ _ _ _] Hnew Hlt Hpage.
  unfold synced, pageAssumptions, assumptionsOf.
  rewrite Hnew. cbn [JsArray.elements]. rewrite (setState_snd updates w Hl).
  apply handleStateChange_synced; [exact Hnew| |exact Hlt|exact Hpage].
  exists la. apply lookup_prop, Hla.
Qed.

(** For an update that does not write [assumptions]. *)
Lemma setState_synced_keep (updates : JsObject) (w : World) :
  wf w -> synced w -> updates !! "assumptions" = None -> synced (setState updates w).
Proof.
  intros Hw Hs Hu. pose proof Hw as [Hl (la & Hla & Hlav) _ _ _ _ _ _].
  apply (setState_synced updates w la Hw); [|exact Hlav|left; exact Hs].
  rewrite stateOf_setState, Hu. apply lookup_prop, Hla.
Qed.

(** A change that keeps the store, the page's array and what the heap
    already holds. *)
Lemma synced_frame (sm : StateManager.t JsVal) (u u' : UI) :
  wf (sm, u) -> synced (sm, u) ->
  (exists ext, heap u' = heap u ++ ext) ->
  AssumptionsPage.assumptions (assumptionsPage u')
  = AssumptionsPage.assumptions (assumptionsPage u) ->
  synced (sm, u').
Proof.
  intros [_ (la & Hla & Hlav) _ _ Hpl _ _ _] Hs (ext & Hext) Ha.
  unfold synced, pageAssumptions, assumptionsOf, stateOf in *. cbn [fst snd] in *.
  rewrite (lookup_prop _ _ _ Hla) in *. cbn [JsArray.elements] in *.
  rewrite Hext, Ha, !read_app_old by assumption. exact Hs.
Qed.

Lemma updateAssumptionsState_synced (w : World) (a : list jsstring) :
  wf w ->
  shown (AssumptionsPage.display (assumptionsPage w.2)) = true ->
  synced (afterPage
            (AssumptionsPage.updateAssumptionsState
               (Heap.write (AssumptionsPage.assumptions (assumptionsPage w.2)) a
                  (heap w.2))
               (assumptionsPage w.2)) w).
Proof.
  intros Hw Hshown. destruct w as [sm u]. cbn [fst snd] in *.
  pose proof (wf_write sm u a Hw Hshown) as Hw'. cbn zeta in Hw'.
  unfold AssumptionsPage.updateAssumptionsState, afterPage. cbn [fst snd].
  pose proof (length_renderAssumptions
                (Heap.write (AssumptionsPage.assumptions (assumptionsPage u)) a (heap u))
                (assumptionsPage u)) as (_ & Ra & _).
  pose proof Hw' as [Hl _ _ _ Hpl _ _ _].
  cbn [fst snd assumptionsPage setAssumptionsPage] in Hl, Hpl. rewrite Ra in Hpl.
  unfold handleUpdateAssumptions.
  apply (setState_synced _ (sm, _) (AssumptionsPage.assumptions (assumptionsPage u)) Hw').
  - rewrite stateOf_setState, lookup_insert_eq. reflexivity.
  - exact Hpl.
  - right. unfold pageAssumptions. cbn [fst snd assumptionsPage setAssumptionsPage].
    rewrite Ra. reflexivity.
Qed.

Lemma handleAnalyze_resume_synced (c : Completion (ReasoningResult JsObject))
    (w : World) :
  wf w -> synced w -> validCompletion (heap w.2) c ->
  synced (handleAnalyze_resume c w).
Proof.
  intros Hw Hs Hc. rewrite (handleAnalyze_resume_eq c w Hw Hc).
  assert (Hcatch : synced (handleAnalyze_catch w)).
  { unfold handleAnalyze_catch. destruct w as [sm u].
    apply setState_synced_keep; [| |reflexivity].
    - apply (wf_frame_input sm u); auto.
    - apply (synced_frame sm u); auto. exists []. apply eq_sym, app_nil_r. }
  destruct c as [result|e]; [|exact Hcatch].
  destruct (success result).
  - cbn [validCompletion] in Hc.
    destruct (data result) as [d|]; [|exact Hcatch].
    destruct (coalesceEmpty_spec (prop d "assumptions") (heap w.2) Hc)
      as (l1 & ext1 & -> & Hl1 & Hr1).
    pose proof Hw as [Hl _ _ _ _ _ _ _].
    match goal with
    | |- context [setState ?upd ?w1] =>
        pose proof (setState_heap upd w1 Hl) as (ext & Hext);
        pose proof (lookup_setState upd w1 "assumptions") as Hst;
        destruct (setState upd w1) as [sm u]
    end.
    cbn [fst snd heap setHeap] in Hext. rewrite lookup_insert_eq in Hst.
    assert (Hd : validData (heap u) d).
    { rewrite Hext, <- app_assoc. apply validData_app, Hc. }
    destruct (coalesceEmpty_spec (prop d "assumptions") (heap u) Hd)
      as (l2 & ext2 & -> & Hl2 & Hr2).
    destruct (pageSetAssumptions_spec (VArr l2) (setHeap (heap u ++ ext2) u))
      as (Hh & Ha & _).
    cbn [heap setHeap] in Hh, Ha.
    unfold synced, pageAssumptions, assumptionsOf, stateOf in *. cbn [fst snd] in *.
    rewrite (lookup_prop _ _ _ Hst), Hh, Ha. cbn [JsArray.elements].
    unfold Heap.read at 1. rewrite list_lookup_middle by reflexivity.
    cbn [default]. rewrite Hr2.
    assert (Hl1u : l1 < length (heap u)).
    { rewrite Hext, length_app. lia. }
    rewrite <- app_assoc, read_app_old by exact Hl1u.
    rewrite Hext, read_app_old by exact Hl1. rewrite Hr1.
    unfold validData in Hc. rewrite <- Hext.
    destruct (prop d "assumptions") as [| | | |l]; try contradiction;
      try reflexivity.
    cbn [JsArray.elements]. rewrite Hext, <- app_assoc.
    apply read_app_old. exact Hc.
  - destruct w as [sm u]. apply setState_synced_keep; [| |reflexivity].
    + apply (wf_frame_input sm u); auto.
    + apply (synced_frame sm u); auto. exists []. apply eq_sym, app_nil_r.
Qed.

Lemma apiSettled_synced (c : Completion (ReasoningResult ResponseBody)) (w : World) :
  wf w -> synced w -> synced (apiSettled c w).
Proof.
  intros Hw Hs. unfold apiSettled.
  pose proof (parseCompletion_spec c (heap w.2)) as ((ext & Hext) & Hvalid).
  destruct (parseCompletion c (heap w.2)) as [c' h]. cbn [fst snd] in Hext, Hvalid.
  subst h. pose proof Hw as [_ _ _ _ Hpl Hb _ _].
  destruct w as [sm u]. cbn [fst snd] in *.
  apply handleAnalyze_resume_synced; [| |exact Hvalid].
  - apply (wf_frame sm u); cbn [heap assumptionsPage inputPage]; eauto.
    + rewrite length_app. lia.
    + rewrite read_app_old by exact Hpl. exact Hb.
  - apply (synced_frame sm u); eauto.
Qed.

Lemma step_synced (ev : Event) (w w' : World) :
  wf w -> synced w -> step ev w = Some w' -> synced w'.
Proof.
  intros Hw Hs.
  assert (Hui : forall u', heap u' = heap w.2 ->
                           assumptionsPage u' = assumptionsPage w.2 ->
                           synced (w.1, u')).
  { intros u' Hh Ha. destruct w as [sm u]. apply (synced_frame sm u); auto.
    - exists []. rewrite app_nil_r. exact Hh.
    - rewrite Ha. reflexivity. }
  assert (Hbub : forall bs, synced (w.1, setAssumptionsPage
                                      (AssumptionsPage.setBubbles bs (assumptionsPage w.2))
                                      w.2)).
  { intros bs. destruct w as [sm u]. apply (synced_frame sm u); auto.
    exists []. apply eq_sym, app_nil_r. }
  destruct ev; cbn [step].
  - destruct (shown _); [|done]. intros [= <-]. apply Hui; reflexivity.
  - destruct (shown _); [|done]. intros [= <-]. apply Hui; reflexivity.
  - destruct (InputPage.debouncePending _); [|done]. intros [= <-].
    apply Hui; reflexivity.
  - destruct (_ && _); [|done]. intros [= <-].
    rewrite (clickAnalyze_eq w Hw).
    match goal with
    | |- context [setState ?upd w] =>
        assert (Hw1 : wf (setState upd w) /\ synced (setState upd w));
        [|destruct (setState upd w) as [sm u]]
    end.
    + split; [|apply setState_synced_keep; auto].
      apply setState_wf; [exact Hw|solve_update| solve_update | |solve_update].
      intros v Hv. simplify_map_eq. eexists. split; [reflexivity|].
      apply JsStringFacts.trim_idemp.
    + destruct Hw1 as (Hw1 & Hs1). apply (synced_frame sm u); auto.
      exists []. apply eq_sym, app_nil_r.
  - destruct (_ && _); [|done]. intros [= <-]. unfold handleForward.
    destruct (hasAssumptions _ _); [|exact Hs].
    apply setState_synced_keep; auto.
  - destruct (bool_decide _); [|done]. intros [= <-].
    apply apiSettled_synced; assumption.
  - destruct (shown _); [|done]. intros [= <-].
    apply setState_synced_keep; auto.
  - destruct (shown _); [|done]. intros [= <-]. unfold handleReprompt.
    destruct (LLMFrontendAdapter.insertPrompt _ _ _); apply Hui; reflexivity.
  - destruct (shown _); [|done]. intros [= <-]. apply Hbub.
  - destruct (shown _); [|done]. intros [= <-]. apply Hbub.
  - destruct (shown _) eqn:Hshown; [|done]. unfold AssumptionsPage.keydown.
    destruct (AssumptionsPage.bubbles (assumptionsPage w.2) !! index) as [b|]; [|done].
    destruct (JsString.eqb key (js "Enter")).
    + destruct (JsArray.set _ _ _) as [a'|]; [|done].
      intros [= <-]. apply updateAssumptionsState_synced; assumption.
    + destruct (JsString.eqb key (js "Escape")).
      * destruct (Heap.read _ _ !! index) as [text|]; [|done].
        intros [= <-]. unfold afterPage.
        destruct w as [sm u]. apply (synced_frame sm u); auto.
        exists []. apply eq_sym, app_nil_r.
      * intros [= <-]. unfold afterPage. apply Hui; reflexivity.
  - intros [= <-]. apply Hbub.
  - destruct (shown _) eqn:Hshown; [|done]. cbn [andb].
    destruct (bool_decide _); [|done]. intros [= <-].
    apply updateAssumptionsState_synced; assumption.
  - destruct (truthy _); [|done]. intros [= <-]. unfold toolbarInsert.
    destruct w as [sm u].
    apply setState_synced_keep; [| |reflexivity];
      destruct target; cbn [show setUserPrompt setAIResponse fst snd].
    + apply (wf_frame_input sm u); try reflexivity; try exact Hw;
        intros Hv; discriminate Hv.
    + apply (wf_frame_input sm u); try reflexivity; try exact Hw;
        intros Hv; discriminate Hv.
    + apply (synced_frame sm u); auto. exists []. apply eq_sym, app_nil_r.
    + apply (synced_frame sm u); auto. exists []. apply eq_sym, app_nil_r.
  - intros [= <-]. apply Hui; reflexivity.
  - intros [= <-]. apply Hui; reflexivity.
Qed.

(** Every event keeps the world well-formed. *)
Lemma step_wf (ev : Event) (w w' : World) : wf w -> step ev w = Some w' -> wf w'.
Proof.
  intros Hw. destruct ev; cbn [step].
  - destruct (shown _); [|done]. intros [= <-]. destruct w as [sm u].
    apply (wf_frame_input sm u); auto.
  - destruct (shown _); [|done]. intros [= <-]. destruct w as [sm u].
    apply (wf_frame_input sm u); auto.
  - destruct (InputPage.debouncePending _); [|done]. intros [= <-].
    destruct w as [sm u].
    apply (wf_frame_input sm u); auto. intros Hv. discriminate Hv.
  - destruct (_ && _); [|done]. intros [= <-]. apply clickAnalyze_wf, Hw.
  - destruct (_ && _); [|done]. intros [= <-]. apply handleForward_wf, Hw.
  - destruct (bool_decide _); [|done]. intros [= <-]. apply apiSettled_wf, Hw.
  - destruct (shown _); [|done]. intros [= <-]. apply enterEditMode_wf, Hw.
  - destruct (shown _); [|done]. intros [= <-]. apply handleReprompt_wf, Hw.
  - destruct (shown _); [|done]. intros [= <-]. destruct w as [sm u].
    apply (setBubbles_wf sm u _ Hw). apply length_alter.
  - destruct (shown _); [|done]. intros [= <-]. destruct w as [sm u].
    apply (setBubbles_wf sm u _ Hw). apply length_alter.
  - destruct (shown _) eqn:Hshown; [|done].
    destruct (AssumptionsPage.keydown _ _ _ _) as [r|] eqn:Hr; [|done].
    intros [= <-]. apply (keydown_wf index key); assumption.
  - intros [= <-]. destruct w as [sm u].
    apply (setBubbles_wf sm u _ Hw). apply length_alter.
  - destruct (shown _) eqn:Hshown; [|done]. cbn [andb].
    destruct (bool_decide _); [|done]. intros [= <-].
    apply updateAssumptionsState_wf; assumption.
  - destruct (truthy _); [|done]. intros [= <-]. apply toolbarInsert_wf, Hw.
  - intros [= <-]. destruct w as [sm u]. apply (wf_frame_input sm u); auto.
  - intros [= <-]. destruct w as [sm u]. apply (wf_frame_input sm u); auto.
Qed.

Lemma run_wf (evs : list Event) (w w' : World) : wf w -> run evs w = Some w' -> wf w'.
Proof.
  revert w. induction evs as [|ev evs IH]; intros w Hw; cbn [run].
  - intros [= <-]. exact Hw.
  - destruct (step ev w) as [w1|] eqn:Hs; [|done].
    apply IH. apply (step_wf ev w w1 Hw Hs).
Qed.

Lemma create_wf (adapter : LLMFrontendAdapter.t) (d : HostPage.t) :
  wf (PanelManager.create adapter d).
Proof.
  split.
  - reflexivity.
  - exists 0. split; [reflexivity|vm_compute; lia].
  - exists PANEL_MODES.EDIT. split; [reflexivity|left; reflexivity].
  - exists []. split; reflexivity.
  - vm_compute. lia.
  - reflexivity.
  - intros H. vm_compute in H. discriminate H.
  - intros H. vm_compute in H. discriminate H.
Qed.

(** Every world of a run is well-formed. *)
Lemma reachable_wf (w : World) : reachable w -> wf w.
Proof.
  intros (adapter & d & evs & Hrun).
  apply (run_wf evs _ w (create_wf adapter d) Hrun).
Qed.

Lemma create_synced (adapter : LLMFrontendAdapter.t) (d : HostPage.t) :
  synced (PanelManager.create adapter d).
Proof. reflexivity. Qed.

Lemma run_inv (evs : list Event) (w w' : World) :
  wf w -> synced w -> run evs w = Some w' -> wf w' /\ synced w'.
Proof.
  revert w. induction evs as [|ev evs IH]; intros w Hw Hs; cbn [run].
  - intros [= <-]. auto.
  - destruct (step ev w) as [w1|] eqn:Hstep; [|done].
    apply IH; [apply (step_wf ev w w1 Hw Hstep)|apply (step_synced ev w w1 Hw Hs Hstep)].
Qed.

(** Every world of a run is well-formed, and its page lists what its
    state holds. *)
Lemma run_create_inv (adapter : LLMFrontendAdapter.t) (d : HostPage.t)
    (evs : list Event) (w : World) :
  run evs (PanelManager.create adapter d) = Some w -> wf w /\ synced w.
Proof. apply run_inv; [apply create_wf|apply create_synced]. Qed.

(** *** Observations after [setState] *)

Lemma assumptionsOf_setState (updates : JsObject) (w : World) :
  wf w ->
  (forall v, updates !! "assumptions" = Some v ->
             exists l, v = VArr l /\ l < length (heap w.2)) ->
  assumptionsOf (setState updates w)
  = JsArray.elements (heap w.2) (prop (stateOf (setState updates w)) "assumptions").
Proof.
  intros [Hl (la & Hla & Hlav) _ _ _ _ _ _] Ua.
  destruct (setState_heap updates w Hl) as (ext & Hext).
  unfold assumptionsOf. rewrite Hext. apply elements_app_old.
  intros l. rewrite stateOf_setState.
  destruct (updates !! "assumptions") as [v|] eqn:Hu.
  - intros ->. destruct (Ua _ eq_refl) as (l' & [= <-] & Hlt). exact Hlt.
  - rewrite (lookup_prop _ _ _ Hla). intros [= <-]. exact Hlav.
Qed.

Lemma assumptionsOf_setState_keep (updates : JsObject) (w : World) :
  wf w -> updates !! "assumptions" = None ->
  assumptionsOf (setState updates w) = assumptionsOf w.
Proof.
  intros Hw Hu. rewrite assumptionsOf_setState; [|exact Hw|].
  - rewrite stateOf_setState, Hu. reflexivity.
  - intros v Hv. congruence.
Qed.

Lemma assumptionsOf_heap_app (sm : StateManager.t JsVal) (u u' : UI) (ext : Heap.t) :
  wf (sm, u) -> heap u' = heap u ++ ext ->
  assumptionsOf (sm, u') = assumptionsOf (sm, u).
Proof.
  intros [_ (la & Hla & Hlav) _ _ _ _ _ _] Hext.
  unfold assumptionsOf, stateOf in *. cbn [fst snd] in *. rewrite Hext.
  apply elements_app_old. rewrite (lookup_prop _ _ _ Hla). intros l [= <-].
  exact Hlav.
Qed.

End PanelManagerFacts.

(** ** The Forward affordance *)

Module ForwardFacts.

Import AssumptionsAPIClient PanelManager EventLoop PanelManagerFacts.




End ForwardFacts.

(** ** The Analyze flow *)

Module AnalyzeFacts.

Import AssumptionsAPIClient PanelManager EventLoop PanelManagerFacts.

(** A failed call ends in the [else] branch or in the [catch] block; both
    log, then revert to [edit]. *)
Lemma apiSettled_failed (c : Completion (ReasoningResult ResponseBody)) (w : World) :
  wf w ->
  failed c = true ->
  exists u ext,
    apiSettled c w = setState revertToEdit (w.1, u)
    /\ heap u = heap w.2 ++ ext
    /\ assumptionsPage u = assumptionsPage w.2
    /\ inputPage u = inputPage w.2.
Proof.
  intros Hw Hf. unfold apiSettled.
  pose proof (parseCompletion_spec c (heap w.2)) as ((ext & Hext) & Hvalid).
  assert (Hf' : failed (parseCompletion c (heap w.2)).1 = true).
  { unfold parseCompletion. destruct c as [r|e]; [|reflexivity].
    destruct (data r); [destruct (parseBody _ _)|]; exact Hf. }
  destruct (parseCompletion c (heap w.2)) as [c' h]. cbn [fst snd] in *. subst h.
  rewrite (handleAnalyze_resume_eq c' _ (wf_settle w ext Hw) Hvalid).
  destruct c' as [r|e].
  - cbn [failed] in Hf'. apply negb_true_iff in Hf'. rewrite Hf'.
    eexists _, ext. split; [reflexivity|]. auto.
  - unfold handleAnalyze_catch.
    eexists _, ext. split; [reflexivity|]. auto.
Qed.

Lemma clickAnalyze_assumptions (w : World) :
  wf w -> assumptionsOf (clickAnalyze w) = assumptionsOf w.
Proof.
  intros Hw. rewrite (clickAnalyze_eq w Hw).
  match goal with
  | |- context [setState ?upd w] =>
      pose proof (assumptionsOf_setState_keep upd w Hw eq_refl) as Hk;
      destruct (setState upd w) as [sm u]
  end.
  exact Hk.
Qed.

(** C3. For every Analyze invocation whose API call fails (the promise
    is rejected, or the result has [success == false]): when the call
    settles, at whatever point of a run, the controller sets the mode to
    [edit] and [isAnalyzing] to false and leaves the assumptions list as
    it was, as the click that started the invocation did; with an empty
    list, Forward is hidden afterwards. *)
Theorem analyze_failure_reverts (adapter : LLMFrontendAdapter.t) (d : HostPage.t)
    (evs : list Event) (w : World)
    (c : Completion (ReasoningResult ResponseBody)) :
  run evs (PanelManager.create adapter d) = Some w ->
  failed c = true ->
  let w' := apiSettled c w in
  prop (stateOf w') "currentMode" = VStr PANEL_MODES.EDIT
  /\ prop (stateOf w') "isAnalyzing" = VBool false
  /\ prop (stateOf w') "assumptions" = prop (stateOf w) "assumptions"
  /\ assumptionsOf w' = assumptionsOf w
  /\ (assumptionsOf w = [] -> forwardVisible w' = false)
  /\ assumptionsOf (clickAnalyze w) = assumptionsOf w.
Proof.
  intros Hrun Hf w'. destruct (run_create_inv adapter d evs w Hrun) as (Hw & _).
  assert (HA : assumptionsOf w' = assumptionsOf w).
  { subst w'. destruct (apiSettled_failed c w Hw Hf) as (u & ext & -> & Hh & Hp & Hi).
    destruct w as [sm u0]. cbn [fst snd] in *.
    assert (Hwu : wf (sm, u)).
    { pose proof Hw as [_ _ _ _ Hpl Hb _ _]. cbn [snd] in *.
      apply (wf_frame sm u0); [exact Hw|eauto|..].
      - rewrite Hp, Hh, length_app. lia.
      - rewrite Hp, Hh, read_app_old by exact Hpl. exact Hb.
      - rewrite Hp. auto.
      - rewrite Hi. auto. }
    rewrite (assumptionsOf_setState_keep revertToEdit _ Hwu eq_refl).
    apply (assumptionsOf_heap_app sm u0 u ext Hw Hh). }
  split; [|split; [|split; [|split; [|split]]]].
  - subst w'. destruct (apiSettled_failed c w Hw Hf) as (u & ext & -> & _).
    rewrite stateOf_setState. reflexivity.
  - subst w'. destruct (apiSettled_failed c w Hw Hf) as (u & ext & -> & _).
    rewrite stateOf_setState. reflexivity.
  - subst w'. destruct (apiSettled_failed c w Hw Hf) as (u & ext & -> & _).
    rewrite stateOf_setState. reflexivity.
  - exact HA.
  - intros Hempty. destruct (forwardVisible w') eqn:Hv; [|reflexivity].
    pose proof (apiSettled_wf c w Hw) as [_ _ _ _ _ _ _ Hfw].
    destruct (Hfw Hv) as (_ & Hne). fold w' in Hne. congruence.
  - apply clickAnalyze_assumptions, Hw.
Qed.

(** A successful result without data ends in the [catch] block, as a
    failed call does. *)
Lemma apiSettled_no_data (r : ReasoningResult ResponseBody) (w : World) :
  wf w -> data r = None ->
  exists u ext,
    apiSettled (Normal r) w = setState revertToEdit (w.1, u)
    /\ heap u = heap w.2 ++ ext
    /\ assumptionsPage u = assumptionsPage w.2
    /\ inputPage u = inputPage w.2.
Proof.
  intros Hw Hd. unfold apiSettled, parseCompletion. rewrite Hd.
  pose proof (wf_settle w [] Hw) as Hw0. rewrite app_nil_r in Hw0.
  rewrite (handleAnalyze_resume_eq (Normal (mkResult (success r) None (error r))) _ Hw0 I).
  cbn [success data].
  destruct (success r).
  - unfold handleAnalyze_catch.
    eexists _, []. split; [reflexivity|]. rewrite app_nil_r. auto.
  - eexists _, []. split; [reflexivity|]. rewrite app_nil_r. auto.
Qed.

(** Reverting to [edit] leaves the assumptions as they were. *)
Lemma revert_assumptionsOf (w : World) (u : UI) (ext : Heap.t) :
  wf w ->
  heap u = heap w.2 ++ ext ->
  assumptionsPage u = assumptionsPage w.2 ->
  inputPage u = inputPage w.2 ->
  assumptionsOf (setState revertToEdit (w.1, u)) = assumptionsOf w.
Proof.
  intros Hw Hh Hp Hi. destruct w as [sm u0]. cbn [fst snd] in *.
  assert (Hwu : wf (sm, u)).
  { pose proof Hw as [_ _ _ _ Hpl Hb _ _]. cbn [snd] in *.
    apply (wf_frame sm u0); [exact Hw|eauto|..].
    - rewrite Hp, Hh, length_app. lia.
    - rewrite Hp, Hh, read_app_old by exact Hpl. exact Hb.
    - rewrite Hp. auto.
    - rewrite Hi. auto. }
  rewrite (assumptionsOf_setState_keep revertToEdit _ Hwu eq_refl).
  apply (assumptionsOf_heap_app sm u0 u ext Hw Hh).
Qed.

(** The success branch of [_handleAnalyze]. *)
Lemma handleAnalyze_resume_success (d : JsObject) (err : option jsstring) (w : World) :
  wf w -> validData (heap w.2) d ->
  let w' := handleAnalyze_resume (Normal (mkResult true (Some d) err)) w in
  prop (stateOf w') "currentMode" = VStr PANEL_MODES.ASSUMPTIONS
  /\ prop (stateOf w') "isAnalyzing" = VBool false
  /\ assumptionsOf w' = JsArray.elements (heap w.2) (prop d "assumptions")
  /\ exists l,
       prop (stateOf w') "assumptions" = VArr l
       /\ l < length (heap w'.2)
       /\ Heap.read (heap w'.2) l
          = JsArray.elements (heap w.2) (prop d "assumptions").
Proof.
  intros Hw Hc. cbn zeta.
  rewrite (handleAnalyze_resume_eq (Normal (mkResult true (Some d) err)) w Hw Hc).
  cbn [success data].
  destruct (coalesceEmpty_spec (prop d "assumptions") (heap w.2) Hc)
    as (l1 & ext1 & -> & Hl1 & Hr1).
  pose proof Hw as [Hl _ _ _ _ _ _ _].
  match goal with
  | |- context [setState ?upd ?w1] =>
      pose proof (setState_heap upd w1 Hl) as (ext & Hext);
      pose proof (lookup_setState upd w1 "assumptions") as Hst;
      pose proof (stateOf_setState upd w1 "currentMode") as Hm;
      pose proof (stateOf_setState upd w1 "isAnalyzing") as Hi;
      destruct (setState upd w1) as [sm u]
  end.
  cbn [fst snd heap setHeap] in Hext. rewrite lookup_insert_eq in Hst.
  assert (Hd : validData (heap u) d).
  { rewrite Hext, <- app_assoc. apply validData_app, Hc. }
  destruct (coalesceEmpty_spec (prop d "assumptions") (heap u) Hd)
    as (l2 & ext2 & -> & Hl2 & Hr2).
  destruct (pageSetAssumptions_spec (VArr l2) (setHeap (heap u ++ ext2) u))
    as (Hh & _).
  cbn [heap setHeap] in Hh.
  unfold assumptionsOf, stateOf in *. cbn [fst snd] in *.
  assert (Hl1u : l1 < length (heap u)).
  { rewrite Hext, length_app. lia. }
  assert (Hread : Heap.read
                    ((heap u ++ ext2) ++ [JsArray.elements (heap u ++ ext2) (VArr l2)]) l1
                  = JsArray.elements (heap w.2) (prop d "assumptions")).
  { rewrite <- app_assoc, read_app_old by exact Hl1u.
    rewrite Hext, read_app_old by exact Hl1. exact Hr1. }
  split; [exact Hm|]. split; [exact Hi|].
  rewrite (lookup_prop _ _ _ Hst), Hh. cbn [JsArray.elements].
  split; [exact Hread|].
  exists l1. split; [reflexivity|]. split; [|exact Hread].
  rewrite !length_app. lia.
Qed.

(** C4 as the specification words it does not hold: a call that succeeds
    without data (the result has [success] and no [data]; with the API
    client of the extension, a response whose body is the JSON [null])
    leaves the panel in [edit] mode, not in [assumptions] mode. *)
Lemma success_without_data_reverts :
  Session.modeView <$> run Session.analysisFailed Session.freshPanel
  = Some (VStr PANEL_MODES.ANALYZING, VBool true)
  /\ Session.modeView <$> run Session.successWithoutData Session.freshPanel
     = Some (VStr PANEL_MODES.EDIT, VBool false)
  /\ VStr PANEL_MODES.EDIT <> VStr PANEL_MODES.ASSUMPTIONS.
Proof. repeat split; [vm_compute; reflexivity..|discriminate]. Qed.

(** C4, amended. For every Analyze invocation whose API call succeeds:
    when the call settles, at whatever point of a run, and the result has
    data, the controller sets the mode to [assumptions] and [isAnalyzing]
    to false and stores an array as the new assumptions: the array of the
    response data, a new empty array when the field is absent (or
    [null]); the assumptions page lists the same.  When the result has no
    data, reading [result.data.assumptions] throws and the [catch] block
    reverts: the mode is [edit], [isAnalyzing] is false and the
    assumptions are as they were. *)
Theorem analyze_success_stores (adapter : LLMFrontendAdapter.t) (d : HostPage.t)
    (evs : list Event) (w : World) (result : ReasoningResult ResponseBody) :
  run evs (PanelManager.create adapter d) = Some w ->
  success result = true ->
  let w' := apiSettled (Normal result) w in
  match data result with
  | Some body =>
      let items :=
        match assumptionsField body with
        | FieldStrings items => items
        | FieldAbsent | FieldNull => []
        end in
      prop (stateOf w') "currentMode" = VStr PANEL_MODES.ASSUMPTIONS
      /\ prop (stateOf w') "isAnalyzing" = VBool false
      /\ (exists l,
            prop (stateOf w') "assumptions" = VArr l
            /\ l < length (heap w'.2)
            /\ Heap.read (heap w'.2) l = items)
      /\ assumptionsOf w' = items
      /\ pageAssumptions w' = assumptionsOf w'
  | None =>
      prop (stateOf w') "currentMode" = VStr PANEL_MODES.EDIT
      /\ prop (stateOf w') "isAnalyzing" = VBool false
      /\ prop (stateOf w') "assumptions" = prop (stateOf w) "assumptions"
      /\ assumptionsOf w' = assumptionsOf w
  end.
Proof.
  intros Hrun Hsucc w'. destruct (run_create_inv adapter d evs w Hrun) as (Hw & Hs).
  destruct result as [succ dt err]. cbn [success data] in *. subst succ.
  destruct dt as [body|].
  - assert (Hs' : synced w') by (apply apiSettled_synced; assumption).
    assert (Hitems :
      forall dd h, parseBody body (heap w.2) = (dd, h) ->
      JsArray.elements h (prop dd "assumptions")
      = match assumptionsField body with
        | FieldStrings items => items
        | FieldAbsent | FieldNull => []
        end).
    { intros dd h Hparse. unfold parseBody in Hparse.
      destruct (assumptionsField body) as [| |items].
      - injection Hparse as <- <-. reflexivity.
      - injection Hparse as <- <-. reflexivity.
      - cbn [Heap.alloc] in Hparse. injection Hparse as <- <-.
        rewrite (lookup_prop _ _ (VArr (length (heap w.2)))) by apply lookup_insert_eq.
        cbn [JsArray.elements].
        unfold Heap.read. rewrite list_lookup_middle by reflexivity. reflexivity. }
    cbn zeta. subst w'. unfold apiSettled, parseCompletion in *.
    cbn [data success error] in *.
    pose proof (parseBody_spec body (heap w.2)) as ((ext & Hext) & Hvalid).
    destruct (parseBody body (heap w.2)) as [dd h] eqn:Hparse.
    cbn [fst snd] in Hext, Hvalid. specialize (Hitems dd h eq_refl). subst h.
    destruct (handleAnalyze_resume_success dd err _ (wf_settle w ext Hw) Hvalid)
      as (H1 & H2 & H3 & l & H4 & H5 & H6).
    cbn [snd heap] in H3, H6. rewrite Hitems in H3, H6.
    split; [exact H1|]. split; [exact H2|].
    split; [exists l; split; [exact H4|split; [exact H5|exact H6]]|].
    split; [exact H3|exact Hs'].
  - subst w'.
    destruct (apiSettled_no_data (mkResult true None err) w Hw eq_refl)
      as (u & ext & -> & Hh & Hp & Hi).
    rewrite !stateOf_setState.
    split; [reflexivity|]. split; [reflexivity|]. split; [reflexivity|].
    apply (revert_assumptionsOf w u ext Hw Hh Hp Hi).
Qed.

Lemma analyze_success_stores_witness :
  exists w,
    run Session.analysisFailed Session.freshPanel = Some w
    /\ let w' := apiSettled (Normal (mkResult true (Some (mkBody FieldAbsent)) None)) w in
       prop (stateOf w') "currentMode" = VStr PANEL_MODES.ASSUMPTIONS
       /\ prop (stateOf w') "isAnalyzing" = VBool false
       /\ (exists l, prop (stateOf w') "assumptions" = VArr l
                     /\ Heap.read (heap w'.2) l = [])
       /\ assumptionsOf w' = [].
Proof.
  destruct (run Session.analysisFailed Session.freshPanel) as [w|] eqn:Hrun;
    [|vm_compute in Hrun; discriminate Hrun].
  exists w. split; [reflexivity|].
  destruct (analyze_success_stores OpenAIFrontendAdapter.adapter Session.chatgptPage
              Session.analysisFailed w
              (mkResult true (Some (mkBody FieldAbsent)) None) Hrun eq_refl)
    as (H1 & H2 & (l & H3 & _ & H4) & H5 & _).
  cbn zeta. split; [exact H1|]. split; [exact H2|].
  split; [exists l; split; [exact H3|exact H4]|exact H5].
Defined.

Lemma analyze_failure_reverts_witness :
  exists w,
    run Session.analysisFailed Session.freshPanel = Some w
    /\ prop (stateOf w) "currentMode" = VStr PANEL_MODES.ANALYZING
    /\ let w' := apiSettled (Throw (Error (js "Failed to fetch"))) w in
       prop (stateOf w') "currentMode" = VStr PANEL_MODES.EDIT
       /\ prop (stateOf w') "isAnalyzing" = VBool false
       /\ assumptionsOf w' = assumptionsOf w
       /\ forwardVisible w' = false.
Proof.
  destruct (run Session.analysisFailed Session.freshPanel) as [w|] eqn:Hrun;
    [|vm_compute in Hrun; discriminate Hrun].
  exists w. split; [reflexivity|].
  assert (Hobs : (fun w => (prop (stateOf w) "currentMode", assumptionsOf w))
                   <$> run Session.analysisFailed Session.freshPanel
                 = Some (VStr PANEL_MODES.ANALYZING, []))
    by (vm_compute; reflexivity).
  rewrite Hrun in Hobs. injection Hobs as Hmode Hempty.
  split; [exact Hmode|].
  destruct (analyze_failure_reverts OpenAIFrontendAdapter.adapter Session.chatgptPage
              Session.analysisFailed w (Throw (Error (js "Failed to fetch")))
              Hrun eq_refl) as (H1 & H2 & _ & H4 & H5 & _).
  cbn zeta. auto.
Defined.

End AnalyzeFacts.

(** ** The assumptions page: deleting and editing *)

Module AssumptionsPageFacts.

Import AssumptionsAPIClient PanelManager EventLoop PanelManagerFacts.

Lemma splice1_length (i : nat) (a : list jsstring) :
  i < length a -> length (JsArray.splice1 i a) = length a - 1.
Proof.
  intros Hi. unfold JsArray.splice1.
  rewrite length_app, length_take, length_drop. lia.
Qed.

Lemma splice1_lookup_before (i j : nat) (a : list jsstring) :
  j < i -> JsArray.splice1 i a !! j = a !! j.
Proof.
  intros Hj. unfold JsArray.splice1.
  destruct (decide (j < length a)) as [Hlt|Hge].
  - rewrite lookup_app_l by (rewrite length_take; lia).
    apply lookup_take_lt. exact Hj.
  - rewrite (lookup_ge_None_2 a j) by lia.
    apply lookup_ge_None_2. rewrite length_app, length_take, length_drop. lia.
Qed.

Lemma splice1_lookup_after (i j : nat) (a : list jsstring) :
  i < length a -> i <= j -> JsArray.splice1 i a !! j = a !! S j.
Proof.
  intros Hi Hj. unfold JsArray.splice1.
  rewrite lookup_app_r by (rewrite length_take; lia).
  rewrite length_take, lookup_drop. f_equal. lia.
Qed.

(** A listener of the displayed page has rewritten the page's array to
    [a'] and calls [_updateAssumptionsState()]: the store then holds that
    very array, with the elements [a']. *)
Lemma afterPage_update (w : World) (a' : list jsstring) :
  wf w ->
  shown (AssumptionsPage.display (assumptionsPage w.2)) = true ->
  let l := AssumptionsPage.assumptions (assumptionsPage w.2) in
  let w' := afterPage
              (AssumptionsPage.updateAssumptionsState (Heap.write l a' (heap w.2))
                 (assumptionsPage w.2)) w in
  prop (stateOf w') "assumptions" = VArr l /\ assumptionsOf w' = a'.
Proof.
  intros Hw Hshown l w'. subst l w'. destruct w as [sm u]. cbn [fst snd] in *.
  pose proof (wf_write sm u a' Hw Hshown) as Hw'. cbn zeta in Hw'.
  pose proof Hw as [_ _ _ _ Hpl _ _ _]. cbn [snd] in Hpl.
  unfold AssumptionsPage.updateAssumptionsState, afterPage, handleUpdateAssumptions.
  cbn [fst snd].
  split.
  - rewrite stateOf_setState, lookup_insert_eq. reflexivity.
  - rewrite (assumptionsOf_setState _ _ Hw').
    + rewrite stateOf_setState, lookup_insert_eq.
      cbn [snd heap setHeap setAssumptionsPage JsArray.elements].
      apply read_write_same, Hpl.
    + intros v Hv. simplify_map_eq. eexists. split; [reflexivity|].
      cbn [snd heap setHeap setAssumptionsPage]. rewrite length_write. exact Hpl.
Qed.

(** C7. For every assumptions list of length n and every index i < n,
    the delete action at i (a click on the delete button of bubble i of
    the displayed page) stores a list of length n - 1, the original list
    without its element at i and with the others in their order; it is
    the page's own array that the update callback reports, and that the
    store holds afterwards. *)
Theorem delete_removes_one (adapter : LLMFrontendAdapter.t) (d : HostPage.t)
    (evs : list Event) (w : World) (i : nat) :
  run evs (PanelManager.create adapter d) = Some w ->
  shown (AssumptionsPage.display (assumptionsPage w.2)) = true ->
  i < length (assumptionsOf w) ->
  exists w',
    step (ClickDelete i) w = Some w'
    /\ assumptionsOf w' = take i (assumptionsOf w) ++ drop (S i) (assumptionsOf w)
    /\ length (assumptionsOf w') = length (assumptionsOf w) - 1
    /\ (forall j, j < i -> assumptionsOf w' !! j = assumptionsOf w !! j)
    /\ (forall j, i <= j -> assumptionsOf w' !! j = assumptionsOf w !! S j)
    /\ (AssumptionsPage.deleteClick i (heap w.2) (assumptionsPage w.2)).2
       = Some (AssumptionsPage.assumptions (assumptionsPage w.2))
    /\ prop (stateOf w') "assumptions"
       = VArr (AssumptionsPage.assumptions (assumptionsPage w.2)).
Proof.
  intros Hrun Hshown Hi.
  destruct (run_create_inv adapter d evs w Hrun) as (Hw & Hs).
  pose proof Hw as [_ _ _ _ _ Hb _ _].
  unfold synced in Hs. fold (pageAssumptions w) in Hb.
  eexists. split.
  { cbn [step]. rewrite Hshown. cbn [andb].
    rewrite bool_decide_eq_true_2; [reflexivity|].
    apply lookup_lt_is_Some. rewrite Hb, Hs. exact Hi. }
  unfold AssumptionsPage.deleteClick.
  destruct (afterPage_update w
              (JsArray.splice1 i (Heap.read (heap w.2)
                                    (AssumptionsPage.assumptions (assumptionsPage w.2))))
              Hw Hshown) as (Hst & Ha).
  fold (pageAssumptions w) in Ha |- *. rewrite Hs in Ha |- *.
  rewrite Ha. repeat split.
  - apply splice1_length, Hi.
  - intros j Hj. apply splice1_lookup_before, Hj.
  - intros j Hj. apply splice1_lookup_after; assumption.
  - exact Hst.
Qed.

Lemma delete_removes_one_witness :
  exists w w',
    run Session.analyzed Session.freshPanel = Some w
    /\ assumptionsOf w = [js "X"; js "Y"]
    /\ step (ClickDelete 0) w = Some w'
    /\ assumptionsOf w' = [js "Y"].
Proof.
  destruct (run Session.analyzed Session.freshPanel) as [w|] eqn:Hrun;
    [|vm_compute in Hrun; discriminate Hrun].
  assert (Hobs : (fun w => (assumptionsOf w,
                            shown (AssumptionsPage.display (assumptionsPage w.2))))
                   <$> run Session.analyzed Session.freshPanel
                 = Some ([js "X"; js "Y"], true))
    by (vm_compute; reflexivity).
  rewrite Hrun in Hobs. injection Hobs as Ha Hshown.
  assert (Hi : 0 < length (assumptionsOf w)) by (rewrite Ha; cbn; lia).
  destruct (delete_removes_one OpenAIFrontendAdapter.adapter Session.chatgptPage
              Session.analyzed w 0 Hrun Hshown Hi) as (w' & Hstep & Hw' & _).
  exists w, w'. split; [reflexivity|]. split; [exact Ha|]. split; [exact Hstep|].
  rewrite Hw', Ha. reflexivity.
Defined.

(** After the analysis the page holds a copy of the state's array.  A
    commit that changes no text leaves page and state with one array
    ([_arraysEqual] answers true and the page keeps the array it handed
    over); the delete that follows edits that shared array in place and
    still ends with the right list. *)
Example commit_same_text_shares_array :
  Session.arraysView <$> run Session.analyzed Session.freshPanel
  = Some (VArr 2, 4, [js "X"; js "Y"])
  /\ Session.arraysView <$> run Session.sameTextCommitted Session.freshPanel
     = Some (VArr 4, 4, [js "X"; js "Y"])
  /\ Session.arraysView <$> run Session.sameTextThenDelete Session.freshPanel
     = Some (VArr 4, 4, [js "Y"]).
Proof. repeat split; vm_compute; reflexivity. Qed.

(** C8 as the specification words it does not hold: the user enters [" Z "] for the
    first of the assumptions X, Y and commits; the element becomes ["Z"],
    not the entered text. *)
Lemma commit_trims_entered_text :
  run Session.editing Session.freshPanel ≫= Session.enteredText 0
  = Some (js " Z ")
  /\ assumptionsOf <$> run Session.editCommitted Session.freshPanel
     = Some [js "Z"; js "Y"]
  /\ [js "Z"; js "Y"] <> [js " Z "; js "Y"].
Proof. repeat split; [vm_compute; reflexivity..|discriminate]. Qed.

(** The same for line breaks, which a text [input] does not hold: the
    first assumption is two lines; the user opens its editor and commits
    without entering anything, and the element loses its line break. *)
Example commit_strips_line_breaks :
  assumptionsOf
    <$> run [ TypePrompt (js "p"); TypeResponse (js "r"); DebounceElapsed;
              ClickAnalyze; ApiSettled (Session.answer [[97; 10; 98]%N; js "Y"]);
              ClickEdit 0; Keydown 0 (js "Enter") ] Session.freshPanel
  = Some [js "ab"; js "Y"].
Proof. vm_compute. reflexivity. Qed.

(** Enter in the edit input of bubble [i] of the displayed page. *)
Lemma enter_commits (w : World) (i : nat) (b : AssumptionsPage.Bubble) :
  wf w -> synced w ->
  shown (AssumptionsPage.display (assumptionsPage w.2)) = true ->
  AssumptionsPage.bubbles (assumptionsPage w.2) !! i = Some b ->
  exists w',
    step (Keydown i (js "Enter")) w = Some w'
    /\ assumptionsOf w'
       = <[i := JsString.trim (AssumptionsPage.inputValue b)]> (assumptionsOf w)
    /\ assumptionsOf w' !! i = Some (JsString.trim (AssumptionsPage.inputValue b))
    /\ (forall j, j <> i -> assumptionsOf w' !! j = assumptionsOf w !! j)
    /\ length (assumptionsOf w') = length (assumptionsOf w).
Proof.
  intros Hw Hs Hshown Hbi.
  pose proof Hw as [_ _ _ _ _ Hb _ _].
  unfold synced in Hs. fold (pageAssumptions w) in Hb.
  assert (Hi : i < length (assumptionsOf w)).
  { rewrite <- Hs, <- Hb. apply lookup_lt_Some with b. exact Hbi. }
  eexists. split.
  { cbn [step]. rewrite Hshown. unfold AssumptionsPage.keydown. rewrite Hbi.
    replace (JsString.eqb (js "Enter") (js "Enter")) with true by reflexivity.
    fold (pageAssumptions w). unfold JsArray.set.
    rewrite bool_decide_eq_true_2 by (rewrite Hs; exact Hi). reflexivity. }
  destruct (afterPage_update w
              (<[i := JsString.trim (AssumptionsPage.inputValue b)]> (pageAssumptions w))
              Hw Hshown) as (_ & Ha).
  rewrite Ha, Hs. split; [reflexivity|]. split; [|split].
  - apply list_lookup_insert_eq, Hi.
  - intros j Hj. apply list_lookup_insert_ne. congruence.
  - apply length_insert.
Qed.

(** C8, amended. For every assumptions list and every bubble i of the
    displayed page: pressing Enter in its edit input replaces the element
    at i by the text of the input with the white space at its ends
    trimmed, and leaves every other element as it was; the input, a
    single-line text field, holds what the user enters without its line
    breaks, so that after entering a text the element becomes that text
    without line breaks, trimmed; pressing Escape leaves the whole list as
    it was, puts the text of element i, without its line breaks, back
    into the input, hides the input and shows the text again. *)
Theorem edit_commit_and_cancel (adapter : LLMFrontendAdapter.t) (d : HostPage.t)
    (evs : list Event) (w : World) (i : nat) (b : AssumptionsPage.Bubble) :
  run evs (PanelManager.create adapter d) = Some w ->
  shown (AssumptionsPage.display (assumptionsPage w.2)) = true ->
  AssumptionsPage.bubbles (assumptionsPage w.2) !! i = Some b ->
  (exists w',
     step (Keydown i (js "Enter")) w = Some w'
     /\ assumptionsOf w'
        = <[i := JsString.trim (AssumptionsPage.inputValue b)]> (assumptionsOf w)
     /\ assumptionsOf w' !! i = Some (JsString.trim (AssumptionsPage.inputValue b))
     /\ (forall j, j <> i -> assumptionsOf w' !! j = assumptionsOf w !! j)
     /\ length (assumptionsOf w') = length (assumptionsOf w))
  /\ (forall entered : jsstring,
        exists w1 w2,
          step (TypeBubble i entered) w = Some w1
          /\ AssumptionsPage.inputValue
               <$> AssumptionsPage.bubbles (assumptionsPage w1.2) !! i
             = Some (FormControl.stripNewlines entered)
          /\ assumptionsOf w1 = assumptionsOf w
          /\ step (Keydown i (js "Enter")) w1 = Some w2
          /\ assumptionsOf w2
             = <[i := JsString.trim (FormControl.stripNewlines entered)]>
                 (assumptionsOf w)
          /\ (forall j, j <> i -> assumptionsOf w2 !! j = assumptionsOf w !! j))
  /\ (exists w' text,
        step (Keydown i (js "Escape")) w = Some w'
        /\ stateOf w' = stateOf w
        /\ assumptionsOf w' = assumptionsOf w
        /\ pageAssumptions w' = pageAssumptions w
        /\ assumptionsOf w !! i = Some text
        /\ AssumptionsPage.bubbles (assumptionsPage w'.2) !! i
           = Some (AssumptionsPage.mkBubble (AssumptionsPage.spanText b)
                     DisplayInlineBlock (FormControl.stripNewlines text)
                     DisplayNone)).
Proof.
  intros Hrun Hshown Hbi.
  destruct (run_create_inv adapter d evs w Hrun) as (Hw & Hs).
  split; [apply enter_commits; assumption|]. split.
  - intros entered.
    assert (Hstep : step (TypeBubble i entered) w
                    = Some (w.1, setAssumptionsPage
                                   (AssumptionsPage.typeInto i entered (assumptionsPage w.2))
                                   w.2)).
    { cbn [step]. rewrite Hshown. reflexivity. }
    set (w1 := (w.1, setAssumptionsPage
                       (AssumptionsPage.typeInto i entered (assumptionsPage w.2)) w.2))
      in *.
    pose proof (step_wf _ _ _ Hw Hstep) as Hw1.
    pose proof (step_synced _ _ _ Hw Hs Hstep) as Hs1.
    assert (Hb1 : AssumptionsPage.bubbles (assumptionsPage w1.2) !! i
                  = Some (AssumptionsPage.mkBubble (AssumptionsPage.spanText b)
                            (AssumptionsPage.spanDisplay b)
                            (FormControl.stripNewlines entered)
                            (AssumptionsPage.inputDisplay b))).
    { subst w1. cbn [snd assumptionsPage setAssumptionsPage AssumptionsPage.typeInto
                     AssumptionsPage.setBubbles AssumptionsPage.bubbles].
      rewrite list_lookup_alter_eq, Hbi. reflexivity. }
    assert (Ha1 : assumptionsOf w1 = assumptionsOf w) by reflexivity.
    destruct (enter_commits w1 i _ Hw1 Hs1 Hshown Hb1) as (w2 & Hs2 & Ha2 & _ & Hj2 & _).
    cbn [AssumptionsPage.inputValue] in Ha2.
    exists w1, w2. split; [exact Hstep|]. split; [rewrite Hb1; reflexivity|].
    split; [exact Ha1|]. split; [exact Hs2|]. split; [rewrite Ha2, Ha1; reflexivity|].
    intros j Hj. rewrite (Hj2 j Hj), Ha1. reflexivity.
  - pose proof Hw as [_ _ _ _ _ Hb _ _].
    unfold synced in Hs. fold (pageAssumptions w) in Hb.
    assert (Hi : i < length (assumptionsOf w)).
    { rewrite <- Hs, <- Hb. apply lookup_lt_Some with b. exact Hbi. }
    destruct (lookup_lt_is_Some_2 (assumptionsOf w) i Hi) as (text & Htext).
    eexists _, text. split.
    { cbn [step]. rewrite Hshown. unfold AssumptionsPage.keydown. rewrite Hbi.
      replace (JsString.eqb (js "Escape") (js "Enter")) with false by reflexivity.
      replace (JsString.eqb (js "Escape") (js "Escape")) with true by reflexivity.
      fold (pageAssumptions w). rewrite Hs, Htext. reflexivity. }
    unfold afterPage. cbn [fst snd].
    split; [reflexivity|]. split; [reflexivity|]. split; [reflexivity|].
    split; [exact Htext|].
    cbn [assumptionsPage setAssumptionsPage AssumptionsPage.setBubbles
         AssumptionsPage.bubbles].
    apply list_lookup_insert_eq. apply lookup_lt_Some with b. exact Hbi.
Qed.

Lemma edit_commit_and_cancel_witness :
  exists w w1 w2,
    run Session.editing Session.freshPanel = Some w
    /\ assumptionsOf w = [js "X"; js "Y"]
    /\ step (Keydown 0 (js "Enter")) w = Some w1
    /\ assumptionsOf w1 = [js "Z"; js "Y"]
    /\ step (Keydown 0 (js "Escape")) w = Some w2
    /\ assumptionsOf w2 = [js "X"; js "Y"].
Proof.
  destruct (run Session.editing Session.freshPanel) as [w|] eqn:Hrun;
    [|vm_compute in Hrun; discriminate Hrun].
  assert (Hobs : (fun w => (assumptionsOf w,
                            shown (AssumptionsPage.display (assumptionsPage w.2)),
                            AssumptionsPage.bubbles (assumptionsPage w.2) !! 0))
                   <$> run Session.editing Session.freshPanel
                 = Some ([js "X"; js "Y"], true,
                         Some (AssumptionsPage.mkBubble (js "X") DisplayNone (js " Z ")
                                 DisplayInlineBlock)))
    by (vm_compute; reflexivity).
  rewrite Hrun in Hobs. injection Hobs as Ha Hshown Hb0.
  destruct (edit_commit_and_cancel OpenAIFrontendAdapter.adapter Session.chatgptPage
              Session.editing w 0 _ Hrun Hshown Hb0)
    as ((w1 & Hs1 & Ha1 & _) & _ & (w2 & text & Hs2 & _ & Ha2 & _)).
  exists w, w1, w2. split; [reflexivity|]. split; [exact Ha|].
  split; [exact Hs1|]. split; [rewrite Ha1, Ha; reflexivity|].
  split; [exact Hs2|]. rewrite Ha2. exact Ha.
Defined.

End AssumptionsPageFacts.

(** ** The Reprompt action *)

Module RepromptFacts.

Import AssumptionsAPIClient PanelManager EventLoop PanelManagerFacts.

Lemma repromptText_trimmed (h : Heap.t) (state : JsObject) (p : jsstring) :
  prop state "savedPrompt" = VStr p ->
  JsString.trim p = p ->
  repromptText h state
  = REPROMPT_PREAMBLE ++ JsString.stripSentenceEnd p ++ REPROMPT_INSTRUCTION
    ++ bulletList (JsArray.elements h (prop state "assumptions")).
Proof.
  intros Hp Ht. unfold repromptText, bulletList. rewrite Hp.
  destruct (truthy (VStr p)) eqn:Htr; cbn [asString].
  - rewrite Ht. reflexivity.
  - unfold truthy, JsString.eqb in Htr. apply negb_false_iff in Htr.
    apply bool_decide_eq_true in Htr. subst p. reflexivity.
Qed.

(** C5. For every state of a run, with saved prompt p and assumptions
    a1..an, the Reprompt action hands the adapter's [insertPrompt] the
    text made of the fixed preamble, p without its trailing [.], [?] and
    [!], the fixed instruction sentence, and the assumptions each after
    ["- "] and joined by newlines; the stripped prompt does not end in
    punctuation, and the text ends with the list.  In particular, for the
    assumptions X, Y and the saved prompt ["Translate this."] the text
    has the stripped prompt ["Translate this"] before the list and ends
    with ["- X\n- Y"]. *)
Theorem reprompt_inserts_text (adapter : LLMFrontendAdapter.t) (d : HostPage.t)
    (evs : list Event) (w : World) :
  run evs (PanelManager.create adapter d) = Some w ->
  exists p,
    prop (stateOf w) "savedPrompt" = VStr p
    /\ let text :=
         REPROMPT_PREAMBLE ++ JsString.stripSentenceEnd p ++ REPROMPT_INSTRUCTION
         ++ bulletList (assumptionsOf w) in
       handleReprompt w
       = match LLMFrontendAdapter.insertPrompt (llmFrontend (panel w.2)) text (host w.2) with
         | Normal d' => (w.1, setHost d' w.2)
         | Throw _ =>
             (w.1, consoleLog (js "Failed to insert prompt into LLM input:") w.2)
         end
       /\ (forall c, last (JsString.stripSentenceEnd p) = Some c ->
                     JsString.isSentenceEnd c = false)
       /\ JsString.endsWith text (bulletList (assumptionsOf w))
       /\ (p = js "Translate this." ->
           assumptionsOf w = [js "X"; js "Y"] ->
           text
           = js "Please answer the following: " ++ js "Translate this"
             ++ js ". When answering, make ONLY the following assumptions about the user's request:"
             ++ [10%N] ++ js "- X" ++ [10%N] ++ js "- Y"
           /\ JsString.endsWith text (js "- X" ++ [10%N] ++ js "- Y")).
Proof.
  intros Hrun. destruct (run_create_inv adapter d evs w Hrun) as (Hw & _).
  pose proof Hw as [_ _ _ (p & Hp & Ht) _ _ _ _].
  exists p. split; [apply lookup_prop, Hp|]. cbn zeta.
  split; [|split; [|split]].
  - unfold handleReprompt.
    rewrite (repromptText_trimmed _ _ p (lookup_prop _ _ _ Hp) Ht). reflexivity.
  - destruct (JsStringFacts.dropEndWhile_spec JsString.isSentenceEnd p)
      as (suffix & _ & _ & Hlast). exact Hlast.
  - rewrite !app_assoc. eexists. reflexivity.
  - intros -> ->. split; [reflexivity|].
    exists (js "Please answer the following: Translate this. When answering, make ONLY the following assumptions about the user's request:" ++ [10%N]).
    reflexivity.
Qed.

Lemma reprompt_inserts_text_witness :
  exists w,
    run Session.analyzed Session.freshPanel = Some w
    /\ prop (stateOf w) "savedPrompt" = VStr (js "Translate this.")
    /\ assumptionsOf w = [js "X"; js "Y"]
    /\ HostPage.innerHTML
         <$> HostPage.querySelector OpenAIFrontendAdapter.EDITOR (host (handleReprompt w).2)
       = Some (js "<p>Please answer the following: Translate this. When answering, make ONLY the following assumptions about the user's request:<br>- X<br>- Y</p>").
Proof.
  destruct (run Session.analyzed Session.freshPanel) as [w|] eqn:Hrun;
    [|vm_compute in Hrun; discriminate Hrun].
  assert (Hobs : (fun w => (prop (stateOf w) "savedPrompt", assumptionsOf w,
                            llmFrontend (panel w.2), host w.2))
                   <$> run Session.analyzed Session.freshPanel
                 = Some (VStr (js "Translate this."), [js "X"; js "Y"],
                         OpenAIFrontendAdapter.adapter, Session.chatgptPage))
    by (vm_compute; reflexivity).
  rewrite Hrun in Hobs. injection Hobs as Hp Ha Hadapter Hhost.
  exists w. split; [reflexivity|]. split; [exact Hp|]. split; [exact Ha|].
  destruct (reprompt_inserts_text OpenAIFrontendAdapter.adapter Session.chatgptPage
              Session.analyzed w Hrun) as (p & Hp' & Hre & _).
  rewrite Hp in Hp'. injection Hp' as <-.
  rewrite Hre, Ha, Hadapter, Hhost. vm_compute. reflexivity.
Defined.

End RepromptFacts.

(** ** Subscribing and unsubscribing *)

Module SubscriptionFacts.

Import StateManager.

Section Facts.

Context {V : Type}.

Lemma recorder_foldl (sm : StateManager.t V) (newState oldState : gmap string V)
    (ls : list nat) (log : list (nat * gmap string V * gmap string V)) :
  foldl (fun w l => recorder l sm newState oldState w) log ls
  = log ++ map (fun l => (l, newState, oldState)) ls.
Proof.
  revert log. induction ls as [|l ls IH]; intros log; cbn [foldl map].
  - rewrite app_nil_r. reflexivity.
  - rewrite IH. unfold recorder. rewrite <- app_assoc. reflexivity.
Qed.

(** One call, recorded: an entry for each subscriber, in order. *)
Lemma setState_recorded (p : gmap string V) (sm : StateManager.t V)
    (log : list (nat * gmap string V * gmap string V)) :
  setState recorder p sm log
  = (mk (spread (state sm) p) (listeners sm),
     log ++ map (fun l => (l, spread (state sm) p, state sm)) (listeners sm)).
Proof.
  unfold setState, notifyListeners. cbn [state listeners getState].
  rewrite recorder_foldl. reflexivity.
Qed.

(** The subscribers are a set: subscribing puts the listener in, after
    the ones already there, and changes nothing when it is there; no
    listener is ever listed twice; the state is not touched. *)
Theorem subscribe_is_set_insertion (l : nat) (sm : StateManager.t V) :
  (l ∈ listeners (subscribe l sm))
  /\ subscribe l (subscribe l sm) = subscribe l sm
  /\ (exists more, listeners (subscribe l sm) = listeners sm ++ more)
  /\ (NoDup (listeners sm) -> NoDup (listeners (subscribe l sm)))
  /\ state (subscribe l sm) = state sm.
Proof.
  unfold subscribe. case_bool_decide as Hin.
  - rewrite bool_decide_eq_true_2 by exact Hin.
    repeat split; auto. exists []. rewrite app_nil_r. reflexivity.
  - cbn [listeners state].
    rewrite bool_decide_eq_true_2 by (apply elem_of_app; right; apply list_elem_of_singleton; reflexivity).
    repeat split.
    + apply elem_of_app. right. apply list_elem_of_singleton. reflexivity.
    + eauto.
    + intros Hnd. apply NoDup_app. split; [exact Hnd|]. split.
      * intros x Hx ->%list_elem_of_singleton. contradiction.
      * apply NoDup_singleton.
Qed.

(** A listener that subscribed, however often, is called exactly once by
    each [setState], with the merged state and the state before. *)
Theorem subscribed_twice_notified_once (l : nat) (sm : StateManager.t V)
    (p : gmap string V) :
  NoDup (listeners sm) ->
  filter (fun e => e.1.1 = l)
         (setState recorder p (subscribe l (subscribe l sm)) []).2
  = [(l, spread (state sm) p, state sm)].
Proof.
  intros Hnd.
  destruct (subscribe_is_set_insertion l sm) as (Hin & -> & _ & Hnd' & Hst).
  specialize (Hnd' Hnd). rewrite setState_recorded. cbn [snd app]. rewrite Hst.
  set (f := fun l0 : nat => (l0, spread (state sm) p, state sm)).
  revert Hin Hnd'. generalize (listeners (subscribe l sm)) as ls.
  induction ls as [|x ls IH]; intros Hin Hnd'.
  - apply elem_of_nil in Hin. contradiction.
  - apply NoDup_cons in Hnd' as (Hx & Hnd'). cbn [map].
    destruct (decide (x = l)) as [->|Hne].
    + rewrite filter_cons_True by reflexivity. f_equal.
      clear IH Hin. induction ls as [|y ls IH]; [reflexivity|].
      apply NoDup_cons in Hnd' as (_ & Hnd'). cbn [map].
      rewrite filter_cons_False.
      * apply IH; [|exact Hnd']. intros H. apply Hx. right. exact H.
      * cbn. intros ->. apply Hx. left.
    + rewrite filter_cons_False by (cbn; exact Hne).
      apply IH; [|exact Hnd'].
      apply elem_of_cons in Hin as [->|Hin]; [contradiction|exact Hin].
Qed.

Lemma unsubscribe_listeners (l : nat) (sm : StateManager.t V) :
  listeners (unsubscribe l sm) = filter (fun l' => l' <> l) (listeners sm).
Proof. reflexivity. Qed.

(** Unsubscribing takes the listener out and keeps every other one; it
    undoes a subscription of a listener that was not there before. *)
Theorem unsubscribe_removes (l : nat) (sm : StateManager.t V) :
  (l ∉ listeners (unsubscribe l sm))
  /\ (forall l', l' <> l ->
                 (l' ∈ listeners (unsubscribe l sm)) <-> (l' ∈ listeners sm))
  /\ ((l ∉ listeners sm) -> unsubscribe l (subscribe l sm) = sm).
Proof.
  rewrite unsubscribe_listeners. split; [|split].
  - intros (H & _)%list_elem_of_filter. apply H. reflexivity.
  - intros l' Hne. rewrite list_elem_of_filter. tauto.
  - intros Hnin. unfold subscribe. rewrite bool_decide_eq_false_2 by exact Hnin.
    unfold unsubscribe. cbn [state listeners]. destruct sm as [st ls]. cbn in *.
    f_equal. rewrite filter_app, filter_cons_False, filter_nil, app_nil_r by (cbn; tauto).
    clear st. induction ls as [|x ls IH]; [reflexivity|].
    rewrite filter_cons_True.
    + f_equal. apply IH. intros H. apply Hnin. right. exact H.
    + cbn. intros ->. apply Hnin. left.
Qed.

Lemma filter_recorded (l : nat) (newState oldState : gmap string V) (ls : list nat) :
  filter (fun e : nat * gmap string V * gmap string V => e.1.1 <> l)
         (map (fun l' => (l', newState, oldState)) ls)
  = map (fun l' => (l', newState, oldState)) (filter (fun l' => l' <> l) ls).
Proof.
  induction ls as [|x ls IH]; [reflexivity|]. cbn [map].
  destruct (decide (x = l)) as [->|Hne].
  - rewrite !filter_cons_False by (cbn; tauto). exact IH.
  - rewrite !filter_cons_True by (cbn; exact Hne). cbn [map]. f_equal. exact IH.
Qed.

Lemma setStates_unsubscribed (l : nat) (ps : list (gmap string V))
    (sm : StateManager.t V) (log : list (nat * gmap string V * gmap string V)) :
  setStates recorder ps (unsubscribe l sm) (filter (fun e => e.1.1 <> l) log)
  = (unsubscribe l (setStates recorder ps sm log).1,
     filter (fun e => e.1.1 <> l) (setStates recorder ps sm log).2).
Proof.
  revert sm log. induction ps as [|p ps IH]; intros sm log; [reflexivity|].
  rewrite !StateManagerFacts.setStates_cons, !setState_recorded.
  cbn [fst snd]. rewrite <- IH, filter_app, filter_recorded. reflexivity.
Qed.

(** After unsubscribing, no [setState] calls the listener any more, and
    the others are called as before: what the subscribers see is what
    they would have seen, less the notifications of the one that left;
    the state evolves the same. *)
Theorem unsubscribed_never_notified (l : nat) (ps : list (gmap string V))
    (sm : StateManager.t V) :
  (setStates recorder ps (unsubscribe l sm) []).2
  = filter (fun e => e.1.1 <> l) (setStates recorder ps sm []).2
  /\ getState (setStates recorder ps (unsubscribe l sm) []).1
     = getState (setStates recorder ps sm []).1
  /\ Forall (fun e => e.1.1 <> l) (setStates recorder ps (unsubscribe l sm) []).2.
Proof.
  pose proof (setStates_unsubscribed l ps sm []) as H.
  rewrite filter_nil in H. rewrite H. cbn [fst snd]. split; [reflexivity|].
  split; [reflexivity|].
  apply Forall_forall. intros e (He & _)%list_elem_of_filter. exact He.
Qed.

End Facts.

Lemma subscribed_twice_notified_once_witness :
  filter (fun e => e.1.1 = 7)
         (setState recorder (<["a" := 10]> ∅)
            (subscribe 7 (subscribe 7 (mk (<["a" := 1]> ∅) [3]))) []).2
  = [(7, spread (<["a" := 1]> ∅) (<["a" := 10]> ∅), <["a" := 1]> ∅)].
Proof.
  exact (subscribed_twice_notified_once 7 (mk (<["a" := 1]> ∅) [3]) (<["a" := 10]> ∅)
           (NoDup_singleton 3)).
Defined.

End SubscriptionFacts.

(** ** Provider detection and the client of the application *)

Module ProviderFacts.

Import AssumptionsAPIClient.

(** Whatever adapter [GlassOSApp] detects, or fails to detect, the
    provider is ["openai"] or ["unknown"], and ["openai"] exactly for an
    adapter constructed by [OpenAIFrontendAdapter]; so the client it
    builds has a provider, and its [extractReasoning] never rejects: it
    issues its request and resolves to a result. *)
Theorem detected_provider_never_rejects {Data : Type}
    (fetch : Request -> Completion (Response Data)) (adapter : option JsVal)
    (prompt response : jsstring) :
  (Utilities.detectProvider adapter = js "openai"
   \/ Utilities.detectProvider adapter = js "unknown")
  /\ (Utilities.detectProvider adapter = js "openai"
      <-> adapter = Some (VStr (js "OpenAIFrontendAdapter")))
  /\ exists result,
       extractReasoning fetch (GlassOSApp.apiClient adapter) prompt response
       = (Normal result, [requestOf (GlassOSApp.apiClient adapter) prompt response]).
Proof.
  assert (Hcases : (adapter = Some (VStr (js "OpenAIFrontendAdapter"))
                    /\ Utilities.detectProvider adapter = js "openai")
                   \/ (adapter <> Some (VStr (js "OpenAIFrontendAdapter"))
                       /\ Utilities.detectProvider adapter = js "unknown")).
  { unfold Utilities.detectProvider, JsString.eqb.
    destruct adapter as [[| | |name|]|]; try (right; split; [discriminate|reflexivity]).
    case_bool_decide as Hn.
    - left. subst name. split; reflexivity.
    - right. split; [|reflexivity]. intros [= ->]. apply Hn. reflexivity. }
  split; [|split].
  - destruct Hcases as [(_ & ->)|(_ & ->)]; auto.
  - destruct Hcases as [(-> & H)|(Hne & H)]; rewrite H; split; try done.
  - apply AssumptionsAPIClientFacts.extractReasoning_fulfilled.
    unfold GlassOSApp.apiClient. cbn [provider].
    destruct Hcases as [(_ & ->)|(_ & ->)]; reflexivity.
Qed.

End ProviderFacts.

(** ** Waiting for the frontend *)

Module MainFacts.

Import Main.

Lemma gtb_false_iff (a b : Z) : (a >? b)%Z = false <-> (a <= b)%Z.
Proof. rewrite Z.gtb_ltb. apply Z.ltb_ge. Qed.

Lemma gtb_true_iff (a b : Z) : (a >? b)%Z = true <-> (a > b)%Z.
Proof. rewrite Z.gtb_ltb, Z.ltb_lt. lia. Qed.

Lemma waitForFrontendReady_app (timeout start : Z) (pre rest : list (HostPage.t * Z)) :
  Forall (waits timeout start) pre ->
  waitForFrontendReady timeout start (pre ++ rest)
  = waitForFrontendReady timeout start rest.
Proof.
  induction 1 as [|[d now] pre (Hd & Ht) _ IH]; [reflexivity|].
  cbn [app waitForFrontendReady]. cbn [fst snd] in Hd, Ht.
  destruct (LLMFrontendAdapters.getActiveLLMFrontendAdapter d) eqn:Hg.
  - exfalso. apply Hd. unfold detects. rewrite Hg. eauto.
  - rewrite (proj2 (gtb_false_iff _ _) Ht). exact IH.
Qed.

Lemma waitForFrontendReady_split (timeout start : Z) (polls : list (HostPage.t * Z))
    (b : bool) :
  waitForFrontendReady timeout start polls = Some b ->
  exists pre d now post,
    polls = pre ++ (d, now) :: post
    /\ Forall (waits timeout start) pre
    /\ (if b then detects d else ~ detects d /\ (now - start > timeout)%Z).
Proof.
  induction polls as [|[d now] polls IH]; [discriminate|].
  cbn [waitForFrontendReady].
  destruct (LLMFrontendAdapters.getActiveLLMFrontendAdapter d) eqn:Hg.
  - intros [= <-]. exists [], d, now, polls.
    split; [reflexivity|]. split; [constructor|].
    unfold detects. rewrite Hg. eauto.
  - assert (Hnd : ~ detects d).
    { unfold detects. rewrite Hg. intros [? [=]]. }
    destruct (now - start >? timeout)%Z eqn:Ht.
    + intros [= <-]. exists [], d, now, polls.
      split; [reflexivity|]. split; [constructor|]. split; [exact Hnd|].
      apply gtb_true_iff, Ht.
    + intros (pre & d' & now' & post & -> & Hpre & Hb)%IH.
      exists ((d, now) :: pre), d', now', post.
      split; [reflexivity|]. split; [|exact Hb].
      constructor; [|exact Hpre]. split; [exact Hnd|]. cbn.
      apply gtb_false_iff, Ht.
Qed.

(** [waitForFrontendReady] resolves to true exactly when some run of
    [check] finds an adapter and every run before it found none and came
    no later than the deadline; it resolves to false exactly when some run
    finds none after the deadline, the runs before it as above.  A run
    looks for the adapter before it looks at the clock: a frontend found
    after the deadline still counts, and the first run always looks. *)
Theorem waitForFrontendReady_resolves (timeout start : Z)
    (polls : list (HostPage.t * Z)) :
  (waitForFrontendReady timeout start polls = Some true
   <-> exists pre d now post,
         polls = pre ++ (d, now) :: post
         /\ Forall (waits timeout start) pre /\ detects d)
  /\ (waitForFrontendReady timeout start polls = Some false
      <-> exists pre d now post,
            polls = pre ++ (d, now) :: post
            /\ Forall (waits timeout start) pre
            /\ ~ detects d /\ (now - start > timeout)%Z)
  /\ (waitForFrontendReady timeout start polls = None
      <-> Forall (waits timeout start) polls).
Proof.
  split; [|split].
  - split.
    + intros H. destruct (waitForFrontendReady_split _ _ _ _ H)
        as (pre & d & now & post & Hp & Hpre & Hd). eauto 10.
    + intros (pre & d & now & post & -> & Hpre & Hd).
      rewrite waitForFrontendReady_app by exact Hpre. cbn [waitForFrontendReady].
      destruct Hd as (a & ->). reflexivity.
  - split.
    + intros H. destruct (waitForFrontendReady_split _ _ _ _ H)
        as (pre & d & now & post & Hp & Hpre & Hd). eauto 10.
    + intros (pre & d & now & post & -> & Hpre & Hd & Ht).
      rewrite waitForFrontendReady_app by exact Hpre. cbn [waitForFrontendReady].
      destruct (LLMFrontendAdapters.getActiveLLMFrontendAdapter d) eqn:Hg.
      * exfalso. apply Hd. unfold detects. rewrite Hg. eauto.
      * rewrite (proj2 (gtb_true_iff _ _) Ht). reflexivity.
  - split.
    + induction polls as [|[d now] polls IH]; [constructor|].
      cbn [waitForFrontendReady].
      destruct (LLMFrontendAdapters.getActiveLLMFrontendAdapter d) eqn:Hg; [discriminate|].
      destruct (now - start >? timeout)%Z eqn:Ht; [discriminate|].
      intros H. constructor; [|apply IH, H]. split.
      * unfold detects. cbn [fst]. rewrite Hg. intros [? [=]].
      * cbn. apply gtb_false_iff, Ht.
    + intros H. rewrite <- (app_nil_r polls).
      rewrite waitForFrontendReady_app by exact H. reflexivity.
Qed.

End MainFacts.

(** ** The ChatGPT adapter *)

Module OpenAIFrontendAdapterFacts.

Import OpenAIFrontendAdapter.

Lemma newlinesToBr_app (a b : jsstring) :
  newlinesToBr (a ++ b) = newlinesToBr a ++ newlinesToBr b.
Proof.
  induction a as [|c a IH]; [reflexivity|].
  cbn [app newlinesToBr]. rewrite IH.
  destruct (c =? 10)%N; [rewrite <- app_assoc|]; reflexivity.
Qed.

(** The lines of a text, separated by newlines, come out separated by
    [<br>], and no newline is left in what is inserted. *)
Theorem newlinesToBr_lines (lines : list jsstring) :
  newlinesToBr (JsString.join [10%N] lines)
  = JsString.join (js "<br>") (map newlinesToBr lines)
  /\ Forall (fun c => c <> 10%N) (newlinesToBr (JsString.join [10%N] lines))
  /\ (Forall (Forall (fun c => c <> 10%N)) lines -> map newlinesToBr lines = lines).
Proof.
  split; [|split].
  - induction lines as [|l lines IH]; [reflexivity|].
    destruct lines as [|l' lines]; [reflexivity|].
    change (JsString.join [10%N] (l :: l' :: lines))
      with (l ++ [10%N] ++ JsString.join [10%N] (l' :: lines)).
    rewrite !newlinesToBr_app, IH. reflexivity.
  - generalize (JsString.join [10%N] lines) as s.
    induction s as [|c s IH]; [constructor|].
    cbn [newlinesToBr]. destruct (c =? 10)%N eqn:Hc.
    + apply Forall_app. split; [|exact IH].
      repeat constructor; discriminate.
    + constructor; [|exact IH]. apply N.eqb_neq, Hc.
  - intros H. induction H as [|l lines Hl _ IH]; [reflexivity|].
    cbn [map]. rewrite IH. f_equal.
    induction Hl as [|c l Hc _ IHl]; [reflexivity|].
    cbn [newlinesToBr]. rewrite (proj2 (N.eqb_neq c 10) Hc), IHl. reflexivity.
Qed.

(** [insertPrompt] never throws.  On a page where [detectPage()] is true
    it replaces the content of the editor by the text as one paragraph,
    dispatches one [input] event on it and focuses it, and touches neither
    another element nor the alerts; the editor is still detected
    afterwards.  On any other page it raises one alert and inserts
    nothing. *)
Theorem insertPrompt_outcome (promptText : jsstring) (d : HostPage.t) :
  exists d',
    insertPrompt promptText d = Normal d'
    /\ if detectPage d then
         (exists editor,
            HostPage.querySelector EDITOR d = Some editor
            /\ HostPage.querySelector EDITOR d'
               = Some (HostPage.mkElement
                         (js "<p>" ++ newlinesToBr promptText ++ js "</p>")
                         (S (HostPage.inputEvents editor)) true))
         /\ (forall sel, sel <> EDITOR ->
                         HostPage.querySelector sel d' = HostPage.querySelector sel d)
         /\ HostPage.alerts d' = HostPage.alerts d
         /\ detectPage d' = true
       else
         HostPage.elements d' = HostPage.elements d
         /\ HostPage.alerts d'
            = HostPage.alerts d ++ [js "Unable to find ChatGPT input area."].
Proof.
  unfold insertPrompt, detectPage.
  destruct (HostPage.querySelector EDITOR d) as [editor|] eqn:Hq.
  - eexists. split; [reflexivity|].
    rewrite bool_decide_eq_true_2 by eauto.
    unfold HostPage.querySelector. cbn [HostPage.elements HostPage.alerts].
    rewrite lookup_insert_eq. split; [|split; [|split]].
    + eexists. split; reflexivity.
    + intros sel Hsel. apply lookup_insert_ne. congruence.
    + reflexivity.
    + apply bool_decide_eq_true_2. eauto.
  - eexists. split; [reflexivity|].
    rewrite bool_decide_eq_false_2 by (intros [? [=]]).
    split; reflexivity.
Qed.

End OpenAIFrontendAdapterFacts.

(** ** What the panel shows *)

Module ViewsFacts.

Import AssumptionsAPIClient PanelManager EventLoop PanelManagerFacts Views.

(** *** How [_handleAnalyze] resumes *)

(** The world in which it resumes. *)
Lemma apiSettled_resume (c : Completion (ReasoningResult ResponseBody)) (w : World) :
  wf w ->
  exists ext c',
    let w0 := (w.1, mkUI (heap w.2 ++ ext) (panel w.2) (inputPage w.2)
                         (analyzingPage w.2) (assumptionsPage w.2) (host w.2)
                         (console w.2) (apiCalls w.2) (pred (inFlight w.2))) in
    apiSettled c w = handleAnalyze_resume c' w0
    /\ wf w0 /\ validCompletion (heap w0.2) c'.
Proof.
  intros Hw. unfold apiSettled.
  pose proof (parseCompletion_spec c (heap w.2)) as ((ext & Hext) & Hvalid).
  destruct (parseCompletion c (heap w.2)) as [c' h]. cbn [fst snd] in Hext, Hvalid.
  subst h. exists ext, c'. cbn zeta. split; [reflexivity|].
  split; [apply wf_settle, Hw|exact Hvalid].
Qed.

(** In a well-formed world it either logs and reverts to [edit], or
    stores an array and hands an array to the assumptions page. *)
Lemma resume_cases (c : Completion (ReasoningResult JsObject)) (w : World) :
  wf w -> validCompletion (heap w.2) c ->
  (exists line,
     handleAnalyze_resume c w = setState revertToEdit (w.1, consoleLog line w.2))
  \/ (exists l1 ext1 l2 ext2,
        let w1 :=
          setState (<["assumptions" := VArr l1]>
                    (<["isAnalyzing" := VBool false]>
                     (<["currentMode" := VStr PANEL_MODES.ASSUMPTIONS]> ∅)))
                   (w.1, setHeap (heap w.2 ++ ext1) w.2) in
        handleAnalyze_resume c w
        = (w1.1, (pageSetAssumptions (VArr l2) (setHeap (heap w1.2 ++ ext2) w1.2)).1)
        /\ l1 < length (heap w.2 ++ ext1)).
Proof.
  intros Hw Hc. rewrite (handleAnalyze_resume_eq c w Hw Hc).
  destruct c as [result|e]; [|left; eexists; reflexivity].
  destruct (success result); [|left; eexists; reflexivity].
  cbn [validCompletion] in Hc.
  destruct (data result) as [d|]; [|left; eexists; reflexivity].
  right.
  destruct (coalesceEmpty_spec (prop d "assumptions") (heap w.2) Hc)
    as (l1 & ext1 & -> & Hl1 & _).
  pose proof Hw as [Hl _ _ _ _ _ _ _].
  match goal with
  | |- context [setState ?upd ?w1] =>
      destruct (setState_heap upd w1 Hl) as (ext & Hext);
      destruct (setState upd w1) as [sm u] eqn:Hset
  end.
  cbn [snd heap setHeap] in Hext.
  assert (Hd : validData (heap u) d).
  { rewrite Hext, <- app_assoc. apply validData_app, Hc. }
  destruct (coalesceEmpty_spec (prop d "assumptions") (heap u) Hd)
    as (l2 & ext2 & -> & _).
  exists l1, ext1, l2, ext2. cbn zeta. rewrite Hset. split; [reflexivity|exact Hl1].
Qed.

(** What [setAssumptions] leaves alone. *)
Lemma pageSetAssumptions_others (arg : JsVal) (u : UI) :
  let u' := (pageSetAssumptions arg u).1 in
  panel u' = panel u /\ inputPage u' = inputPage u
  /\ analyzingPage u' = analyzingPage u
  /\ AssumptionsPage.display (assumptionsPage u')
     = AssumptionsPage.display (assumptionsPage u)
  /\ host u' = host u /\ console u' = console u
  /\ apiCalls u' = apiCalls u /\ inFlight u' = inFlight u.
Proof.
  cbn zeta. destruct (pageSetAssumptions_frame arg u) as (_ & Hd & Hi).
  unfold pageSetAssumptions in *.
  destruct (AssumptionsPage.setAssumptions arg (heap u) (assumptionsPage u))
    as [[pg h'] thrown].
  cbn [fst panel inputPage analyzingPage assumptionsPage host console apiCalls inFlight
       setHeap setAssumptionsPage] in *.
  repeat split; try reflexivity; assumption.
Qed.

(** *** The pieces of a notification *)

Lemma updateModeUI_valid (m : jsstring) (sm : StateManager.t JsVal) (u : UI) :
  validMode m ->
  let u' := updateModeUI (VStr m) sm u in
  InputPage.display (inputPage u') = displayIf (bool_decide (VStr m = VStr PANEL_MODES.EDIT))
  /\ AnalyzingPage.display (analyzingPage u')
     = displayIf (bool_decide (VStr m = VStr PANEL_MODES.ANALYZING))
  /\ AssumptionsPage.display (assumptionsPage u')
     = displayIf (bool_decide (VStr m = VStr PANEL_MODES.ASSUMPTIONS))
  /\ title (panel u') = titleOf m
  /\ currentMode (panel u') = currentMode (panel u)
  /\ InputPage.forwardDisabled (inputPage u')
     = negb (InputPage.forwardVisible (inputPage u'))
  /\ InputPage.analyzeDisabled (inputPage u') = InputPage.analyzeDisabled (inputPage u)
  /\ InputPage.inputsChangedSinceAnalyze (inputPage u')
     = InputPage.inputsChangedSinceAnalyze (inputPage u)
  /\ inFlight u' = inFlight u
  /\ apiCalls u' = apiCalls u.
Proof.
  intros [-> | [-> | ->]]; cbn zeta; unfold updateModeUI.
  - rewrite bool_decide_eq_true_2 by reflexivity.
    cbn [heap setTitle setInputPage setAnalyzingPage setAssumptionsPage setPanel
         inputPage analyzingPage assumptionsPage panel].
    destruct (hasAssumptions _ _); repeat split; reflexivity.
  - rewrite bool_decide_eq_false_2 by discriminate.
    rewrite bool_decide_eq_true_2 by reflexivity.
    repeat split; reflexivity.
  - rewrite !bool_decide_eq_false_2 by discriminate.
    rewrite bool_decide_eq_true_2 by reflexivity.
    repeat split; reflexivity.
Qed.

(** What the second half of [_handleStateChange] (rendering the
    assumptions anew) keeps of the first. *)
Lemma handleStateChange_keeps (sm : StateManager.t JsVal)
    (newState oldState : JsObject) (u : UI) :
  let u1 := afterModeCheck sm newState oldState u in
  let u' := (handleStateChange sm newState oldState u).1 in
  panel u' = panel u1 /\ inputPage u' = inputPage u1
  /\ analyzingPage u' = analyzingPage u1
  /\ AssumptionsPage.display (assumptionsPage u')
     = AssumptionsPage.display (assumptionsPage u1)
  /\ host u' = host u1 /\ console u' = console u1
  /\ apiCalls u' = apiCalls u1 /\ inFlight u' = inFlight u1.
Proof.
  cbn zeta. rewrite handleStateChange_unfold. cbn zeta.
  unfold afterModeCheck, modeChanged.
  set (u1 := if strict_neq _ _ then _ else u).
  destruct (arraysEqual _ _ _) as [equal|e]; [|repeat split; reflexivity].
  destruct (negb equal); [|repeat split; reflexivity].
  match goal with
  | |- context [pageSetAssumptions ?arg ?u0] =>
      destruct (pageSetAssumptions_frame arg u0) as (_ & Hd & Hi);
      unfold pageSetAssumptions in *;
      destruct (AssumptionsPage.setAssumptions arg (heap u0) (assumptionsPage u0))
        as [[pg h'] thrown]
  end.
  cbn [fst panel inputPage analyzingPage assumptionsPage host console apiCalls inFlight
       setHeap setAssumptionsPage] in *.
  repeat split; try reflexivity; assumption.
Qed.

(** *** The views follow the mode *)

Lemma wf_storeOk (w : World) : wf w -> storeOk w.1.
Proof.
  intros [Hl _ (m & Hm & Hmv) _ _ _ _ _]. split; [exact Hl|].
  exists m. split; [apply lookup_prop, Hm|exact Hmv].
Qed.

Lemma setState_storeOk (updates : JsObject) (w : World) :
  storeOk w.1 -> validModeUpdate updates -> storeOk (setState updates w).1.
Proof.
  intros (Hl & m & Hm & Hmv) Um. split; [exact Hl|].
  rewrite setState_fst. cbn [StateManager.state]. rewrite prop_spread.
  destruct (updates !! "currentMode") as [v|] eqn:Hu.
  - destruct (Um v Hu) as (m' & -> & Hv). eauto.
  - eauto.
Qed.

Lemma setState_views (updates : JsObject) (w : World) :
  storeOk w.1 -> validModeUpdate updates ->
  viewsMatchMode w -> viewsMatchMode (setState updates w).
Proof.
  intros Hok Um [Vi Va Vs Vt Vp Vf].
  pose proof (setState_storeOk updates w Hok Um) as (_ & m' & Hm' & Hmv').
  destruct Hok as (Hl & _).
  assert (HM : modeOf (setState updates w) = VStr m') by exact Hm'.
  pose proof (handleStateChange_keeps (setState updates w).1
                (StateManager.spread (StateManager.state w.1) updates)
                (StateManager.state w.1) w.2) as K.
  cbn zeta in K. rewrite <- (setState_snd updates w Hl) in K.
  destruct K as (Kp & Ki & Ka & Kd & _).
  unfold afterModeCheck in *.
  change (StateManager.spread (StateManager.state w.1) updates)
    with (stateOf (setState updates w)) in *.
  change (StateManager.state w.1) with (stateOf w) in *.
  destruct (modeChanged _ _) eqn:Hc.
  - change (prop (stateOf (setState updates w)) "currentMode")
      with (modeOf (setState updates w)) in *.
    rewrite HM in *.
    destruct (updateModeUI_valid m' (setState updates w).1 (setCurrentMode (VStr m') w.2) Hmv')
      as (U1 & U2 & U3 & U4 & U5 & U6 & _).
    split; rewrite ?HM.
    + rewrite Ki. exact U1.
    + rewrite Ka. exact U2.
    + rewrite Kd. exact U3.
    + intros m [= <-]. rewrite Kp. exact U4.
    + rewrite Kp, U5. reflexivity.
    + unfold forwardVisible. rewrite Ki. exact U6.
  - apply strict_neq_false in Hc.
    assert (HM' : modeOf (setState updates w) = modeOf w) by exact Hc.
    split; rewrite ?HM'.
    + rewrite Ki. exact Vi.
    + rewrite Ka. exact Va.
    + rewrite Kd. exact Vs.
    + rewrite Kp. exact Vt.
    + rewrite Kp. exact Vp.
    + unfold forwardVisible. rewrite Ki. exact Vf.
Qed.

(** A change that keeps the store, what is displayed and the title, and
    leaves Forward disabled exactly when hidden. *)
Lemma views_frame (sm : StateManager.t JsVal) (u u' : UI) :
  viewsMatchMode (sm, u) ->
  InputPage.display (inputPage u') = InputPage.display (inputPage u) ->
  analyzingPage u' = analyzingPage u ->
  AssumptionsPage.display (assumptionsPage u')
  = AssumptionsPage.display (assumptionsPage u) ->
  title (panel u') = title (panel u) ->
  currentMode (panel u') = currentMode (panel u) ->
  InputPage.forwardDisabled (inputPage u')
  = negb (InputPage.forwardVisible (inputPage u')) ->
  viewsMatchMode (sm, u').
Proof.
  intros [Vi Va Vs Vt Vp Vf] Hi Ha Hs Ht Hp Hf.
  unfold modeOf, forwardVisible, stateOf in *. cbn [fst snd] in *.
  split; unfold modeOf, forwardVisible, stateOf; cbn [fst snd];
    rewrite ?Hi, ?Ha, ?Hs, ?Ht, ?Hp; assumption.
Qed.

Lemma handleAnalyze_resume_views (c : Completion (ReasoningResult JsObject)) (w : World) :
  wf w -> validCompletion (heap w.2) c ->
  viewsMatchMode w -> viewsMatchMode (handleAnalyze_resume c w).
Proof.
  intros Hw Hc Hv. pose proof (wf_storeOk w Hw) as Hok.
  pose proof Hv as [_ _ _ _ _ Vf].
  destruct (resume_cases c w Hw Hc)
    as [(line & ->) | (l1 & ext1 & l2 & ext2 & -> & Hl1)].
  - unfold revertToEdit. apply setState_views; [exact Hok|solve_update|].
    destruct w as [sm u].
    apply (views_frame sm u); try reflexivity; [exact Hv|exact Vf].
  - match goal with
    | |- context [setState ?upd ?w1] =>
        assert (Hv1 : viewsMatchMode (setState upd w1));
        [|destruct (setState upd w1) as [sm u]]
    end.
    + apply setState_views; [exact Hok|solve_update|].
      destruct w as [sm u].
      apply (views_frame sm u); try reflexivity; [exact Hv|exact Vf].
    + cbn [fst snd].
      destruct (pageSetAssumptions_others (VArr l2) (setHeap (heap u ++ ext2) u))
        as (Kp & Ki & Ka & Kd & _).
      pose proof Hv1 as [_ _ _ _ _ Vf1].
      apply (views_frame sm u); rewrite ?Kp, ?Ki, ?Ka, ?Kd; try reflexivity;
        [exact Hv1|exact Vf1].
Qed.

(** A change of the user interface alone that keeps what is displayed. *)
Lemma views_ui (w : World) (u' : UI) :
  viewsMatchMode w ->
  InputPage.display (inputPage u') = InputPage.display (inputPage w.2) ->
  analyzingPage u' = analyzingPage w.2 ->
  AssumptionsPage.display (assumptionsPage u')
  = AssumptionsPage.display (assumptionsPage w.2) ->
  title (panel u') = title (panel w.2) ->
  currentMode (panel u') = currentMode (panel w.2) ->
  InputPage.forwardDisabled (inputPage u')
  = negb (InputPage.forwardVisible (inputPage u')) ->
  viewsMatchMode (w.1, u').
Proof. destruct w as [sm u]. apply views_frame. Qed.

Lemma afterPage_views (r : AssumptionsPage.t * Heap.t * option loc) (w : World) :
  storeOk w.1 -> viewsMatchMode w ->
  AssumptionsPage.display r.1.1 = AssumptionsPage.display (assumptionsPage w.2) ->
  viewsMatchMode (afterPage r w).
Proof.
  intros Hok Hv Hd. destruct r as [[p h] callback]. cbn [fst] in Hd.
  assert (Hv' : viewsMatchMode (w.1, setAssumptionsPage p (setHeap h w.2))).
  { pose proof Hv as [_ _ _ _ _ Vf].
    apply views_ui; try reflexivity; [exact Hv|exact Hd|exact Vf]. }
  unfold afterPage. destruct callback as [l|]; [|exact Hv'].
  apply setState_views; [exact Hok|solve_update|exact Hv'].
Qed.

Lemma keydown_display (index : nat) (key : jsstring) (h : Heap.t)
    (p : AssumptionsPage.t) (r : AssumptionsPage.t * Heap.t * option loc) :
  AssumptionsPage.keydown index key h p = Some r ->
  AssumptionsPage.display r.1.1 = AssumptionsPage.display p.
Proof.
  unfold AssumptionsPage.keydown.
  destruct (AssumptionsPage.bubbles p !! index) as [b|]; [|done].
  destruct (JsString.eqb key (js "Enter")).
  - destruct (JsArray.set _ _ _) as [a'|]; [|done]. intros [= <-].
    apply length_renderAssumptions.
  - destruct (JsString.eqb key (js "Escape")).
    + destruct (Heap.read h _ !! index) as [text|]; [|done]. intros [= <-].
      reflexivity.
    + intros [= <-]. reflexivity.
Qed.

(** Every event keeps the views in step with the mode. *)
Lemma step_views (ev : Event) (w w' : World) :
  wf w -> viewsMatchMode w -> step ev w = Some w' -> viewsMatchMode w'.
Proof.
  intros Hw Hv. pose proof (wf_storeOk w Hw) as Hok.
  pose proof Hv as [_ _ _ _ _ Vf].
  destruct ev; cbn [step].
  - destruct (shown _); [|done]. intros [= <-].
    apply views_ui; try reflexivity; [exact Hv|exact Vf].
  - destruct (shown _); [|done]. intros [= <-].
    apply views_ui; try reflexivity; [exact Hv|exact Vf].
  - destruct (InputPage.debouncePending _); [|done]. intros [= <-].
    apply views_ui; try reflexivity; exact Hv.
  - destruct (_ && _); [|done]. intros [= <-].
    rewrite (clickAnalyze_eq w Hw).
    match goal with
    | |- context [setState ?upd w] =>
        assert (Hv1 : viewsMatchMode (setState upd w));
        [|destruct (setState upd w) as [sm u]]
    end.
    + apply setState_views; [exact Hok|solve_update|exact Hv].
    + apply (views_frame sm u); try reflexivity; exact Hv1.
  - destruct (_ && _); [|done]. intros [= <-]. unfold handleForward.
    destruct (hasAssumptions _ _); [|exact Hv].
    apply setState_views; [exact Hok|solve_update|exact Hv].
  - destruct (bool_decide _); [|done]. intros [= <-].
    destruct (apiSettled_resume c w Hw) as (ext & c' & -> & Hw0 & Hc').
    apply handleAnalyze_resume_views; [exact Hw0|exact Hc'|].
    apply views_ui; try reflexivity; [exact Hv|exact Vf].
  - destruct (shown _); [|done]. intros [= <-].
    apply setState_views; [exact Hok|solve_update|exact Hv].
  - destruct (shown _); [|done]. intros [= <-]. unfold handleReprompt.
    destruct (LLMFrontendAdapter.insertPrompt _ _ _);
      (apply views_ui; try reflexivity; [exact Hv|exact Vf]).
  - destruct (shown _); [|done]. intros [= <-].
    apply views_ui; try reflexivity; [exact Hv|exact Vf].
  - destruct (shown _); [|done]. intros [= <-].
    apply views_ui; try reflexivity; [exact Hv|exact Vf].
  - destruct (shown _); [|done].
    destruct (AssumptionsPage.keydown _ _ _ _) as [r|] eqn:Hr; [|done].
    intros [= <-]. apply afterPage_views; [exact Hok|exact Hv|].
    apply (keydown_display index key (heap w.2)), Hr.
  - intros [= <-]. apply views_ui; try reflexivity; [exact Hv|exact Vf].
  - destruct (_ && _); [|done]. intros [= <-].
    apply (afterPage_views
             (AssumptionsPage.deleteClick index (heap w.2) (assumptionsPage w.2)) w);
      [exact Hok|exact Hv|].
    apply length_renderAssumptions.
  - destruct (truthy _); [|done]. intros [= <-]. unfold toolbarInsert.
    assert (Hshow : viewsMatchMode (show w)).
    { apply views_ui; try reflexivity; [exact Hv|exact Vf]. }
    apply setState_views; [destruct target; exact Hok|solve_update|].
    destruct target; (apply views_ui; try reflexivity; exact Hshow).
  - intros [= <-]. apply views_ui; try reflexivity; [exact Hv|exact Vf].
  - intros [= <-]. apply views_ui; try reflexivity; [exact Hv|exact Vf].
Qed.

Lemma create_views (adapter : LLMFrontendAdapter.t) (d : HostPage.t) :
  viewsMatchMode (PanelManager.create adapter d).
Proof.
  split; try reflexivity.
  intros m [= <-]. reflexivity.
Qed.

Lemma run_views (evs : list Event) (w w' : World) :
  wf w -> viewsMatchMode w -> run evs w = Some w' -> viewsMatchMode w'.
Proof.
  revert w. induction evs as [|ev evs IH]; intros w Hw Hv; cbn [run].
  - intros [= <-]. exact Hv.
  - destruct (step ev w) as [w1|] eqn:Hstep; [|done].
    apply IH; [apply (step_wf ev w w1 Hw Hstep)|apply (step_views ev w w1 Hw Hv Hstep)].
Qed.

(** *** What a notification leaves alone *)

Lemma updateModeUI_keeps (mode : JsVal) (sm : StateManager.t JsVal) (u : UI) :
  let u' := updateModeUI mode sm u in
  InputPage.analyzeDisabled (inputPage u') = InputPage.analyzeDisabled (inputPage u)
  /\ InputPage.inputsChangedSinceAnalyze (inputPage u')
     = InputPage.inputsChangedSinceAnalyze (inputPage u)
  /\ InputPage.userPrompt (inputPage u') = InputPage.userPrompt (inputPage u)
  /\ InputPage.aiResponse (inputPage u') = InputPage.aiResponse (inputPage u)
  /\ InputPage.debouncePending (inputPage u') = InputPage.debouncePending (inputPage u)
  /\ inFlight u' = inFlight u
  /\ apiCalls u' = apiCalls u
  /\ host u' = host u
  /\ console u' = console u
  /\ visible (panel u') = visible (panel u)
  /\ AssumptionsPage.emptyNotice (assumptionsPage u')
     = AssumptionsPage.emptyNotice (assumptionsPage u).
Proof.
  cbn zeta. unfold updateModeUI.
  repeat case_bool_decide; try (repeat split; reflexivity).
  cbn [heap setTitle setInputPage setAnalyzingPage setAssumptionsPage setPanel].
  destruct (hasAssumptions _ _); repeat split; reflexivity.
Qed.

Lemma setState_keeps (updates : JsObject) (w : World) :
  StateManager.listeners w.1 = [PANEL_LISTENER] ->
  let u := w.2 in
  let u' := (setState updates w).2 in
  InputPage.analyzeDisabled (inputPage u') = InputPage.analyzeDisabled (inputPage u)
  /\ InputPage.inputsChangedSinceAnalyze (inputPage u')
     = InputPage.inputsChangedSinceAnalyze (inputPage u)
  /\ InputPage.userPrompt (inputPage u') = InputPage.userPrompt (inputPage u)
  /\ InputPage.aiResponse (inputPage u') = InputPage.aiResponse (inputPage u)
  /\ InputPage.debouncePending (inputPage u') = InputPage.debouncePending (inputPage u)
  /\ inFlight u' = inFlight u
  /\ apiCalls u' = apiCalls u
  /\ host u' = host u
  /\ console u' = console u
  /\ visible (panel u') = visible (panel u).
Proof.
  intros Hl. cbn zeta.
  pose proof (handleStateChange_keeps (setState updates w).1
                (StateManager.spread (StateManager.state w.1) updates)
                (StateManager.state w.1) w.2) as K.
  cbn zeta in K. rewrite <- (setState_snd updates w Hl) in K.
  destruct K as (Kp & Ki & _ & _ & Kh & Kc & Ka & Kf).
  rewrite Kp, Ki, Kh, Kc, Ka, Kf. unfold afterModeCheck.
  destruct (modeChanged _ _); [|repeat split; reflexivity].
  pose proof (updateModeUI_keeps
                (prop (StateManager.spread (StateManager.state w.1) updates) "currentMode")
                (setState updates w).1
                (setCurrentMode
                   (prop (StateManager.spread (StateManager.state w.1) updates)
                         "currentMode") w.2)) as U.
  cbn zeta in U.
  destruct U as (U1 & U2 & U3 & U4 & U5 & U6 & U7 & U8 & U9 & U10 & _).
  rewrite U1, U2, U3, U4, U5, U6, U7, U8, U9, U10.
  repeat split; reflexivity.
Qed.

(** *** Analyses in flight *)

Lemma setState_analysis (updates : JsObject) (w : World) :
  StateManager.listeners w.1 = [PANEL_LISTENER] ->
  (exists b, prop (stateOf w) "isAnalyzing" = VBool b) ->
  (updates !! "currentMode" = None ->
   modeOf w = VStr PANEL_MODES.ANALYZING ->
   prop (stateOf w) "isAnalyzing" = VBool true) ->
  (updates !! "isAnalyzing" = None ->
   prop (stateOf w) "isAnalyzing" = VBool true -> 0 < inFlight w.2) ->
  (InputPage.analyzeDisabled (inputPage w.2) = false ->
   InputPage.inputsChangedSinceAnalyze (inputPage w.2) = true) ->
  (updates !! "isAnalyzing" = None \/ updates !! "isAnalyzing" = Some (VBool false)) ->
  (updates !! "currentMode" = None
   \/ exists m, updates !! "currentMode" = Some (VStr m) /\ m <> PANEL_MODES.ANALYZING) ->
  (updates !! "isAnalyzing" = Some (VBool false) -> updates !! "currentMode" <> None) ->
  analysisInv (setState updates w).
Proof.
  intros Hl (b & Hb) Hm Hfl Han Ui Um Uim.
  destruct (setState_keeps updates w Hl) as (Ka & Kc & _ & _ & _ & Kf & _).
  split.
  - rewrite stateOf_setState. destruct Ui as [-> | ->]; eauto.
  - unfold modeOf. rewrite !stateOf_setState.
    destruct Um as [Hn | (m & Hs & Hne)].
    + rewrite Hn. destruct Ui as [Hi | Hi]; [rewrite Hi; exact (Hm Hn)|].
      contradiction (Uim Hi Hn).
    + rewrite Hs. intros [= ->]. contradiction.
  - rewrite stateOf_setState, Kf.
    destruct Ui as [Hi | Hi]; rewrite Hi; [apply Hfl, Hi|discriminate].
  - rewrite Ka, Kc. exact Han.
Qed.

Ltac solve_lookup :=
  first [ vm_compute; reflexivity
        | left; vm_compute; reflexivity
        | right; vm_compute; reflexivity
        | right; eexists; split; [vm_compute; reflexivity|];
          let H := fresh in intros H; vm_compute in H; discriminate H
        | let H := fresh in intros H; vm_compute in H; discriminate H
        | let H := fresh in
          let H' := fresh in intros H H'; vm_compute in H'; discriminate H' ].

Lemma analysis_frame (sm : StateManager.t JsVal) (u u' : UI) :
  analysisInv (sm, u) ->
  inFlight u' = inFlight u ->
  (InputPage.analyzeDisabled (inputPage u') = false ->
   InputPage.inputsChangedSinceAnalyze (inputPage u') = true) ->
  analysisInv (sm, u').
Proof.
  intros [Ht Hm Hf Ha] Hi Ha'. split; try assumption.
  cbn [snd] in *. rewrite Hi. exact Hf.
Qed.

Lemma analysis_ui (w : World) (u' : UI) :
  analysisInv w ->
  inFlight u' = inFlight w.2 ->
  (InputPage.analyzeDisabled (inputPage u') = false ->
   InputPage.inputsChangedSinceAnalyze (inputPage u') = true) ->
  analysisInv (w.1, u').
Proof. destruct w as [sm u]. apply analysis_frame. Qed.

Lemma setState_analysis_keep (updates : JsObject) (w : World) :
  StateManager.listeners w.1 = [PANEL_LISTENER] ->
  analysisInv w ->
  updates !! "isAnalyzing" = None ->
  (updates !! "currentMode" = None
   \/ exists m, updates !! "currentMode" = Some (VStr m) /\ m <> PANEL_MODES.ANALYZING) ->
  analysisInv (setState updates w).
Proof.
  intros Hl [Ht Hm Hf Ha] Ui Um.
  apply setState_analysis; auto.
  rewrite Ui. discriminate.
Qed.

Lemma handleAnalyze_resume_analysis (c : Completion (ReasoningResult JsObject))
    (w : World) :
  wf w -> validCompletion (heap w.2) c ->
  (exists b, prop (stateOf w) "isAnalyzing" = VBool b) ->
  (InputPage.analyzeDisabled (inputPage w.2) = false ->
   InputPage.inputsChangedSinceAnalyze (inputPage w.2) = true) ->
  analysisInv (handleAnalyze_resume c w).
Proof.
  intros Hw Hc Ht Ha. pose proof Hw as [Hl _ _ _ _ _ _ _].
  destruct (resume_cases c w Hw Hc)
    as [(line & ->) | (l1 & ext1 & l2 & ext2 & -> & Hl1)].
  - apply setState_analysis; try solve_lookup; assumption.
  - match goal with
    | |- context [setState ?upd ?w1] =>
        assert (H1 : analysisInv (setState upd w1));
        [|destruct (setState upd w1) as [sm u]]
    end.
    + apply setState_analysis; try solve_lookup; assumption.
    + cbn [fst snd].
      destruct (pageSetAssumptions_others (VArr l2) (setHeap (heap u ++ ext2) u))
        as (_ & Ki & _ & _ & _ & _ & _ & Kf).
      pose proof H1 as [_ _ _ Ha1].
      apply (analysis_frame sm u); [exact H1|exact Kf|rewrite Ki; exact Ha1].
Qed.

(** Every event keeps the analysis flags in step with the calls in
    flight. *)
Lemma step_analysis (ev : Event) (w w' : World) :
  wf w -> analysisInv w -> step ev w = Some w' -> analysisInv w'.
Proof.
  intros Hw Hv. pose proof Hw as [Hl _ _ _ _ _ _ _].
  pose proof Hv as [Ht Hm Hf Ha].
  destruct ev; cbn [step].
  - destruct (shown _); [|done]. intros [= <-].
    apply analysis_ui; [exact Hv|reflexivity|exact Ha].
  - destruct (shown _); [|done]. intros [= <-].
    apply analysis_ui; [exact Hv|reflexivity|exact Ha].
  - destruct (InputPage.debouncePending _); [|done]. intros [= <-].
    apply analysis_ui; [exact Hv|reflexivity|reflexivity].
  - destruct (_ && _); [|done]. intros [= <-].
    rewrite (clickAnalyze_eq w Hw).
    match goal with
    | |- context [setState ?upd w] =>
        assert (H1 : prop (stateOf (setState upd w)) "isAnalyzing" = VBool true)
          by (rewrite stateOf_setState; vm_compute; reflexivity);
        destruct (setState upd w) as [sm u]
    end.
    split; cbn [fst snd inFlight inputPage setInputPage].
    + eauto.
    + intros _. exact H1.
    + intros _. lia.
    + unfold InputPage.afterAnalyze, InputPage.updateAnalyzeButton.
      cbn [InputPage.analyzeDisabled InputPage.inputsChangedSinceAnalyze
           InputPage.hideForwardButton InputPage.setInputsChanged].
      rewrite andb_false_r. discriminate.
  - destruct (_ && _); [|done]. intros [= <-]. unfold handleForward.
    destruct (hasAssumptions _ _); [|exact Hv].
    apply setState_analysis_keep; [exact Hl|exact Hv|solve_lookup..].
  - destruct (bool_decide _); [|done]. intros [= <-].
    destruct (apiSettled_resume c w Hw) as (ext & c' & -> & Hw0 & Hc').
    apply handleAnalyze_resume_analysis; assumption.
  - destruct (shown _); [|done]. intros [= <-].
    apply setState_analysis_keep; [exact Hl|exact Hv|solve_lookup..].
  - destruct (shown _); [|done]. intros [= <-]. unfold handleReprompt.
    destruct (LLMFrontendAdapter.insertPrompt _ _ _);
      (apply analysis_ui; [exact Hv|reflexivity|exact Ha]).
  - destruct (shown _); [|done]. intros [= <-].
    apply analysis_ui; [exact Hv|reflexivity|exact Ha].
  - destruct (shown _); [|done]. intros [= <-].
    apply analysis_ui; [exact Hv|reflexivity|exact Ha].
  - destruct (shown _); [|done].
    destruct (AssumptionsPage.keydown _ _ _ _) as [[[p h] callback]|]; [|done].
    intros [= <-]. unfold afterPage.
    assert (Hv' : analysisInv (w.1, setAssumptionsPage p (setHeap h w.2))).
    { apply analysis_ui; [exact Hv|reflexivity|exact Ha]. }
    destruct callback as [l|]; [|exact Hv'].
    apply setState_analysis_keep; [exact Hl|exact Hv'|solve_lookup..].
  - intros [= <-]. apply analysis_ui; [exact Hv|reflexivity|exact Ha].
  - destruct (_ && _); [|done]. intros [= <-].
    apply setState_analysis_keep; [exact Hl| |solve_lookup..].
    apply analysis_ui; [exact Hv|reflexivity|exact Ha].
  - destruct (truthy _); [|done]. intros [= <-]. unfold toolbarInsert.
    apply setState_analysis_keep; [destruct target; exact Hl| |solve_lookup..].
    destruct target; (apply (analysis_ui w); [exact Hv|reflexivity|reflexivity]).
  - intros [= <-]. apply analysis_ui; [exact Hv|reflexivity|exact Ha].
  - intros [= <-]. apply analysis_ui; [exact Hv|reflexivity|exact Ha].
Qed.

Lemma create_analysis (adapter : LLMFrontendAdapter.t) (d : HostPage.t) :
  analysisInv (PanelManager.create adapter d).
Proof.
  split.
  - exists false. reflexivity.
  - intros H. vm_compute in H. discriminate H.
  - intros H. vm_compute in H. discriminate H.
  - intros H. vm_compute in H. discriminate H.
Qed.

Lemma run_analysis (evs : list Event) (w w' : World) :
  wf w -> analysisInv w -> run evs w = Some w' -> analysisInv w'.
Proof.
  revert w. induction evs as [|ev evs IH]; intros w Hw Hv; cbn [run].
  - intros [= <-]. exact Hv.
  - destruct (step ev w) as [w1|] eqn:Hstep; [|done].
    apply IH; [apply (step_wf ev w w1 Hw Hstep)|apply (step_analysis ev w w1 Hw Hv Hstep)].
Qed.

(** *** The bubbles show the page's list *)

Lemma renderAssumptions_bubbles (h : Heap.t) (p : AssumptionsPage.t) :
  let p' := AssumptionsPage.renderAssumptions h p in
  AssumptionsPage.spanText <$> AssumptionsPage.bubbles p'
  = Heap.read h (AssumptionsPage.assumptions p)
  /\ (AssumptionsPage.emptyNotice p' = true <->
      Heap.read h (AssumptionsPage.assumptions p) = [])
  /\ AssumptionsPage.inputValue <$> AssumptionsPage.bubbles p'
     = FormControl.stripNewlines <$> Heap.read h (AssumptionsPage.assumptions p)
  /\ Forall (fun b => AssumptionsPage.inputDisplay b = DisplayNone)
            (AssumptionsPage.bubbles p').
Proof.
  cbn zeta. unfold AssumptionsPage.renderAssumptions.
  case_bool_decide as Hlen; cbn [AssumptionsPage.bubbles AssumptionsPage.emptyNotice].
  - apply length_zero_iff_nil in Hlen. rewrite Hlen. repeat split; constructor.
  - split; [|split; [|split]].
    + rewrite fmap_imap.
      change (fun n : nat => AssumptionsPage.spanText ∘ _) with (@const (jsstring -> jsstring) nat id).
      rewrite imap_const. apply list_fmap_id.
    + split; [discriminate|]. intros Hnil. rewrite Hnil in Hlen. contradiction.
    + rewrite fmap_imap.
      change (fun n : nat => AssumptionsPage.inputValue ∘ _)
        with (@const (jsstring -> jsstring) nat FormControl.stripNewlines).
      apply imap_const.
    + apply Forall_lookup. intros i b. rewrite list_lookup_imap.
      destruct (Heap.read h _ !! i); [|done]. intros [= <-]. reflexivity.
Qed.

Lemma pageSetAssumptions_bubbles (l : loc) (sm : StateManager.t JsVal) (u : UI) :
  bubblesInv (sm, (pageSetAssumptions (VArr l) u).1).
Proof.
  unfold pageSetAssumptions, AssumptionsPage.setAssumptions. cbn [Heap.alloc fst].
  match goal with
  | |- context [AssumptionsPage.renderAssumptions ?h ?p] =>
      destruct (renderAssumptions_bubbles h p) as (Rt & Rn & _);
      pose proof (length_renderAssumptions h p) as (_ & Ra & _)
  end.
  cbn zeta in Rt, Rn. cbn [AssumptionsPage.assumptions] in Rt, Rn, Ra.
  split; unfold pageAssumptions;
    cbn [snd heap assumptionsPage setAssumptionsPage setHeap]; rewrite Ra.
  - exact Rt.
  - apply Rn.
Qed.

Lemma bubbles_frame (sm sm' : StateManager.t JsVal) (u u' : UI) :
  bubblesInv (sm, u) ->
  AssumptionsPage.assumptions (assumptionsPage u) < length (heap u) ->
  (exists ext, heap u' = heap u ++ ext) ->
  AssumptionsPage.assumptions (assumptionsPage u')
  = AssumptionsPage.assumptions (assumptionsPage u) ->
  AssumptionsPage.spanText <$> AssumptionsPage.bubbles (assumptionsPage u')
  = AssumptionsPage.spanText <$> AssumptionsPage.bubbles (assumptionsPage u) ->
  AssumptionsPage.emptyNotice (assumptionsPage u')
  = AssumptionsPage.emptyNotice (assumptionsPage u) ->
  bubblesInv (sm', u').
Proof.
  intros [Ht Hn] Hloc (ext & Hext) Ha Hb He.
  unfold pageAssumptions in *. cbn [snd] in *.
  split; unfold pageAssumptions; cbn [snd];
    rewrite Hext, Ha, read_app_old by exact Hloc.
  - rewrite Hb. exact Ht.
  - rewrite He. exact Hn.
Qed.

Lemma bubbles_ui (w : World) (u' : UI) :
  wf w -> bubblesInv w ->
  heap u' = heap w.2 ->
  assumptionsPage u' = assumptionsPage w.2 ->
  bubblesInv (w.1, u').
Proof.
  intros [_ _ _ _ Hloc _ _ _] Hv Hh Ha. destruct w as [sm u]. cbn [fst snd] in *.
  apply (bubbles_frame sm sm u u' Hv Hloc); rewrite ?Ha; try reflexivity.
  exists []. rewrite app_nil_r. exact Hh.
Qed.

Lemma setState_bubbles (updates : JsObject) (w : World) :
  wf w ->
  (forall v, updates !! "assumptions" = Some v -> exists l, v = VArr l) ->
  bubblesInv w -> bubblesInv (setState updates w).
Proof.
  intros Hw Ua Hv. pose proof Hw as [Hl (la & Hla & _) _ _ Hloc _ _ _].
  assert (Hnew : exists l, prop (StateManager.spread (StateManager.state w.1) updates)
                                "assumptions" = VArr l).
  { rewrite prop_spread. destruct (updates !! "assumptions") as [v|] eqn:Hu.
    - destruct (Ua v eq_refl) as (l & ->). eauto.
    - exists la. apply lookup_prop, Hla. }
  destruct Hnew as (l & Hnew).
  destruct (setState updates w) as [sm' u'] eqn:Hset.
  assert (Hu : u' = (setState updates w).2) by (rewrite Hset; reflexivity).
  rewrite (setState_snd updates w Hl) in Hu. subst u'. clear Hset.
  rewrite handleStateChange_unfold. cbn zeta.
  set (u1 := if strict_neq _ _ then _ else w.2).
  assert (H1 : bubblesInv (sm', u1)).
  { destruct w as [sm u]. cbn [fst snd] in *.
    subst u1. destruct (strict_neq _ _).
    - destruct (updateModeUI_page
                  (prop (StateManager.spread (StateManager.state sm) updates) "currentMode")
                  (setState updates (sm, u)).1
                  (setCurrentMode
                     (prop (StateManager.spread (StateManager.state sm) updates)
                           "currentMode") u)) as (Pa & Pb).
      pose proof (updateModeUI_keeps
                  (prop (StateManager.spread (StateManager.state sm) updates) "currentMode")
                  (setState updates (sm, u)).1
                  (setCurrentMode
                     (prop (StateManager.spread (StateManager.state sm) updates)
                           "currentMode") u)) as K.
      cbn zeta in K. destruct K as (_ & _ & _ & _ & _ & _ & _ & _ & _ & _ & Pe).
      apply (bubbles_frame sm sm' u); [exact Hv|exact Hloc| | | |].
      + exists []. rewrite app_nil_r, updateModeUI_heap. reflexivity.
      + rewrite Pa. reflexivity.
      + rewrite Pb. reflexivity.
      + rewrite Pe. reflexivity.
    - apply (bubbles_frame sm sm' u); try assumption; try reflexivity.
      exists []. rewrite app_nil_r. reflexivity. }
  destruct (arraysEqual _ _ _) as [equal|e]; [|exact H1].
  destruct (negb equal); [|exact H1].
  rewrite Hnew. cbn [JsArray.orEmpty truthy fst snd].
  apply pageSetAssumptions_bubbles.
Qed.

Lemma fmap_alter_same {A B : Type} (f : A -> B) (g : A -> A) (i : nat) (l : list A) :
  (forall x, f (g x) = f x) -> f <$> alter g i l = f <$> l.
Proof.
  intros Hfg. revert i. induction l as [|x l IH]; intros [|i]; csimpl;
    try reflexivity.
  - rewrite Hfg. reflexivity.
  - rewrite IH. reflexivity.
Qed.

(** The page rewrites its own array and renders it. *)
Lemma write_bubbles (sm : StateManager.t JsVal) (u : UI) (a : list jsstring) :
  AssumptionsPage.assumptions (assumptionsPage u) < length (heap u) ->
  let l := AssumptionsPage.assumptions (assumptionsPage u) in
  let h' := Heap.write l a (heap u) in
  bubblesInv (sm, setAssumptionsPage
                    (AssumptionsPage.renderAssumptions h' (assumptionsPage u))
                    (setHeap h' u)).
Proof.
  intros Hloc l h'.
  destruct (renderAssumptions_bubbles h' (assumptionsPage u)) as (Rt & Rn & _).
  pose proof (length_renderAssumptions h' (assumptionsPage u)) as (_ & Ra & _).
  cbn zeta in Rt, Rn.
  split; unfold pageAssumptions;
    cbn [snd heap assumptionsPage setAssumptionsPage setHeap]; rewrite Ra.
  - exact Rt.
  - apply Rn.
Qed.

Lemma handleAnalyze_resume_bubbles (c : Completion (ReasoningResult JsObject))
    (w : World) :
  wf w -> validCompletion (heap w.2) c ->
  bubblesInv w -> bubblesInv (handleAnalyze_resume c w).
Proof.
  intros Hw Hc Hv.
  destruct (resume_cases c w Hw Hc)
    as [(line & ->) | (l1 & ext1 & l2 & ext2 & -> & Hl1)].
  - unfold revertToEdit. apply setState_bubbles; [|solve_update|].
    + destruct w as [sm u]. apply (wf_frame_input sm u); auto.
    + apply bubbles_ui; auto.
  - apply pageSetAssumptions_bubbles.
Qed.

(** Every event keeps the bubbles in step with the page's list. *)
Lemma step_bubbles (ev : Event) (w w' : World) :
  wf w -> bubblesInv w -> step ev w = Some w' -> bubblesInv w'.
Proof.
  intros Hw Hv. pose proof Hw as [Hl _ _ _ Hloc _ _ _].
  assert (Hbub : forall g,
            (forall b, AssumptionsPage.spanText (g b) = AssumptionsPage.spanText b) ->
            forall i,
            bubblesInv (w.1, setAssumptionsPage
                               (AssumptionsPage.setBubbles
                                  (alter g i (AssumptionsPage.bubbles (assumptionsPage w.2)))
                                  (assumptionsPage w.2)) w.2)).
  { intros g Hg i. destruct w as [sm u]. cbn [fst snd] in *.
    apply (bubbles_frame sm sm u); try assumption; try reflexivity.
    - exists []. rewrite app_nil_r. reflexivity.
    - apply fmap_alter_same, Hg. }
  destruct ev; cbn [step].
  - destruct (shown _); [|done]. intros [= <-]. apply bubbles_ui; auto.
  - destruct (shown _); [|done]. intros [= <-]. apply bubbles_ui; auto.
  - destruct (InputPage.debouncePending _); [|done]. intros [= <-].
    apply bubbles_ui; auto.
  - destruct (_ && _); [|done]. intros [= <-].
    rewrite (clickAnalyze_eq w Hw).
    match goal with
    | |- context [setState ?upd w] =>
        assert (H1 : bubblesInv (setState upd w))
          by (apply setState_bubbles; [exact Hw|solve_update|exact Hv]);
        destruct (setState upd w) as [sm u]
    end.
    destruct H1 as [Ht Hn]. split; [exact Ht|exact Hn].
  - destruct (_ && _); [|done]. intros [= <-]. unfold handleForward.
    destruct (hasAssumptions _ _); [|exact Hv].
    apply setState_bubbles; [exact Hw|solve_update|exact Hv].
  - destruct (bool_decide _); [|done]. intros [= <-].
    destruct (apiSettled_resume c w Hw) as (ext & c' & -> & Hw0 & Hc').
    apply handleAnalyze_resume_bubbles; [exact Hw0|exact Hc'|].
    destruct w as [sm u]. cbn [fst snd] in *.
    apply (bubbles_frame sm sm u); try assumption; try reflexivity. eauto.
  - destruct (shown _); [|done]. intros [= <-].
    apply setState_bubbles; [exact Hw|solve_update|exact Hv].
  - destruct (shown _); [|done]. intros [= <-]. unfold handleReprompt.
    destruct (LLMFrontendAdapter.insertPrompt _ _ _); apply bubbles_ui; auto.
  - destruct (shown _); [|done]. intros [= <-]. apply Hbub. reflexivity.
  - destruct (shown _); [|done]. intros [= <-]. apply Hbub. reflexivity.
  - destruct (shown _) eqn:Hshown; [|done]. unfold AssumptionsPage.keydown.
    destruct (AssumptionsPage.bubbles (assumptionsPage w.2) !! index) as [b|] eqn:Hb;
      [|done].
    destruct (JsString.eqb key (js "Enter")).
    + destruct (JsArray.set _ _ _) as [a'|]; [|done]. intros [= <-].
      unfold handleUpdateAssumptions.
      apply setState_bubbles; [|intros v Hv'; simplify_map_eq; eauto
                               |apply write_bubbles, Hloc].
      destruct w as [sm u]. apply (wf_write sm u a' Hw Hshown).
    + destruct (JsString.eqb key (js "Escape")).
      * destruct (Heap.read _ _ !! index) as [text|]; [|done]. intros [= <-].
        unfold afterPage. destruct w as [sm u]. cbn [fst snd] in *.
        apply (bubbles_frame sm sm u); try assumption; try reflexivity.
        -- exists []. rewrite app_nil_r. reflexivity.
        -- cbn [assumptionsPage setAssumptionsPage setHeap AssumptionsPage.bubbles
                AssumptionsPage.setBubbles].
           rewrite list_fmap_insert. apply list_insert_id.
           rewrite list_lookup_fmap, Hb. reflexivity.
      * intros [= <-]. unfold afterPage. apply bubbles_ui; auto.
  - intros [= <-]. apply Hbub. reflexivity.
  - destruct (shown _) eqn:Hshown; [|done]. cbn [andb].
    destruct (bool_decide _); [|done]. intros [= <-].
    unfold handleUpdateAssumptions.
    apply setState_bubbles; [|intros v Hv'; simplify_map_eq; eauto
                             |apply write_bubbles, Hloc].
    destruct w as [sm u].
    apply (wf_write sm u
             (JsArray.splice1 index
                (Heap.read (heap u) (AssumptionsPage.assumptions (assumptionsPage u))))
             Hw Hshown).
  - destruct (truthy _); [|done]. intros [= <-]. unfold toolbarInsert.
    apply setState_bubbles; [|solve_update|].
    + destruct w as [sm u].
      destruct target; cbn [show setUserPrompt setAIResponse fst snd];
        (apply (wf_frame_input sm u); try reflexivity; try exact Hw;
         intros Hf; discriminate Hf).
    + destruct target; (apply (bubbles_ui w); auto).
  - intros [= <-]. apply bubbles_ui; auto.
  - intros [= <-]. apply bubbles_ui; auto.
Qed.

Lemma create_bubbles (adapter : LLMFrontendAdapter.t) (d : HostPage.t) :
  bubblesInv (PanelManager.create adapter d).
Proof.
  split; [reflexivity|]. intros H. vm_compute in H. discriminate H.
Qed.

Lemma run_bubbles (evs : list Event) (w w' : World) :
  wf w -> bubblesInv w -> run evs w = Some w' -> bubblesInv w'.
Proof.
  revert w. induction evs as [|ev evs IH]; intros w Hw Hv; cbn [run].
  - intros [= <-]. exact Hv.
  - destruct (step ev w) as [w1|] eqn:Hstep; [|done].
    apply IH; [apply (step_wf ev w w1 Hw Hstep)|apply (step_bubbles ev w w1 Hw Hv Hstep)].
Qed.

(** *** What the events leave alone *)

Lemma keeps_refl (u : UI) : keeps u u.
Proof. split; reflexivity. Qed.

Lemma keeps_trans (u1 u2 u3 : UI) : keeps u1 u2 -> keeps u2 u3 -> keeps u1 u3.
Proof.
  intros [A1 A2 A3 A4 A5 A6 A7 A8 A9] [B1 B2 B3 B4 B5 B6 B7 B8 B9].
  split; congruence.
Qed.

Lemma setState_keeps_ui (updates : JsObject) (w : World) :
  StateManager.listeners w.1 = [PANEL_LISTENER] -> keeps w.2 (setState updates w).2.
Proof.
  intros Hl.
  destruct (setState_keeps updates w Hl) as (K1 & K2 & K3 & K4 & K5 & K6 & K7 & K8 & _ & K10).
  split; assumption.
Qed.

Lemma pageSetAssumptions_keeps (arg : JsVal) (u : UI) :
  keeps u (pageSetAssumptions arg u).1.
Proof.
  destruct (pageSetAssumptions_others arg u) as (Kp & Ki & _ & _ & Kh & _ & Kc & Kf).
  split; congruence.
Qed.

Lemma handleAnalyze_resume_keeps (c : Completion (ReasoningResult JsObject)) (w : World) :
  wf w -> validCompletion (heap w.2) c ->
  keeps w.2 (handleAnalyze_resume c w).2.
Proof.
  intros Hw Hc. pose proof Hw as [Hl _ _ _ _ _ _ _].
  destruct (resume_cases c w Hw Hc)
    as [(line & ->) | (l1 & ext1 & l2 & ext2 & -> & Hl1)].
  - apply (keeps_trans _ (consoleLog line w.2)); [split; reflexivity|].
    apply (setState_keeps_ui revertToEdit (w.1, consoleLog line w.2)), Hl.
  - match goal with
    | |- context [setState ?upd ?w1] =>
        pose proof (setState_keeps_ui upd w1 Hl) as K1;
        destruct (setState upd w1) as [sm u]
    end.
    cbn [fst snd] in *.
    apply (keeps_trans _ (setHeap (heap w.2 ++ ext1) w.2)); [split; reflexivity|].
    apply (keeps_trans _ u); [exact K1|].
    apply (keeps_trans _ (setHeap (heap u ++ ext2) u)); [split; reflexivity|].
    apply pageSetAssumptions_keeps.
Qed.

(** *** The Analyze button follows the fields *)

Lemma keeps_button (u u' : UI) :
  keeps u u' -> buttonInv (inputPage u) -> buttonInv (inputPage u').
Proof.
  intros [K1 K2 K3 K4 K5 _ _ _ _] Hb. unfold buttonInv, bothInputsFilled in *.
  rewrite K1, K2, K3, K4, K5. exact Hb.
Qed.

Lemma step_button (ev : Event) (w w' : World) :
  wf w -> buttonInv (inputPage w.2) -> step ev w = Some w' ->
  buttonInv (inputPage w'.2).
Proof.
  intros Hw Hb. pose proof Hw as [Hl _ _ _ _ _ _ _].
  destruct ev; cbn [step].
  - destruct (shown _); [|done]. intros [= <-]. intros H. discriminate H.
  - destruct (shown _); [|done]. intros [= <-]. intros H. discriminate H.
  - destruct (InputPage.debouncePending _); [|done]. intros [= <-].
    intros _. reflexivity.
  - destruct (_ && _); [|done]. intros [= <-].
    rewrite (clickAnalyze_eq w Hw).
    destruct (setState _ w) as [sm u]. intros _. reflexivity.
  - destruct (_ && _); [|done]. intros [= <-]. unfold handleForward.
    destruct (hasAssumptions _ _); [|exact Hb].
    apply (keeps_button w.2); [apply setState_keeps_ui, Hl|exact Hb].
  - destruct (bool_decide _); [|done]. intros [= <-].
    destruct (apiSettled_resume c w Hw) as (ext & c' & -> & Hw0 & Hc').
    match goal with
    | |- context [handleAnalyze_resume c' ?w0] =>
        apply (keeps_button w0.2);
        [apply (handleAnalyze_resume_keeps c' w0 Hw0 Hc')|exact Hb]
    end.
  - destruct (shown _); [|done]. intros [= <-].
    apply (keeps_button w.2); [apply setState_keeps_ui, Hl|exact Hb].
  - destruct (shown _); [|done]. intros [= <-]. unfold handleReprompt.
    destruct (LLMFrontendAdapter.insertPrompt _ _ _); exact Hb.
  - destruct (shown _); [|done]. intros [= <-]. exact Hb.
  - destruct (shown _); [|done]. intros [= <-]. exact Hb.
  - destruct (shown _); [|done].
    destruct (AssumptionsPage.keydown _ _ _ _) as [[[p h] callback]|]; [|done].
    intros [= <-]. unfold afterPage. destruct callback as [l|]; [|exact Hb].
    match goal with
    | |- context [handleUpdateAssumptions l ?w0] =>
        apply (keeps_button w0.2); [apply (setState_keeps_ui _ w0), Hl|exact Hb]
    end.
  - intros [= <-]. exact Hb.
  - destruct (_ && _); [|done]. intros [= <-].
    match goal with
    | |- context [handleUpdateAssumptions ?l ?w0] =>
        apply (keeps_button w0.2); [apply (setState_keeps_ui _ w0), Hl|exact Hb]
    end.
  - destruct (truthy _); [|done]. intros [= <-]. unfold toolbarInsert.
    match goal with
    | |- context [enterEditMode ?w0] =>
        apply (keeps_button w0.2);
        [apply (setState_keeps_ui _ w0); destruct target; exact Hl|]
    end.
    destruct target; intros _; reflexivity.
  - intros [= <-]. exact Hb.
  - intros [= <-]. exact Hb.
Qed.

(** *** Every world of a run *)

Record runInv (w : World) : Prop := mkRunInv {
  ri_wf : wf w;
  ri_synced : synced w;
  ri_views : viewsMatchMode w;
  ri_analysis : analysisInv w;
  ri_bubbles : bubblesInv w;
  ri_button : buttonInv (inputPage w.2);
}.

Lemma step_runInv (ev : Event) (w w' : World) :
  runInv w -> step ev w = Some w' -> runInv w'.
Proof.
  intros [Hw Hs Hv Ha Hb Hn] Hstep. split.
  - apply (step_wf ev w w' Hw Hstep).
  - apply (step_synced ev w w' Hw Hs Hstep).
  - apply (step_views ev w w' Hw Hv Hstep).
  - apply (step_analysis ev w w' Hw Ha Hstep).
  - apply (step_bubbles ev w w' Hw Hb Hstep).
  - apply (step_button ev w w' Hw Hn Hstep).
Qed.

Lemma create_runInv (adapter : LLMFrontendAdapter.t) (d : HostPage.t) :
  runInv (PanelManager.create adapter d).
Proof.
  split.
  - apply create_wf.
  - apply create_synced.
  - apply create_views.
  - apply create_analysis.
  - apply create_bubbles.
  - intros _. reflexivity.
Qed.

Lemma run_runInv (adapter : LLMFrontendAdapter.t) (d : HostPage.t)
    (evs : list Event) (w : World) :
  run evs (PanelManager.create adapter d) = Some w -> runInv w.
Proof.
  generalize (create_runInv adapter d). generalize (PanelManager.create adapter d).
  induction evs as [|ev evs IH]; intros w0 H0; cbn [run].
  - intros [= <-]. exact H0.
  - destruct (step ev w0) as [w1|] eqn:Hstep; [|done].
    apply IH. apply (step_runInv ev w0 w1 H0 Hstep).
Qed.

End ViewsFacts.

(** ** Every point of every run *)

Module RunFacts.

Import AssumptionsAPIClient PanelManager EventLoop PanelManagerFacts Views ViewsFacts.

Lemma run_snoc (evs : list Event) (ev : Event) (w0 w' : World) :
  run (evs ++ [ev]) w0 = Some w' ->
  exists w, run evs w0 = Some w /\ step ev w = Some w'.
Proof.
  revert w0. induction evs as [|e evs IH]; intros w0; cbn [run app].
  - destruct (step ev w0) as [w1|] eqn:Hs; [|done]. intros [= <-]. eauto.
  - destruct (step e w0) as [w1|]; [|done]. apply IH.
Qed.

Lemma shown_displayIf (b : bool) : shown (displayIf b) = b.
Proof. destruct b; reflexivity. Qed.

Lemma bool_decide_VStr (m m' : jsstring) :
  bool_decide (VStr m = VStr m') = bool_decide (m = m').
Proof. apply bool_decide_ext. split; [intros [= ->]|intros ->]; reflexivity. Qed.

Lemma hasAssumptions_assumptionsOf (w : World) :
  wf w ->
  hasAssumptions (heap w.2) (StateManager.getState w.1)
  = bool_decide (assumptionsOf w <> []).
Proof.
  intros [_ (l & Hl & _) _ _ _ _ _ _]. unfold hasAssumptions, assumptionsOf.
  change (StateManager.getState w.1) with (stateOf w).
  rewrite (lookup_prop _ _ _ Hl). cbn [truthy andb].
  destruct (JsArray.elements _ _); reflexivity.
Qed.

Lemma truthy_VStr (s : jsstring) : truthy (VStr s) = true <-> s <> [].
Proof.
  unfold truthy, JsString.eqb. case_bool_decide; cbn [negb]; split;
    congruence.
Qed.

(** X9. At every point of every run the mode of the state is one of the
    three panel modes; the controller's own [currentMode] is that mode,
    the title is the mode's, and of the three pages exactly the page of
    the mode is displayed. *)
Theorem one_page_per_mode (adapter : LLMFrontendAdapter.t) (d : HostPage.t)
    (evs : list Event) (w : World) :
  run evs (PanelManager.create adapter d) = Some w ->
  exists m,
    validMode m
    /\ prop (stateOf w) "currentMode" = VStr m
    /\ currentMode (panel w.2) = VStr m
    /\ title (panel w.2) = titleOf m
    /\ shown (InputPage.display (inputPage w.2)) = bool_decide (m = PANEL_MODES.EDIT)
    /\ shown (AnalyzingPage.display (analyzingPage w.2))
       = bool_decide (m = PANEL_MODES.ANALYZING)
    /\ shown (AssumptionsPage.display (assumptionsPage w.2))
       = bool_decide (m = PANEL_MODES.ASSUMPTIONS).
Proof.
  intros Hrun. destruct (run_runInv adapter d evs w Hrun) as [Hw _ Hv _ _ _].
  destruct Hw as [_ _ (m & Hm & Hmv) _ _ _ _ _].
  apply lookup_prop in Hm. destruct Hv as [Vi Va Vs Vt Vp _].
  unfold modeOf in *. rewrite Hm in *.
  exists m. split; [exact Hmv|]. split; [reflexivity|]. split; [exact Vp|].
  split; [apply Vt; reflexivity|].
  rewrite Vi, Va, Vs, !shown_displayIf, !bool_decide_VStr. auto.
Qed.

Lemma one_page_per_mode_witness :
  exists w m,
    run Session.analyzed Session.freshPanel = Some w
    /\ prop (stateOf w) "currentMode" = VStr m
    /\ title (panel w.2) = titleOf m
    /\ shown (AssumptionsPage.display (assumptionsPage w.2))
       = bool_decide (m = PANEL_MODES.ASSUMPTIONS).
Proof.
  destruct (run Session.analyzed Session.freshPanel) as [w|] eqn:Hrun;
    [|vm_compute in Hrun; discriminate Hrun].
  destruct (one_page_per_mode OpenAIFrontendAdapter.adapter Session.chatgptPage
              Session.analyzed w Hrun) as (m & _ & Hm & _ & Ht & _ & _ & Hs).
  exists w, m. auto.
Defined.

(** X10. At every point of every run a click on Forward reaches the
    controller exactly when Forward is visible, and Forward is visible
    only while the input page is displayed. *)
Theorem forward_click_live_iff_visible (adapter : LLMFrontendAdapter.t)
    (d : HostPage.t) (evs : list Event) (w : World) :
  run evs (PanelManager.create adapter d) = Some w ->
  (is_Some (step ClickForward w) <-> forwardVisible w = true)
  /\ (forwardVisible w = true -> shown (InputPage.display (inputPage w.2)) = true)
  /\ InputPage.forwardClickPasses (inputPage w.2) = forwardVisible w.
Proof.
  intros Hrun. destruct (run_runInv adapter d evs w Hrun) as [Hw _ Hv _ _ _].
  assert (Hp : InputPage.forwardClickPasses (inputPage w.2) = forwardVisible w).
  { unfold InputPage.forwardClickPasses. rewrite (vm_forward w Hv).
    apply negb_involutive. }
  assert (Hs : forwardVisible w = true ->
               shown (InputPage.display (inputPage w.2)) = true).
  { intros Hf. destruct (wf_forward w Hw Hf) as (Hedit & _).
    rewrite (vm_input w Hv). unfold modeOf. rewrite Hedit.
    rewrite bool_decide_eq_true_2 by reflexivity. reflexivity. }
  split; [|split; [exact Hs|exact Hp]].
  cbn [step]. rewrite Hp. split.
  - destruct (forwardVisible w); [reflexivity|].
    rewrite andb_false_r. intros [? [=]].
  - intros Hf. rewrite (Hs Hf), Hf. cbn [andb]. eauto.
Qed.

Lemma forward_click_live_iff_visible_witness :
  exists w,
    run Session.backToEdit Session.freshPanel = Some w
    /\ (is_Some (step ClickForward w) <-> forwardVisible w = true).
Proof.
  destruct (run Session.backToEdit Session.freshPanel) as [w|] eqn:Hrun;
    [|vm_compute in Hrun; discriminate Hrun].
  exists w. split; [reflexivity|].
  exact (proj1 (forward_click_live_iff_visible OpenAIFrontendAdapter.adapter
                  Session.chatgptPage Session.backToEdit w Hrun)).
Defined.

(** X11. At every point of every run the Analyze click listener's second
    test is implied by its first: the click passes exactly when the button
    is enabled.  And whenever no debounced input change is pending, the
    button is enabled exactly when both fields hold more than white space
    and have changed since the last analysis. *)
Theorem analyze_button_tracks_inputs (adapter : LLMFrontendAdapter.t)
    (d : HostPage.t) (evs : list Event) (w : World) :
  run evs (PanelManager.create adapter d) = Some w ->
  let p := inputPage w.2 in
  InputPage.analyzeClickPasses p = negb (InputPage.analyzeDisabled p)
  /\ (InputPage.debouncePending p = false ->
      InputPage.analyzeDisabled p
      = negb (bothInputsFilled p && InputPage.inputsChangedSinceAnalyze p)).
Proof.
  intros Hrun p. destruct (run_runInv adapter d evs w Hrun) as [_ _ _ Ha _ Hb].
  split; [|exact Hb].
  unfold InputPage.analyzeClickPasses. pose proof (ai_analyze w Ha) as H.
  fold p in H. destruct (InputPage.analyzeDisabled p); [reflexivity|].
  rewrite H by reflexivity. reflexivity.
Qed.

Lemma analyze_button_tracks_inputs_witness :
  exists w,
    run [TypePrompt (js "Translate this."); TypeResponse (js "Bonjour"); DebounceElapsed]
        Session.freshPanel = Some w
    /\ InputPage.analyzeClickPasses (inputPage w.2)
       = negb (InputPage.analyzeDisabled (inputPage w.2)).
Proof.
  destruct (run [TypePrompt (js "Translate this."); TypeResponse (js "Bonjour");
                 DebounceElapsed] Session.freshPanel) as [w|] eqn:Hrun;
    [|vm_compute in Hrun; discriminate Hrun].
  exists w. split; [reflexivity|].
  exact (proj1 (analyze_button_tracks_inputs OpenAIFrontendAdapter.adapter
                  Session.chatgptPage _ w Hrun)).
Defined.

(** X12. At every point of every run [isAnalyzing] is a boolean; it is
    true in [analyzing] mode; while it is true an API call is in flight;
    so the Analyzing page is displayed only while a call is in flight. *)
Theorem analyzing_has_call_in_flight (adapter : LLMFrontendAdapter.t)
    (d : HostPage.t) (evs : list Event) (w : World) :
  run evs (PanelManager.create adapter d) = Some w ->
  (exists b, prop (stateOf w) "isAnalyzing" = VBool b)
  /\ (prop (stateOf w) "currentMode" = VStr PANEL_MODES.ANALYZING ->
      prop (stateOf w) "isAnalyzing" = VBool true)
  /\ (prop (stateOf w) "isAnalyzing" = VBool true -> 0 < inFlight w.2)
  /\ (shown (AnalyzingPage.display (analyzingPage w.2)) = true -> 0 < inFlight w.2).
Proof.
  intros Hrun. destruct (run_runInv adapter d evs w Hrun) as [_ _ Hv Ha _ _].
  destruct Ha as [Ht Hm Hf _].
  split; [exact Ht|]. split; [exact Hm|]. split; [exact Hf|].
  rewrite (vm_analyzing w Hv), shown_displayIf. intros Hs.
  apply bool_decide_eq_true in Hs. apply Hf, Hm, Hs.
Qed.

Lemma analyzing_has_call_in_flight_witness :
  exists w,
    run Session.analysisFailed Session.freshPanel = Some w
    /\ (prop (stateOf w) "isAnalyzing" = VBool true -> 0 < inFlight w.2).
Proof.
  destruct (run Session.analysisFailed Session.freshPanel) as [w|] eqn:Hrun;
    [|vm_compute in Hrun; discriminate Hrun].
  exists w. split; [reflexivity|].
  exact (proj1 (proj2 (proj2 (analyzing_has_call_in_flight OpenAIFrontendAdapter.adapter
                                Session.chatgptPage _ w Hrun)))).
Defined.

(** X13. At every point of every run the bubbles of the assumptions page
    show the assumptions of the state, one bubble each and in order, and
    the "No assumptions found" notice is there only when the state has no
    assumptions. *)
Theorem bubbles_show_state_list (adapter : LLMFrontendAdapter.t)
    (d : HostPage.t) (evs : list Event) (w : World) :
  run evs (PanelManager.create adapter d) = Some w ->
  AssumptionsPage.spanText <$> AssumptionsPage.bubbles (assumptionsPage w.2)
  = assumptionsOf w
  /\ (AssumptionsPage.emptyNotice (assumptionsPage w.2) = true -> assumptionsOf w = []).
Proof.
  intros Hrun. destruct (run_runInv adapter d evs w Hrun) as [_ Hs _ _ [Ht Hn] _].
  unfold synced in Hs. rewrite <- Hs. auto.
Qed.

Lemma bubbles_show_state_list_witness :
  exists w,
    run Session.editCommitted Session.freshPanel = Some w
    /\ AssumptionsPage.spanText <$> AssumptionsPage.bubbles (assumptionsPage w.2)
       = assumptionsOf w.
Proof.
  destruct (run Session.editCommitted Session.freshPanel) as [w|] eqn:Hrun;
    [|vm_compute in Hrun; discriminate Hrun].
  exists w. split; [reflexivity|].
  exact (proj1 (bubbles_show_state_list OpenAIFrontendAdapter.adapter
                  Session.chatgptPage _ w Hrun)).
Defined.

(** *** What the clicks do *)

Lemma runInv_step (adapter : LLMFrontendAdapter.t) (d : HostPage.t)
    (evs : list Event) (ev : Event) (w w' : World) :
  run evs (PanelManager.create adapter d) = Some w -> step ev w = Some w' ->
  runInv w /\ runInv w'.
Proof.
  intros Hrun Hstep. pose proof (run_runInv adapter d evs w Hrun) as HI.
  split; [exact HI|apply (step_runInv ev w w' HI Hstep)].
Qed.

Lemma shown_mode_page (w : World) (m : jsstring) :
  viewsMatchMode w -> prop (stateOf w) "currentMode" = VStr m ->
  shown (InputPage.display (inputPage w.2)) = bool_decide (m = PANEL_MODES.EDIT)
  /\ shown (AnalyzingPage.display (analyzingPage w.2))
     = bool_decide (m = PANEL_MODES.ANALYZING)
  /\ shown (AssumptionsPage.display (assumptionsPage w.2))
     = bool_decide (m = PANEL_MODES.ASSUMPTIONS).
Proof.
  intros [Vi Va Vs _ _ _] Hm. unfold modeOf in *. rewrite Hm in *.
  rewrite Vi, Va, Vs, !shown_displayIf, !bool_decide_VStr. auto.
Qed.

(** X14. At every point of every run, a click on Forward that reaches
    the controller finds the panel in [edit] mode with a non-empty list,
    and leaves it in [assumptions] mode with the same list, the
    assumptions page displayed and showing that list. *)
Theorem forward_click_opens_assumptions (adapter : LLMFrontendAdapter.t)
    (d : HostPage.t) (evs : list Event) (w w' : World) :
  run evs (PanelManager.create adapter d) = Some w ->
  step ClickForward w = Some w' ->
  prop (stateOf w) "currentMode" = VStr PANEL_MODES.EDIT
  /\ assumptionsOf w <> []
  /\ prop (stateOf w') "currentMode" = VStr PANEL_MODES.ASSUMPTIONS
  /\ assumptionsOf w' = assumptionsOf w
  /\ shown (AssumptionsPage.display (assumptionsPage w'.2)) = true
  /\ AssumptionsPage.spanText <$> AssumptionsPage.bubbles (assumptionsPage w'.2)
     = assumptionsOf w.
Proof.
  intros Hrun Hstep.
  destruct (runInv_step adapter d evs ClickForward w w' Hrun Hstep)
    as ([Hw _ Hv _ _ _] & [_ Hs' Hv' _ [Ht' _] _]).
  cbn [step] in Hstep.
  destruct (shown _ && InputPage.forwardClickPasses _) eqn:Hg; [|discriminate Hstep].
  apply andb_prop in Hg as [_ Hfp].
  unfold InputPage.forwardClickPasses in Hfp.
  rewrite (vm_forward w Hv), negb_involutive in Hfp.
  destruct (wf_forward w Hw Hfp) as (Hedit & Hne).
  unfold handleForward in Hstep.
  rewrite (hasAssumptions_assumptionsOf w Hw), bool_decide_eq_true_2 in Hstep
    by exact Hne.
  injection Hstep as <-.
  assert (Hm' : prop (stateOf (setState (<["currentMode" := VStr PANEL_MODES.ASSUMPTIONS]> ∅) w))
                     "currentMode" = VStr PANEL_MODES.ASSUMPTIONS).
  { rewrite stateOf_setState. reflexivity. }
  assert (Ha' : assumptionsOf (setState (<["currentMode" := VStr PANEL_MODES.ASSUMPTIONS]> ∅) w)
                = assumptionsOf w).
  { apply assumptionsOf_setState_keep; [exact Hw|reflexivity]. }
  split; [exact Hedit|]. split; [exact Hne|]. split; [exact Hm'|].
  split; [exact Ha'|]. split.
  - destruct (shown_mode_page _ _ Hv' Hm') as (_ & _ & ->).
    apply bool_decide_eq_true_2. reflexivity.
  - rewrite Ht'. unfold synced in Hs'. rewrite Hs'. exact Ha'.
Qed.

Lemma forward_click_opens_assumptions_witness :
  exists w w',
    run Session.backToEdit Session.freshPanel = Some w
    /\ step ClickForward w = Some w'
    /\ prop (stateOf w') "currentMode" = VStr PANEL_MODES.ASSUMPTIONS
    /\ assumptionsOf w' = assumptionsOf w.
Proof.
  destruct (run (Session.backToEdit ++ [ClickForward]) Session.freshPanel)
    as [w'|] eqn:Hrun; [|vm_compute in Hrun; discriminate Hrun].
  destruct (run_snoc _ _ _ _ Hrun) as (w & Hw & Hstep).
  exists w, w'. split; [exact Hw|]. split; [exact Hstep|].
  destruct (forward_click_opens_assumptions OpenAIFrontendAdapter.adapter
              Session.chatgptPage Session.backToEdit w w' Hw Hstep)
    as (_ & _ & Hm & Ha & _).
  split; [exact Hm|exact Ha].
Defined.

Lemma clickAnalyze_fst (w : World) :
  wf w ->
  (clickAnalyze w).1
  = (setState (<["isAnalyzing" := VBool true]>
               (<["savedPrompt" := VStr (InputPage.getUserPrompt (inputPage w.2))]>
                (<["savedResponse" := VStr (InputPage.getAIResponse (inputPage w.2))]>
                 (<["currentMode" := VStr PANEL_MODES.ANALYZING]> ∅)))) w).1.
Proof.
  intros Hw. rewrite (clickAnalyze_eq w Hw). destruct (setState _ w) as [sm u].
  reflexivity.
Qed.

Lemma clickAnalyze_inFlight (w : World) :
  wf w ->
  inFlight (clickAnalyze w).2 = S (inFlight w.2).
Proof.
  intros Hw. pose proof Hw as [Hl _ _ _ _ _ _ _]. rewrite (clickAnalyze_eq w Hw).
  match goal with
  | |- context [setState ?upd w] =>
      pose proof (k_inFlight _ _ (setState_keeps_ui upd w Hl)) as K;
      destruct (setState upd w) as [sm u]
  end.
  cbn [snd inFlight setInputPage] in *. rewrite K. reflexivity.
Qed.

(** X15. At every point of every run, an Analyze click that passes the
    listener's test saves the two fields, trimmed, as [savedPrompt] and
    [savedResponse], sets [isAnalyzing], puts the panel in [analyzing]
    mode with the Analyzing page displayed, and has one more call in
    flight; until that changes neither Analyze nor Forward can be
    clicked again.  If no debounced input change was pending, neither
    saved text is empty. *)
Theorem analyze_click_starts_analysis (adapter : LLMFrontendAdapter.t)
    (d : HostPage.t) (evs : list Event) (w w' : World) :
  run evs (PanelManager.create adapter d) = Some w ->
  step ClickAnalyze w = Some w' ->
  let p := JsString.trim (InputPage.userPrompt (inputPage w.2)) in
  let r := JsString.trim (InputPage.aiResponse (inputPage w.2)) in
  prop (stateOf w') "savedPrompt" = VStr p
  /\ prop (stateOf w') "savedResponse" = VStr r
  /\ prop (stateOf w') "isAnalyzing" = VBool true
  /\ prop (stateOf w') "currentMode" = VStr PANEL_MODES.ANALYZING
  /\ inFlight w'.2 = S (inFlight w.2)
  /\ shown (AnalyzingPage.display (analyzingPage w'.2)) = true
  /\ step ClickAnalyze w' = None
  /\ step ClickForward w' = None
  /\ (InputPage.debouncePending (inputPage w.2) = false -> p <> [] /\ r <> []).
Proof.
  intros Hrun Hstep p r.
  destruct (runInv_step adapter d evs ClickAnalyze w w' Hrun Hstep)
    as ([Hw _ _ _ _ Hb] & [_ _ Hv' _ _ _]).
  pose proof Hw as [Hl _ _ _ _ _ _ _].
  cbn [step] in Hstep.
  destruct (shown _ && InputPage.analyzeClickPasses _) eqn:Hg; [|discriminate Hstep].
  apply andb_prop in Hg as [_ Hpass]. injection Hstep as <-.
  assert (Hprops :
    prop (stateOf (clickAnalyze w)) "savedPrompt" = VStr p
    /\ prop (stateOf (clickAnalyze w)) "savedResponse" = VStr r
    /\ prop (stateOf (clickAnalyze w)) "isAnalyzing" = VBool true
    /\ prop (stateOf (clickAnalyze w)) "currentMode" = VStr PANEL_MODES.ANALYZING).
  { unfold stateOf. rewrite (clickAnalyze_fst w Hw).
    fold (stateOf (setState
            (<["isAnalyzing" := VBool true]>
             (<["savedPrompt" := VStr (InputPage.getUserPrompt (inputPage w.2))]>
              (<["savedResponse" := VStr (InputPage.getAIResponse (inputPage w.2))]>
               (<["currentMode" := VStr PANEL_MODES.ANALYZING]> ∅)))) w)).
    rewrite !stateOf_setState. unfold InputPage.getUserPrompt, InputPage.getAIResponse.
    fold p. fold r. generalize p r. intros p0 r0.
    repeat split; vm_compute; reflexivity. }
  destruct Hprops as (H1 & H2 & H3 & H4).
  destruct (shown_mode_page _ _ Hv' H4) as (Si & Sa & _).
  split; [exact H1|]. split; [exact H2|]. split; [exact H3|]. split; [exact H4|].
  split; [apply clickAnalyze_inFlight, Hw|].
  split; [rewrite Sa; apply bool_decide_eq_true_2; reflexivity|].
  assert (Hhidden : shown (InputPage.display (inputPage (clickAnalyze w).2)) = false).
  { rewrite Si. apply bool_decide_eq_false_2. discriminate. }
  split; [cbn [step]; rewrite Hhidden; reflexivity|].
  split; [cbn [step]; rewrite Hhidden; reflexivity|].
  intros Hpending. specialize (Hb Hpending).
  unfold InputPage.analyzeClickPasses in Hpass.
  apply andb_prop in Hpass as [Hen Hch]. apply negb_true_iff in Hen.
  rewrite Hen, Hch, andb_true_r in Hb. symmetry in Hb.
  apply negb_false_iff in Hb. unfold bothInputsFilled in Hb.
  apply andb_prop in Hb as [Hp Hr].
  split; [apply truthy_VStr, Hp|apply truthy_VStr, Hr].
Qed.

Lemma analyze_click_starts_analysis_witness :
  exists w w',
    run [TypePrompt (js " Translate this. "); TypeResponse (js "Bonjour");
         DebounceElapsed] Session.freshPanel = Some w
    /\ step ClickAnalyze w = Some w'
    /\ prop (stateOf w') "savedPrompt"
       = VStr (JsString.trim (InputPage.userPrompt (inputPage w.2)))
    /\ inFlight w'.2 = S (inFlight w.2).
Proof.
  destruct (run ([TypePrompt (js " Translate this. "); TypeResponse (js "Bonjour");
                  DebounceElapsed] ++ [ClickAnalyze]) Session.freshPanel)
    as [w'|] eqn:Hrun; [|vm_compute in Hrun; discriminate Hrun].
  destruct (run_snoc _ _ _ _ Hrun) as (w & Hw & Hstep).
  exists w, w'. split; [exact Hw|]. split; [exact Hstep|].
  destruct (analyze_click_starts_analysis OpenAIFrontendAdapter.adapter
              Session.chatgptPage _ w w' Hw Hstep)
    as (H1 & _ & _ & _ & H5 & _).
  split; [exact H1|exact H5].
Defined.

(** X16. At every point of every run, Back can be clicked in
    [assumptions] mode only; it leaves the panel in [edit] mode with the
    same list and the input page displayed, its two fields as they were,
    and Forward is visible afterwards exactly when the list is
    non-empty. *)
Theorem back_returns_to_edit (adapter : LLMFrontendAdapter.t)
    (d : HostPage.t) (evs : list Event) (w w' : World) :
  run evs (PanelManager.create adapter d) = Some w ->
  step ClickBack w = Some w' ->
  prop (stateOf w) "currentMode" = VStr PANEL_MODES.ASSUMPTIONS
  /\ prop (stateOf w') "currentMode" = VStr PANEL_MODES.EDIT
  /\ assumptionsOf w' = assumptionsOf w
  /\ shown (InputPage.display (inputPage w'.2)) = true
  /\ InputPage.userPrompt (inputPage w'.2) = InputPage.userPrompt (inputPage w.2)
  /\ InputPage.aiResponse (inputPage w'.2) = InputPage.aiResponse (inputPage w.2)
  /\ forwardVisible w' = bool_decide (assumptionsOf w <> []).
Proof.
  intros Hrun Hstep.
  destruct (runInv_step adapter d evs ClickBack w w' Hrun Hstep)
    as ([Hw _ _ _ _ _] & [_ _ Hv' _ _ _]).
  pose proof Hw as [Hl _ _ _ _ _ Hd _].
  cbn [step] in Hstep.
  destruct (shown _) eqn:Hg; [|discriminate Hstep].
  injection Hstep as <-. specialize (Hd eq_refl). unfold enterEditMode in *.
  set (upd := <["currentMode" := VStr PANEL_MODES.EDIT]> ∅) in *.
  assert (Hm' : prop (stateOf (setState upd w)) "currentMode" = VStr PANEL_MODES.EDIT).
  { rewrite stateOf_setState. reflexivity. }
  destruct (shown_mode_page _ _ Hv' Hm') as (Si & _ & _).
  destruct (setState_keeps_ui upd w Hl) as [_ _ Kp Kr _ _ _ _ _].
  split; [exact Hd|]. split; [exact Hm'|].
  split; [apply assumptionsOf_setState_keep; [exact Hw|reflexivity]|].
  split; [rewrite Si; apply bool_decide_eq_true_2; reflexivity|].
  split; [exact Kp|]. split; [exact Kr|].
  unfold forwardVisible. rewrite (setState_snd upd w Hl), handleStateChange_forward.
  change (StateManager.spread (StateManager.state w.1) upd)
    with (stateOf (setState upd w)).
  change (StateManager.state w.1) with (stateOf w).
  rewrite (setState_modeChanged upd w PANEL_MODES.ASSUMPTIONS PANEL_MODES.EDIT);
    [|reflexivity|exact Hd|discriminate].
  rewrite Hm', bool_decide_eq_true_2 by reflexivity. cbn [andb].
  rewrite <- (hasAssumptions_assumptionsOf w Hw). unfold hasAssumptions.
  change (StateManager.getState (setState upd w).1) with (stateOf (setState upd w)).
  change (StateManager.getState w.1) with (stateOf w).
  rewrite stateOf_setState. reflexivity.
Qed.

Lemma back_returns_to_edit_witness :
  exists w w',
    run Session.analyzed Session.freshPanel = Some w
    /\ step ClickBack w = Some w'
    /\ prop (stateOf w') "currentMode" = VStr PANEL_MODES.EDIT
    /\ forwardVisible w' = bool_decide (assumptionsOf w <> []).
Proof.
  destruct (run (Session.analyzed ++ [ClickBack]) Session.freshPanel)
    as [w'|] eqn:Hrun; [|vm_compute in Hrun; discriminate Hrun].
  destruct (run_snoc _ _ _ _ Hrun) as (w & Hw & Hstep).
  exists w, w'. split; [exact Hw|]. split; [exact Hstep|].
  destruct (back_returns_to_edit OpenAIFrontendAdapter.adapter
              Session.chatgptPage _ w w' Hw Hstep)
    as (_ & Hm & _ & _ & _ & _ & Hf).
  split; [exact Hm|exact Hf].
Defined.

End RunFacts.
